(** * Journal client (src/src/App.js): remote call adapter, file encoder,
      entry orchestration, mood log and mock assistant.

    The JavaScript of [App.js] is embedded as Rocq functions.  Strings are
    sequences of UTF-16 code units, as in the language; values received
    from the network are untyped JavaScript values; the handlers of the
    component are computations in a state-and-exception monad that also
    records the I/O they perform. *)

From Stdlib Require Import List NArith ZArith Bool String Ascii Lia.
Import ListNotations.
Local Open Scope N_scope.
Local Set Warnings "-register-all".

(* ================================================================== *)
(** ** Strings *)

(** A JavaScript string: its UTF-16 code units. [length], [slice] and
    [indexOf] count code units. *)
Definition jsstring := list N.

(** Code units of a literal written in this file (which is UTF-8). *)
Fixpoint utf8_units (bs : list N) : jsstring :=
  match bs with
  | [] => []
  | b0 :: r0 =>
      if b0 <? 128 then b0 :: utf8_units r0
      else
        match r0 with
        | [] => []
        | b1 :: r1 =>
            if b0 <? 224 then ((b0 - 192) * 64 + (b1 - 128)) :: utf8_units r1
            else
              match r1 with
              | [] => []
              | b2 :: r2 =>
                  if b0 <? 240
                  then ((b0 - 224) * 4096 + (b1 - 128) * 64 + (b2 - 128))
                         :: utf8_units r2
                  else
                    match r2 with
                    | [] => []
                    | b3 :: r3 =>
                        let cp := (b0 - 240) * 262144 + (b1 - 128) * 4096
                                  + (b2 - 128) * 64 + (b3 - 128) in
                        let c := cp - 65536 in
                        (55296 + c / 1024) :: (56320 + c mod 1024)
                          :: utf8_units r3
                    end
              end
        end
  end.

Definition lit (s : string) : jsstring :=
  utf8_units (map N_of_ascii (list_ascii_of_string s)).

Definition jsstring_eqb (a b : jsstring) : bool :=
  if list_eq_dec N.eq_dec a b then true else false.

(** [!s] for a string: true exactly for the empty string. *)
Definition is_empty (s : jsstring) : bool :=
  match s with [] => true | _ :: _ => false end.

(** [String.prototype.indexOf] for a one-unit pattern: the first index
    holding [c], or -1. *)
Fixpoint indexOf (c : N) (s : jsstring) : Z :=
  match s with
  | [] => (-1)%Z
  | x :: r =>
      if x =? c then 0%Z
      else let i := indexOf c r in if (i <? 0)%Z then (-1)%Z else (i + 1)%Z
  end.

(** [s.slice(start)]: a negative [start] counts from the end. *)
Definition slice_from (start : Z) (s : jsstring) : jsstring :=
  let len := Z.of_nat (List.length s) in
  let from := if (start <? 0)%Z then Z.max (len + start) 0 else Z.min start len in
  skipn (Z.to_nat from) s.

(** [s.slice(0, n)] for a non-negative literal [n]. *)
Definition slice_to {A} (n : nat) (s : list A) : list A := firstn n s.

(** White space and line terminators removed by [String.prototype.trim]. *)
Definition is_space (c : N) : bool :=
  (9 <=? c) && (c <=? 13) || (c =? 32) || (c =? 160) || (c =? 5760)
  || (8192 <=? c) && (c <=? 8202) || (c =? 8232) || (c =? 8233)
  || (c =? 8239) || (c =? 8287) || (c =? 12288) || (c =? 65279).

Fixpoint trim_start (s : jsstring) : jsstring :=
  match s with
  | [] => []
  | c :: r => if is_space c then trim_start r else s
  end.

Definition trim (s : jsstring) : jsstring :=
  rev (trim_start (rev (trim_start s))).

(** The list of the values, when every one is there. *)
Fixpoint all_some {A} (l : list (option A)) : option (list A) :=
  match l with
  | [] => Some []
  | None :: _ => None
  | Some a :: r => option_map (cons a) (all_some r)
  end.

Fixpoint join (sep : jsstring) (parts : list jsstring) : jsstring :=
  match parts with
  | [] => []
  | [p] => p
  | p :: rest => p ++ sep ++ join sep rest
  end.

(** Decimal numeral of a natural number, as [Number::toString] prints a
    non-negative integer below 10^21. *)
Fixpoint digits_fuel (fuel : nat) (n : N) (acc : jsstring) : jsstring :=
  match fuel with
  | O => acc
  | S f =>
      let acc' := (48 + n mod 10) :: acc in
      if n <? 10 then acc' else digits_fuel f (n / 10) acc'
  end.

Definition N_to_string (n : N) : jsstring :=
  digits_fuel (S (N.to_nat (N.log2 n))) n [].

Definition Z_to_string (z : Z) : jsstring :=
  if (z <? 0)%Z then 45 :: N_to_string (Z.to_N (- z)) else N_to_string (Z.to_N z).

(* ================================================================== *)
(** ** JavaScript values *)

(** Numbers are IEEE-754 doubles. The program never computes with the
    numbers it receives; it only tests them for truth and converts them to
    text, so the number type is kept abstract with these two operations. *)
Class JSNumber : Type := {
  number : Type;
  num_truthy : number -> bool;        (* false for +0, -0 and NaN *)
  num_to_string : number -> jsstring  (* Number::toString *)
}.

Section Values.
Context {NUM : JSNumber}.

Inductive value : Type :=
| VUndefined
| VNull
| VBool (b : bool)
| VNum (n : number)
| VStr (s : jsstring)
| VArr (l : list value)
| VObj (o : list (jsstring * value)).

(** ToBoolean. *)
Definition truthy (v : value) : bool :=
  match v with
  | VUndefined | VNull => false
  | VBool b => b
  | VNum n => num_truthy n
  | VStr s => negb (is_empty s)
  | VArr _ | VObj _ => true
  end.

(** [a || b] and [a && b]; the right operand has no effect in this
    program, so it is passed evaluated. *)
Definition js_or (a b : value) : value := if truthy a then a else b.
Definition js_and (a b : value) : value := if truthy a then b else a.

Definition has_key (k : jsstring) (o : list (jsstring * value)) : bool :=
  existsb (fun kv => jsstring_eqb (fst kv) k) o.

(** ToString, [None] when the conversion throws a [TypeError]. An array
    prints its elements separated by commas, with [null] and [undefined]
    elements printed as nothing. A plain object prints through
    [Object.prototype.toString], unless a key [toString] of its own
    hides that method: the values of this program's objects are data,
    never functions, and then the object has no primitive value. *)
Fixpoint to_string (v : value) : option jsstring :=
  match v with
  | VUndefined => Some (lit "undefined")
  | VNull => Some (lit "null")
  | VBool true => Some (lit "true")
  | VBool false => Some (lit "false")
  | VNum n => Some (num_to_string n)
  | VStr s => Some s
  | VArr l =>
      option_map (join (lit ","))
        (all_some (map (fun x => match x with
                                 | VUndefined | VNull => Some []
                                 | _ => to_string x
                                 end) l))
  | VObj o => if has_key (lit "toString") o then None else Some (lit "[object Object]")
  end.

(** Own property of an object built by [JSON.parse] or by an object
    literal: keys are unique, absent keys read as [undefined]. *)
Fixpoint lookup (k : jsstring) (o : list (jsstring * value)) : value :=
  match o with
  | [] => VUndefined
  | (k', v) :: r => if jsstring_eqb k' k then v else lookup k r
  end.

(** [v.p] for a value that is neither [null] nor [undefined], and
    [v?.p] for any value. The property names this program reads
    ([message], [entries], [value], [blobName], [fileUrl], [id], [text],
    [visibility]) are on no built-in prototype of the values they are
    read from, so they are found on plain objects only. *)
Definition prop (v : value) (p : jsstring) : value :=
  match v with
  | VObj o => lookup p o
  | _ => VUndefined
  end.

Definition isArray (v : value) : bool :=
  match v with VArr _ => true | _ => false end.

End Values.

Arguments value : clear implicits.
Arguments value {NUM}.

(* ================================================================== *)
(** ** Exceptions, the platform and the outside world *)

(** A thrown [Error] object: its [name] and [message]. *)
Record exn : Type := { ename : jsstring; emessage : jsstring }.

(** [new Error(message)] for a string [message]. *)
Definition newError (message : jsstring) : exn :=
  {| ename := lit "Error"; emessage := message |}.

(** [String(e)] for an error object ([Error.prototype.toString]). *)
Definition exn_to_string (e : exn) : jsstring :=
  if is_empty (ename e) then emessage e
  else if is_empty (emessage e) then ename e
  else ename e ++ lit ": " ++ emessage e.

(** What the JavaScript engine provides: [JSON.parse] ([None] when it
    throws), and the messages of the [TypeError]s raised when a property
    is read from [null] or [undefined] and when an object has no
    primitive value. *)
Class Platform {NUM : JSNumber} : Type := {
  JSON_parse : jsstring -> option value;
  null_read_message : value -> jsstring -> jsstring;
  no_primitive_message : jsstring
}.

(** The platform [P] with another [JSON.parse]. *)
Definition with_parser {NUM : JSNumber} (P : Platform) (parse : jsstring -> option value) :
    Platform :=
  {| JSON_parse := parse;
     null_read_message := @null_read_message NUM P;
     no_primitive_message := @no_primitive_message NUM P |}.

(** A [File] picked in the form: [name] and [type]. *)
Record File : Type := { name : jsstring; type : jsstring }.

(** A response of [fetch] whose body has been read: [res.ok],
    [res.status], and the text [res.text()] resolves to. *)
Record Response : Type := { ok : bool; status_code : N; body_text : jsstring }.

(** The outcome of one exchange: the promise of [fetch] or of
    [res.text()] rejects, or a response arrives in full. *)
Inductive net_outcome : Type :=
| NetFailed (e : exn)
| NetResponse (r : Response).

(** The outcome of [FileReader.readAsDataURL]: [onerror], or [onload]
    with [reader.result], which is a string or [null]. *)
Inductive read_outcome : Type :=
| ReadFailed
| ReadLoaded (result : option jsstring).

(** What a handler does that is visible outside of the component, in the
    order it happens: file reads, requests (URL, method, and the object
    whose JSON text is the body), and the failures its [catch] clauses
    receive. *)
Inductive event {NUM : JSNumber} : Type :=
| EvReadFile (f : File)
| EvFetch (url method : jsstring) (payload : value)
| EvCaught (e : exn).

(** The world answers each request, each file read and each reading of
    the clock, possibly depending on everything that happened before. *)
Record World {NUM : JSNumber} : Type := {
  net : list event -> net_outcome;
  reader : list event -> read_outcome;
  clock : list event -> jsstring       (* new Date().toISOString() *)
}.

(** The build-time configuration [ENDPOINTS]: each entry is a string or
    [undefined]. *)
Module ENDPOINTS.
Record t : Type := {
  upload : option jsstring;
  create : option jsstring;
  get : option jsstring;
  update : option jsstring;
  del : option jsstring
}.
End ENDPOINTS.

(* ================================================================== *)
(** ** Component state *)

(** An item of [moodHistory]: [{ date, mood, notes }]. *)
Record MoodRecord : Type := { date : jsstring; score : Z; notes : jsstring }.

(** The [useState] cells of [App] that the handlers below read or write.
    Cells filled from form controls hold strings; cells filled from
    responses hold whatever the server sent. *)
Record State {NUM : JSNumber} : Type := {
  userId : jsstring;
  text : jsstring;
  visibility : jsstring;
  file : option File;
  uploadedFileUrl : value;
  uploadedBlobName : value;
  entries : value;
  loadingEntries : bool;
  editingId : value;
  editText : value;
  editVisibility : value;
  status : jsstring;
  error : jsstring;
  mood : Z;
  moodNotes : jsstring;
  moodHistory : list MoodRecord
}.

Definition initialState {NUM : JSNumber} : State :=
  {| userId := lit "u12345"; text := []; visibility := lit "private";
     file := None; uploadedFileUrl := VStr []; uploadedBlobName := VStr [];
     entries := VArr []; loadingEntries := false;
     editingId := VNull; editText := VStr []; editVisibility := VStr (lit "private");
     status := []; error := [];
     mood := 3%Z; moodNotes := []; moodHistory := [] |}.

(** The component while a handler runs: the state cells as the setters
    leave them, and the log of what has happened so far, oldest first. *)
Record Machine {NUM : JSNumber} : Type := { ui : State; trace : list event }.

(* ================================================================== *)
(** ** The monad of handlers: state, log and exceptions *)

Section Monad.
Context {NUM : JSNumber}.

(** A computation either completes with a result or throws; either way
    it leaves a machine behind. *)
Definition M (A : Type) : Type := Machine -> Machine * (exn + A).

Definition ret {A} (a : A) : M A := fun m => (m, inr a).

Definition bind {A B} (c : M A) (k : A -> M B) : M B :=
  fun m =>
    match c m with
    | (m', inr a) => k a m'
    | (m', inl e) => (m', inl e)
    end.

Definition throw {A} (e : exn) : M A := fun m => (m, inl e).

Definition log (ev : event) : M unit :=
  fun m => ({| ui := ui m; trace := trace m ++ [ev] |}, inr tt).

Definition modify (f : State -> State) : M unit :=
  fun m => ({| ui := f (ui m); trace := trace m |}, inr tt).

(** [try { body } catch (e) { handler }]; the failure caught is logged. *)
Definition try_catch (body : M unit) (handler : exn -> M unit) : M unit :=
  fun m =>
    match body m with
    | (m', inr a) => (m', inr a)
    | (m', inl e) => bind (log (EvCaught e)) (fun _ => handler e) m'
    end.

(** [c finally { fin }]: [fin] runs whatever [c] did; a failure of [c]
    is thrown again afterwards. *)
Definition finally {A} (c : M A) (fin : M unit) : M A :=
  fun m =>
    match c m with
    | (m', r) =>
        match fin m' with
        | (m'', inr _) => (m'', r)
        | (m'', inl e) => (m'', inl e)
        end
    end.

End Monad.

Declare Scope js_scope.
Delimit Scope js_scope with js.
Notation "x <- c ;; k" := (bind c (fun x => k))
  (at level 100, c at next level, right associativity) : js_scope.
Notation "c ;; k" := (bind c (fun _ => k))
  (at level 100, right associativity) : js_scope.
Local Open Scope js_scope.

(* ================================================================== *)
(** ** Setters *)

Section Setters.
Context {NUM : JSNumber}.

Definition set_text (v : jsstring) (s : State) : State :=
  {| userId := userId s; text := v; visibility := visibility s; file := file s;
     uploadedFileUrl := uploadedFileUrl s; uploadedBlobName := uploadedBlobName s;
     entries := entries s; loadingEntries := loadingEntries s;
     editingId := editingId s; editText := editText s;
     editVisibility := editVisibility s; status := status s; error := error s;
     mood := mood s; moodNotes := moodNotes s; moodHistory := moodHistory s |}.

Definition set_file (v : option File) (s : State) : State :=
  {| userId := userId s; text := text s; visibility := visibility s; file := v;
     uploadedFileUrl := uploadedFileUrl s; uploadedBlobName := uploadedBlobName s;
     entries := entries s; loadingEntries := loadingEntries s;
     editingId := editingId s; editText := editText s;
     editVisibility := editVisibility s; status := status s; error := error s;
     mood := mood s; moodNotes := moodNotes s; moodHistory := moodHistory s |}.

Definition set_uploadedFileUrl (v : value) (s : State) : State :=
  {| userId := userId s; text := text s; visibility := visibility s; file := file s;
     uploadedFileUrl := v; uploadedBlobName := uploadedBlobName s;
     entries := entries s; loadingEntries := loadingEntries s;
     editingId := editingId s; editText := editText s;
     editVisibility := editVisibility s; status := status s; error := error s;
     mood := mood s; moodNotes := moodNotes s; moodHistory := moodHistory s |}.

Definition set_uploadedBlobName (v : value) (s : State) : State :=
  {| userId := userId s; text := text s; visibility := visibility s; file := file s;
     uploadedFileUrl := uploadedFileUrl s; uploadedBlobName := v;
     entries := entries s; loadingEntries := loadingEntries s;
     editingId := editingId s; editText := editText s;
     editVisibility := editVisibility s; status := status s; error := error s;
     mood := mood s; moodNotes := moodNotes s; moodHistory := moodHistory s |}.

Definition set_entries (v : value) (s : State) : State :=
  {| userId := userId s; text := text s; visibility := visibility s; file := file s;
     uploadedFileUrl := uploadedFileUrl s; uploadedBlobName := uploadedBlobName s;
     entries := v; loadingEntries := loadingEntries s;
     editingId := editingId s; editText := editText s;
     editVisibility := editVisibility s; status := status s; error := error s;
     mood := mood s; moodNotes := moodNotes s; moodHistory := moodHistory s |}.

Definition set_loadingEntries (v : bool) (s : State) : State :=
  {| userId := userId s; text := text s; visibility := visibility s; file := file s;
     uploadedFileUrl := uploadedFileUrl s; uploadedBlobName := uploadedBlobName s;
     entries := entries s; loadingEntries := v;
     editingId := editingId s; editText := editText s;
     editVisibility := editVisibility s; status := status s; error := error s;
     mood := mood s; moodNotes := moodNotes s; moodHistory := moodHistory s |}.

Definition set_editingId (v : value) (s : State) : State :=
  {| userId := userId s; text := text s; visibility := visibility s; file := file s;
     uploadedFileUrl := uploadedFileUrl s; uploadedBlobName := uploadedBlobName s;
     entries := entries s; loadingEntries := loadingEntries s;
     editingId := v; editText := editText s;
     editVisibility := editVisibility s; status := status s; error := error s;
     mood := mood s; moodNotes := moodNotes s; moodHistory := moodHistory s |}.

Definition set_editText (v : value) (s : State) : State :=
  {| userId := userId s; text := text s; visibility := visibility s; file := file s;
     uploadedFileUrl := uploadedFileUrl s; uploadedBlobName := uploadedBlobName s;
     entries := entries s; loadingEntries := loadingEntries s;
     editingId := editingId s; editText := v;
     editVisibility := editVisibility s; status := status s; error := error s;
     mood := mood s; moodNotes := moodNotes s; moodHistory := moodHistory s |}.

Definition set_editVisibility (v : value) (s : State) : State :=
  {| userId := userId s; text := text s; visibility := visibility s; file := file s;
     uploadedFileUrl := uploadedFileUrl s; uploadedBlobName := uploadedBlobName s;
     entries := entries s; loadingEntries := loadingEntries s;
     editingId := editingId s; editText := editText s;
     editVisibility := v; status := status s; error := error s;
     mood := mood s; moodNotes := moodNotes s; moodHistory := moodHistory s |}.

Definition set_status (v : jsstring) (s : State) : State :=
  {| userId := userId s; text := text s; visibility := visibility s; file := file s;
     uploadedFileUrl := uploadedFileUrl s; uploadedBlobName := uploadedBlobName s;
     entries := entries s; loadingEntries := loadingEntries s;
     editingId := editingId s; editText := editText s;
     editVisibility := editVisibility s; status := v; error := error s;
     mood := mood s; moodNotes := moodNotes s; moodHistory := moodHistory s |}.

Definition set_error (v : jsstring) (s : State) : State :=
  {| userId := userId s; text := text s; visibility := visibility s; file := file s;
     uploadedFileUrl := uploadedFileUrl s; uploadedBlobName := uploadedBlobName s;
     entries := entries s; loadingEntries := loadingEntries s;
     editingId := editingId s; editText := editText s;
     editVisibility := editVisibility s; status := status s; error := v;
     mood := mood s; moodNotes := moodNotes s; moodHistory := moodHistory s |}.

Definition set_mood (v : Z) (s : State) : State :=
  {| userId := userId s; text := text s; visibility := visibility s; file := file s;
     uploadedFileUrl := uploadedFileUrl s; uploadedBlobName := uploadedBlobName s;
     entries := entries s; loadingEntries := loadingEntries s;
     editingId := editingId s; editText := editText s;
     editVisibility := editVisibility s; status := status s; error := error s;
     mood := v; moodNotes := moodNotes s; moodHistory := moodHistory s |}.

Definition set_moodNotes (v : jsstring) (s : State) : State :=
  {| userId := userId s; text := text s; visibility := visibility s; file := file s;
     uploadedFileUrl := uploadedFileUrl s; uploadedBlobName := uploadedBlobName s;
     entries := entries s; loadingEntries := loadingEntries s;
     editingId := editingId s; editText := editText s;
     editVisibility := editVisibility s; status := status s; error := error s;
     mood := mood s; moodNotes := v; moodHistory := moodHistory s |}.

(** [setMoodHistory(f)] with an updater function. *)
Definition update_moodHistory (f : list MoodRecord -> list MoodRecord) (s : State) : State :=
  {| userId := userId s; text := text s; visibility := visibility s; file := file s;
     uploadedFileUrl := uploadedFileUrl s; uploadedBlobName := uploadedBlobName s;
     entries := entries s; loadingEntries := loadingEntries s;
     editingId := editingId s; editText := editText s;
     editVisibility := editVisibility s; status := status s; error := error s;
     mood := mood s; moodNotes := moodNotes s; moodHistory := f (moodHistory s) |}.

Definition set_userId (v : jsstring) (s : State) : State :=
  {| userId := v; text := text s; visibility := visibility s; file := file s;
     uploadedFileUrl := uploadedFileUrl s; uploadedBlobName := uploadedBlobName s;
     entries := entries s; loadingEntries := loadingEntries s;
     editingId := editingId s; editText := editText s;
     editVisibility := editVisibility s; status := status s; error := error s;
     mood := mood s; moodNotes := moodNotes s; moodHistory := moodHistory s |}.

Definition set_visibility (v : jsstring) (s : State) : State :=
  {| userId := userId s; text := text s; visibility := v; file := file s;
     uploadedFileUrl := uploadedFileUrl s; uploadedBlobName := uploadedBlobName s;
     entries := entries s; loadingEntries := loadingEntries s;
     editingId := editingId s; editText := editText s;
     editVisibility := editVisibility s; status := status s; error := error s;
     mood := mood s; moodNotes := moodNotes s; moodHistory := moodHistory s |}.

Definition setUserId v : M unit := modify (set_userId v).
Definition setVisibility v : M unit := modify (set_visibility v).
Definition setMood v : M unit := modify (set_mood v).
Definition setMoodNotes v : M unit := modify (set_moodNotes v).
Definition setMoodHistory f : M unit := modify (update_moodHistory f).
Definition setText v : M unit := modify (set_text v).
Definition setFile v : M unit := modify (set_file v).
Definition setUploadedFileUrl v : M unit := modify (set_uploadedFileUrl v).
Definition setUploadedBlobName v : M unit := modify (set_uploadedBlobName v).
Definition setEntries v : M unit := modify (set_entries v).
Definition setLoadingEntries v : M unit := modify (set_loadingEntries v).
Definition setEditingId v : M unit := modify (set_editingId v).
Definition setEditText v : M unit := modify (set_editText v).
Definition setEditVisibility v : M unit := modify (set_editVisibility v).
Definition setStatus v : M unit := modify (set_status v).
Definition setError v : M unit := modify (set_error v).

End Setters.

(* ================================================================== *)
(** ** The program *)

Section Program.
Context {NUM : JSNumber} {PLAT : Platform}.
Variable cfg : ENDPOINTS.t.
Variable w : World.

(** [function requireEndpoint(url, name)] *)
Definition requireEndpoint (url : option jsstring) (name : jsstring) : M jsstring :=
  match url with
  | Some u =>
      if is_empty u
      then throw (newError (lit "Missing " ++ name ++ lit " URL in .env"))
      else ret u
  | None => throw (newError (lit "Missing " ++ name ++ lit " URL in .env"))
  end.

(** [function toIsoNow()] *)
Definition toIsoNow : M jsstring :=
  fun m => (m, inr (clock w (trace m))).

(** The [onload] callback of [readFileAsBase64]: what the promise
    resolves to, given [reader.result]. *)
Definition onload (reader_result : option jsstring) : jsstring :=
  let result :=                      (* String(reader.result || "") *)
    match reader_result with
    | Some s => if is_empty s then [] else s
    | None => []
    end in
  let commaIdx := indexOf 44 result in
  let base64 := if (commaIdx >=? 0)%Z then slice_from (commaIdx + 1) result else result in
  base64.

(** [function readFileAsBase64(file)], awaited. *)
Definition readFileAsBase64 (f : File) : M jsstring :=
  log (EvReadFile f);;
  fun m =>
    match reader w (trace m) with
    | ReadFailed => throw (newError (lit "Failed to read file")) m
    | ReadLoaded result => ret (onload result) m
    end.

(** The [TypeError] of a value without a primitive value. *)
Definition noPrimitive : exn :=
  {| ename := lit "TypeError"; emessage := no_primitive_message |}.

(** [throw new Error(v)]: the message is [ToString(v)]; when that
    conversion throws, its [TypeError] is what leaves. *)
Definition throwNewError {A} (v : value) : M A :=
  match to_string v with
  | Some message => throw (newError message)
  | None => throw noPrimitive
  end.

(** [await fetch(url, ...)] followed by [await res.text()]. *)
Definition exchange (url method : jsstring) (payload : value) : M Response :=
  log (EvFetch url method payload);;
  fun m =>
    match net w (trace m) with
    | NetFailed e => throw e m
    | NetResponse res => ret res m
    end.

(** [let data; try { data = text ? JSON.parse(text) : null; } catch { data = text; }] *)
Definition body_data (text : jsstring) : value :=
  if is_empty text then VNull
  else match JSON_parse text with
       | Some parsed => parsed
       | None => VStr text
       end.

(** [async function apiFetchAbsolute(url, options)], awaited, with
    [options = { method, body: JSON.stringify(payload) }]. *)
Definition apiFetchAbsolute (url method : jsstring) (payload : value) : M value :=
  res <- exchange url method payload;;
  let text := body_text res in
  let data := body_data text in
  if negb (ok res)
  then throwNewError
         (js_or (js_or (js_and data (prop data (lit "message"))) (VStr text))
                (VStr (lit "Request failed: " ++ N_to_string (status_code res))))
  else ret data.

(** [canUpload = !!userId && !!file] *)
Definition canUpload (s : State) : bool :=
  negb (is_empty (userId s)) && match file s with Some _ => true | None => false end.

(** [function clearMessages()] *)
Definition clearMessages : M unit :=
  setStatus [];; setError [].

(** [result.p] where [result] may be [null]. *)
Definition member (v : value) (p : jsstring) : M value :=
  match v with
  | VUndefined | VNull =>
      throw {| ename := lit "TypeError"; emessage := null_read_message v p |}
  | _ => ret (prop v p)
  end.

(** The handlers close over the state of the render they were created
    in: [s] is that snapshot, which they read; what they set goes to the
    machine. *)

Definition handleUpload_try (s : State) : M unit :=
  setStatus (lit "Uploading file to Blob via Logic App...");;
  match file s with
  | None => (* excluded by [canUpload] *)
      throw {| ename := lit "TypeError"; emessage := null_read_message VNull (lit "name") |}
  | Some f =>
      base64 <- readFileAsBase64 f;;
      let payload :=
        VObj [ (lit "userId", VStr (userId s));
               (lit "filename", VStr (name f));
               (lit "filetype", js_or (VStr (type f)) (VStr (lit "application/octet-stream")));
               (lit "fileBase64", VStr base64) ] in
      url <- requireEndpoint (ENDPOINTS.upload cfg) (lit "REACT_APP_UPLOAD_URL");;
      result <- apiFetchAbsolute url (lit "POST") payload;;
      blobName <- member result (lit "blobName");;
      setUploadedBlobName (js_or blobName (VStr []));;
      fileUrl <- member result (lit "fileUrl");;
      setUploadedFileUrl (js_or fileUrl (VStr []));;
      setStatus (lit "Upload complete ✅")
  end.

(** [async function handleUpload()] *)
Definition handleUpload (s : State) : M unit :=
  clearMessages;;
  if negb (canUpload s) then ret tt
  else
    try_catch (handleUpload_try s)
      (fun e => setError (emessage e);; setStatus []).

(** The object literal [payload] of [handleCreateEntry]. *)
Definition createPayload (s : State) (uploadDate : jsstring) : value :=
  VObj ([ (lit "userId", VStr (userId s));
          (lit "text", VStr (trim (text s)));
          (lit "visibility", VStr (visibility s));
          (lit "uploadDate", VStr uploadDate) ]
        ++ (if truthy (uploadedFileUrl s)
            then [ (lit "filename",
                     js_or (match file s with Some f => VStr (name f) | None => VUndefined end)
                           (VStr []));
                   (lit "filetype",
                     js_or (match file s with Some f => VStr (type f) | None => VUndefined end)
                           (VStr []));
                   (lit "fileUrl", uploadedFileUrl s) ]
            else [])).

Definition handleLoadEntries_try (s : State) : M unit :=
  (if is_empty (userId s) then throw (newError (lit "userId is required")) else ret tt);;
  setLoadingEntries true;;
  setStatus (lit "Loading entries...");;
  url <- requireEndpoint (ENDPOINTS.get cfg) (lit "REACT_APP_GET_URL");;
  data <- apiFetchAbsolute url (lit "POST") (VObj [ (lit "userId", VStr (userId s)) ]);;
  let list :=
    if isArray data then data
    else js_or (js_or (prop data (lit "entries")) (prop data (lit "value"))) (VArr []) in
  setEntries list;;
  setStatus (lit "Entries loaded ✅").

(** [async function handleLoadEntries()] *)
Definition handleLoadEntries (s : State) : M unit :=
  clearMessages;;
  finally
    (try_catch (handleLoadEntries_try s)
       (fun e => setError (emessage e);; setStatus []))
    (setLoadingEntries false).

Definition handleCreateEntry_try (s : State) : M unit :=
  (if is_empty (userId s) then throw (newError (lit "userId is required")) else ret tt);;
  (if is_empty (trim (text s))
   then throw (newError (lit "Journal text is required")) else ret tt);;
  setStatus (lit "Creating journal entry in Cosmos DB...");;
  uploadDate <- toIsoNow;;
  let payload := createPayload s uploadDate in
  url <- requireEndpoint (ENDPOINTS.create cfg) (lit "REACT_APP_CREATE_URL");;
  _ <- apiFetchAbsolute url (lit "POST") payload;;
  setStatus (lit "Entry created ✅");;
  setText [];;
  (if truthy (uploadedFileUrl s)
   then setFile None;; setUploadedFileUrl (VStr []);; setUploadedBlobName (VStr [])
   else ret tt);;
  handleLoadEntries s.

(** [async function handleCreateEntry()] *)
Definition handleCreateEntry (s : State) : M unit :=
  clearMessages;;
  try_catch (handleCreateEntry_try s)
    (fun e => setError (emessage e);; setStatus []).

(** [function startEdit(entry)] *)
Definition startEdit (entry : value) : M unit :=
  id <- member entry (lit "id");;
  setEditingId id;;
  entryText <- member entry (lit "text");;
  setEditText (js_or entryText (VStr []));;
  entryVisibility <- member entry (lit "visibility");;
  setEditVisibility (js_or entryVisibility (VStr (lit "private"))).

(** [function cancelEdit()] *)
Definition cancelEdit : M unit :=
  setEditingId VNull;; setEditText (VStr []);; setEditVisibility (VStr (lit "private")).

(** [e.message || String(e)] *)
Definition message_or_string (e : exn) : jsstring :=
  if is_empty (emessage e) then exn_to_string e else emessage e.

Definition handleUpdate_try (s : State) (entryId : value) : M unit :=
  (if negb (truthy entryId) then throw (newError (lit "Missing entryId")) else ret tt);;
  setStatus (lit "Updating entry...");;
  url <- requireEndpoint (ENDPOINTS.update cfg) (lit "REACT_APP_UPDATE_URL");;
  let payload :=
    VObj [ (lit "id", entryId); (lit "entryId", entryId);
           (lit "text", editText s); (lit "visibility", editVisibility s) ] in
  _ <- apiFetchAbsolute url (lit "POST") payload;;
  setStatus (lit "Entry updated ✅");;
  cancelEdit;;
  handleLoadEntries s.

(** [async function handleUpdate(entryId)] *)
Definition handleUpdate (s : State) (entryId : value) : M unit :=
  clearMessages;;
  try_catch (handleUpdate_try s entryId)
    (fun e => setError (message_or_string e);; setStatus []).

Definition handleDelete_try (s : State) (entryId : value) : M unit :=
  (if negb (truthy entryId) then throw (newError (lit "Missing entryId")) else ret tt);;
  setStatus (lit "Deleting entry...");;
  url <- requireEndpoint (ENDPOINTS.del cfg) (lit "REACT_APP_DELETE_URL");;
  let payload := VObj [ (lit "id", entryId); (lit "entryId", entryId) ] in
  _ <- apiFetchAbsolute url (lit "POST") payload;;
  setStatus (lit "Entry deleted ✅");;
  handleLoadEntries s.

(** [async function handleDelete(entryId)] *)
Definition handleDelete (s : State) (entryId : value) : M unit :=
  clearMessages;;
  try_catch (handleDelete_try s entryId)
    (fun e => setError (message_or_string e);; setStatus []).

(** [function addMoodEntry()] *)
Definition addMoodEntry (s : State) : M unit :=
  d <- toIsoNow;;
  let item := {| date := d; score := mood s; notes := trim (moodNotes s) |} in
  setMoodHistory (fun prev => slice_to 14 (item :: prev));;
  setMoodNotes [].

(** A click: the handler of the current render runs on the current
    state. *)
Definition click (h : State -> M unit) : M unit :=
  fun m => h (ui m) m.

(** What the user can do with the form, one action at a time; each
    handler runs to its end before the next action. *)
Inductive action : Type :=
| TypeUserId (v : jsstring)
| TypeText (v : jsstring)
| ChooseVisibility (v : jsstring)
| ChooseFile (f : option File)
| ClickUpload
| ClickCreate
| ClickLoad
| ClickEdit (entry : value)
| TypeEditText (v : jsstring)
| ChooseEditVisibility (v : jsstring)
| ClickSave (entryId : value)
| ClickCancel
| ClickDelete (entryId : value)
| SlideMood (v : Z)
| TypeMoodNotes (v : jsstring)
| ClickSaveMood.

Definition perform (a : action) : M unit :=
  match a with
  | TypeUserId v => setUserId v
  | TypeText v => setText v
  | ChooseVisibility v => setVisibility v
  | ChooseFile f => setFile f
  | ClickUpload => click handleUpload
  | ClickCreate => click handleCreateEntry
  | ClickLoad => click handleLoadEntries
  | ClickEdit entry => startEdit entry
  | TypeEditText v => setEditText (VStr v)
  | ChooseEditVisibility v => setEditVisibility (VStr v)
  | ClickSave entryId => click (fun s => handleUpdate s entryId)
  | ClickCancel => cancelEdit
  | ClickDelete entryId => click (fun s => handleDelete s entryId)
  | SlideMood v => setMood v
  | TypeMoodNotes v => setMoodNotes v
  | ClickSaveMood => click addMoodEntry
  end.

(** The machine after a series of actions, each run to its end before
    the next one starts. Handlers that overlap at their awaits (a click
    made while a request is pending) are not described by [session]. *)
Fixpoint session (actions : list action) (m : Machine) : Machine :=
  match actions with
  | [] => m
  | a :: rest => session rest (fst (perform a m))
  end.

End Program.

(* ================================================================== *)
(** ** Mock assistant *)

(** The keys of [promptsByMood]. *)
Inductive MoodLabel : Type := low | neutral | good.

Definition grounding : jsstring :=
  lit "Try this quick reset: inhale 4s, hold 4s, exhale 6s — repeat 3 times.".

Definition promptsByMood (l : MoodLabel) : list jsstring :=
  match l with
  | low =>
      [ lit "That sounds heavy. What’s one small thing that feels manageable right now?";
        lit "If a friend felt this way, what would you say to them?";
        grounding ]
  | neutral =>
      [ lit "What do you think triggered that feeling today?";
        lit "What’s one thing you want to carry forward from today — and one thing to release?";
        grounding ]
  | good =>
      [ lit "That’s a positive moment — what helped you get here?";
        lit "How can you make it easier to feel this way again tomorrow?";
        lit "Would you like to set a small intention for the next 24 hours?" ]
  end.

(** [mood <= 2 ? "low" : mood === 3 ? "neutral" : "good"] *)
Definition moodLabel (mood : Z) : MoodLabel :=
  if (mood <=? 2)%Z then low else if (mood =? 3)%Z then neutral else good.

(** [suggestions.map((s, i) => `${i + 1}. ${s}`)], from index [i]. *)
Fixpoint numbered (i : N) (suggestions : list jsstring) : list jsstring :=
  match suggestions with
  | [] => []
  | s :: r => (N_to_string (i + 1) ++ lit ". " ++ s) :: numbered (i + 1) r
  end.

(** [`${t.slice(0, 120)}${t.length > 120 ? "…" : ""}`] *)
Definition excerpt (t : jsstring) : jsstring :=
  slice_to 120 t ++ (if (120 <? List.length t)%nat then lit "…" else []).

(** The reply assembled around a list of prompts: the tail of
    [buildMockReply] from [const contextBit] on. *)
Definition compose (suggestions : list jsstring) (mood : Z)
    (userText lastEntryText : jsstring) : jsstring :=
  let contextBit :=
    if negb (is_empty lastEntryText)
    then lit "I also noticed your recent entry mentions: “" ++ excerpt lastEntryText ++ lit "”"
    else [] in
  join (lit (String (ascii_of_nat 10) EmptyString))
    (filter (fun line => negb (is_empty line))
       ([ lit "Thanks for sharing. Based on your mood (" ++ Z_to_string mood
            ++ lit "/5), here are a few gentle reflections:" ]
        ++ numbered 0 suggestions
        ++ [ contextBit;
             if negb (is_empty userText)
             then lit "If you want, tell me more about: “" ++ excerpt userText ++ lit "”"
             else [] ])).

(** [function buildMockReply({ mood, userText, lastEntryText })], for an
    integer [mood] and string texts. *)
Definition buildMockReply (mood : Z) (userText lastEntryText : jsstring) : jsstring :=
  let suggestions := promptsByMood (moodLabel mood) in
  compose suggestions mood userText lastEntryText.

(* ================================================================== *)
(** ** A reference platform, to run the program on concrete bodies *)

(** The grammar of JSON texts as [JSON.parse] accepts it. Numeric
    literals are recognised and handed to [num_of_literal]. *)
Section Parser.
Context {NUM : JSNumber}.
Variable num_of_literal : jsstring -> number.

Definition is_ws (c : N) : bool := (c =? 9) || (c =? 10) || (c =? 13) || (c =? 32).

Fixpoint skip_ws (s : jsstring) : jsstring :=
  match s with
  | c :: r => if is_ws c then skip_ws r else s
  | [] => []
  end.

Definition is_digit (c : N) : bool := (48 <=? c) && (c <=? 57).

Definition hex_digit (c : N) : option N :=
  if is_digit c then Some (c - 48)
  else if (65 <=? c) && (c <=? 70) then Some (c - 55)
  else if (97 <=? c) && (c <=? 102) then Some (c - 87)
  else None.

Definition hex4 (a b c d : N) : option N :=
  match hex_digit a, hex_digit b, hex_digit c, hex_digit d with
  | Some x, Some y, Some z, Some t => Some (x * 4096 + y * 256 + z * 16 + t)
  | _, _, _, _ => None
  end.

Definition unescape (c : N) : option N :=
  if (c =? 34) || (c =? 92) || (c =? 47) then Some c
  else if c =? 98 then Some 8
  else if c =? 102 then Some 12
  else if c =? 110 then Some 10
  else if c =? 114 then Some 13
  else if c =? 116 then Some 9
  else None.

(** The characters of a string literal after its opening quote. *)
Fixpoint parse_chars (s acc : jsstring) : option (jsstring * jsstring) :=
  match s with
  | [] => None
  | c :: r =>
      if c =? 34 then Some (rev acc, r)
      else if c =? 92 then
        match r with
        | [] => None
        | e :: r1 =>
            if e =? 117 then
              match r1 with
              | h1 :: h2 :: h3 :: h4 :: r2 =>
                  match hex4 h1 h2 h3 h4 with
                  | Some u => parse_chars r2 (u :: acc)
                  | None => None
                  end
              | _ => None
              end
            else
              match unescape e with
              | Some u => parse_chars r1 (u :: acc)
              | None => None
              end
        end
      else if c <? 32 then None
      else parse_chars r (c :: acc)
  end.

Fixpoint take_digits (s : jsstring) : jsstring * jsstring :=
  match s with
  | c :: r => if is_digit c then let (d, r') := take_digits r in (c :: d, r') else ([], s)
  | [] => ([], [])
  end.

(** A numeric literal: an optional minus sign; a zero, or a non-zero
    digit followed by digits; an optional point with at least one digit;
    an optional exponent mark with an optional sign and at least one digit. *)
Definition parse_number (s : jsstring) : option (jsstring * jsstring) :=
  let (sign, s1) := match s with c :: r => if c =? 45 then ([45], r) else ([], s) | [] => ([], s) end in
  let (int, s2) := take_digits s1 in
  match int with
  | [] => None
  | d :: ds =>
      if (d =? 48) && negb (is_empty ds) then None
      else
        let frac :=
          match s2 with
          | c :: r =>
              if c =? 46 then
                let (fd, r') := take_digits r in
                if is_empty fd then None else Some (c :: fd, r')
              else Some ([], s2)
          | [] => Some ([], s2)
          end in
        match frac with
        | None => None
        | Some (fr, s3) =>
            let exp :=
              match s3 with
              | c :: r =>
                  if (c =? 101) || (c =? 69) then
                    let (sg, r1) :=
                      match r with
                      | c' :: r' => if (c' =? 43) || (c' =? 45) then ([c'], r') else ([], r)
                      | [] => ([], r)
                      end in
                    let (ed, r2) := take_digits r1 in
                    if is_empty ed then None else Some (c :: sg ++ ed, r2)
                  else Some ([], s3)
              | [] => Some ([], s3)
              end in
            match exp with
            | None => None
            | Some (ex, s4) => Some (sign ++ int ++ fr ++ ex, s4)
            end
        end
  end.

Fixpoint strip_prefix (p s : jsstring) : option jsstring :=
  match p, s with
  | [], _ => Some s
  | a :: p', b :: s' => if a =? b then strip_prefix p' s' else None
  | _ :: _, [] => None
  end.

(** A repeated key keeps its place and takes the last value. *)
Fixpoint obj_set (k : jsstring) (v : value) (o : list (jsstring * value)) :
    list (jsstring * value) :=
  match o with
  | [] => [(k, v)]
  | (k', v') :: r => if jsstring_eqb k' k then (k', v) :: r else (k', v') :: obj_set k v r
  end.

Section Composite.
Variable parse_inner : jsstring -> option (value * jsstring).

(** Elements after [[] or [,], up to the closing bracket. *)
Fixpoint parse_elements (n : nat) (s : jsstring) (acc : list value) :
    option (value * jsstring) :=
  match n with
  | O => None
  | S n' =>
      match parse_inner s with
      | None => None
      | Some (v, r) =>
          match skip_ws r with
          | c :: r' =>
              if c =? 44 then parse_elements n' r' (v :: acc)
              else if c =? 93 then Some (VArr (rev (v :: acc)), r')
              else None
          | [] => None
          end
      end
  end.

(** Members after [{] or [,], up to the closing brace. *)
Fixpoint parse_members (n : nat) (s : jsstring) (acc : list (jsstring * value)) :
    option (value * jsstring) :=
  match n with
  | O => None
  | S n' =>
      match skip_ws s with
      | q :: r0 =>
          if q =? 34 then
            match parse_chars r0 [] with
            | None => None
            | Some (k, r1) =>
                match skip_ws r1 with
                | c :: r2 =>
                    if c =? 58 then
                      match parse_inner r2 with
                      | None => None
                      | Some (v, r3) =>
                          match skip_ws r3 with
                          | c' :: r4 =>
                              if c' =? 44 then parse_members n' r4 (obj_set k v acc)
                              else if c' =? 125 then Some (VObj (obj_set k v acc), r4)
                              else None
                          | [] => None
                          end
                      end
                    else None
                | [] => None
                end
            end
          else None
      | [] => None
      end
  end.

End Composite.

Fixpoint parse_value (fuel : nat) (s : jsstring) : option (value * jsstring) :=
  match fuel with
  | O => None
  | S f =>
      match skip_ws s with
      | [] => None
      | c :: r =>
          if c =? 123 then
            match skip_ws r with
            | c' :: r' =>
                if c' =? 125 then Some (VObj [], r')
                else parse_members (parse_value f) (List.length r) r []
            | [] => None
            end
          else if c =? 91 then
            match skip_ws r with
            | c' :: r' =>
                if c' =? 93 then Some (VArr [], r')
                else parse_elements (parse_value f) (List.length r) r []
            | [] => None
            end
          else if c =? 34 then
            match parse_chars r [] with
            | Some (str, r') => Some (VStr str, r')
            | None => None
            end
          else
            match strip_prefix (lit "true") (c :: r),
                  strip_prefix (lit "false") (c :: r),
                  strip_prefix (lit "null") (c :: r) with
            | Some r', _, _ => Some (VBool true, r')
            | _, Some r', _ => Some (VBool false, r')
            | _, _, Some r' => Some (VNull, r')
            | None, None, None =>
                match parse_number (c :: r) with
                | Some (lexeme, r') => Some (VNum (num_of_literal lexeme), r')
                | None => None
                end
            end
      end
  end.

Definition parse_json (text : jsstring) : option value :=
  match parse_value (S (List.length text)) text with
  | Some (v, r) => if is_empty (skip_ws r) then Some v else None
  | None => None
  end.

End Parser.

(** Numbers kept as the literal read. The literal of a non-negative
    integer below 2^53 is also what [Number::toString] prints for it. *)
Definition has_nonzero_digit (lexeme : jsstring) : bool :=
  existsb (fun c => (49 <=? c) && (c <=? 57))
    (firstn (Z.to_nat (Z.min (if (indexOf 101 lexeme <? 0)%Z then Z.of_nat (List.length lexeme)
                                else indexOf 101 lexeme)
                               (if (indexOf 69 lexeme <? 0)%Z then Z.of_nat (List.length lexeme)
                                else indexOf 69 lexeme))) lexeme).

#[local] Instance LiteralNumber : JSNumber :=
  {| number := jsstring; num_truthy := has_nonzero_digit; num_to_string := fun l => l |}.

#[local] Instance ReferencePlatform : @Platform LiteralNumber :=
  {| JSON_parse := parse_json (fun lexeme => lexeme);
     null_read_message := fun v p =>
       lit "Cannot read properties of "
       ++ match v with VNull => lit "null" | _ => lit "undefined" end
       ++ lit " (reading '" ++ p ++ lit "')";
     no_primitive_message := lit "Cannot convert object to primitive value" |}.

(** A JSON text written with ['] in place of the double quote. *)
Definition json (s : string) : jsstring :=
  map (fun c => if c =? 39 then 34 else c) (lit s).

(* ================================================================== *)
(** ** Statements of the specification, in its own words *)

Section SpecWords.
Context {NUM : JSNumber} {PLAT : Platform}.

(** The parsed body's [message] field, when the body parses to an object
    that has one. *)
Definition message_field (body : jsstring) : option value :=
  if is_empty body then None
  else match JSON_parse body with
       | Some (VObj o) =>
           if has_key (lit "message") o then Some (lookup (lit "message") o) else None
       | _ => None
       end.

(** The generic message, and the raw text when there is some. *)
Definition text_or_generic (res : Response) : jsstring :=
  if is_empty (body_text res)
  then lit "Request failed: " ++ N_to_string (status_code res)
  else body_text res.

(** Error policy as written: the message field if present, else the raw
    text if non-empty, else the generic message. *)
Definition stated_error_message (res : Response) : option jsstring :=
  match message_field (body_text res) with
  | Some v => to_string v
  | None => Some (text_or_generic res)
  end.

(** Error policy of the code: a message field counts only when it is
    truthy, and it is converted to a string, which can fail. *)
Definition raised (res : Response) : exn :=
  match message_field (body_text res) with
  | Some v =>
      if truthy v
      then match to_string v with
           | Some message => newError message
           | None => {| ename := lit "TypeError"; emessage := no_primitive_message |}
           end
      else newError (text_or_generic res)
  | None => newError (text_or_generic res)
  end.



End SpecWords.

(** The machine after one more event. *)
Definition logged {NUM : JSNumber} (m : Machine) (ev : event) : Machine :=
  {| ui := ui m; trace := trace m ++ [ev] |}.

(** A world that answers every request with [res], reads every file as
    [content] and whose clock shows [now]. *)
Definition steady_world {NUM : JSNumber} (res : net_outcome) (content : read_outcome)
    (now : jsstring) : World :=
  {| net := fun _ => res; reader := fun _ => content; clock := fun _ => now |}.

Definition start {NUM : JSNumber} (s : State) : Machine := {| ui := s; trace := [] |}.

(* ================================================================== *)
(** ** Vocabulary of the properties *)

Section Vocabulary.
Context {NUM : JSNumber} {PLAT : Platform}.
Variable cfg : ENDPOINTS.t.
Variable w : World.

(** Every run of [c] takes a machine to one related to it by [I]. *)
Definition stable {A} (I : Machine -> Machine -> Prop) (c : M A) : Prop :=
  forall m, I m (fst (c m)).

(** The failures caught among some events, oldest first. *)
Definition caught_in (evs : list event) : list exn :=
  flat_map (fun ev => match ev with EvCaught e => [e] | _ => [] end) evs.

(** The requests among some events. *)
Definition requests_in (evs : list event) : list event :=
  filter (fun ev => match ev with EvFetch _ _ _ => true | _ => false end) evs.

(** [m'] comes from [m] by logging events [evs]. *)
Definition extends (m m' : Machine) (evs : list event) : Prop :=
  trace m' = trace m ++ evs.

(** Only events other than caught failures were logged. *)
Definition quiet (m m' : Machine) : Prop :=
  exists evs, extends m m' evs /\ caught_in evs = [].

(** The mood log was left alone. *)
Definition same_moodHistory (m m' : Machine) : Prop :=
  moodHistory (ui m') = moodHistory (ui m).



(** Among the events [evs] that led to [m'] either no failure was
    caught, or exactly one was, and then the status string is empty and
    the error string is related to the failure by [R]. *)
Definition settled (R : exn -> jsstring -> Prop) (m' : Machine) (evs : list event) : Prop :=
  caught_in evs = []
  \/ exists e, caught_in evs = [e] /\ R e (error (ui m')) /\ status (ui m') = [].

(** An operation that contains its failures: it always returns, and a
    failure inside it is caught and shown. *)
Definition contained (R : exn -> jsstring -> Prop) (op : M unit) : Prop :=
  forall m, exists evs,
    snd (op m) = inr tt /\ extends m (fst (op m)) evs /\ settled R (fst (op m)) evs.

(** A [try] block that either throws before any failure was caught, or
    completes with its failures settled. *)
Definition guarded (R : exn -> jsstring -> Prop) (body : M unit) : Prop :=
  forall m, exists evs,
    extends m (fst (body m)) evs
    /\ match snd (body m) with
       | inl _ => caught_in evs = []
       | inr _ => settled R (fst (body m)) evs
       end.

(** The error string is the failure's message. *)
Definition shows_message (e : exn) (shown : jsstring) : Prop := shown = emessage e.

(** An endpoint that is [undefined] or the empty string. *)
Definition unset (url : option jsstring) : Prop :=
  match url with None => True | Some u => u = [] end.

(** The configuration error for the variable [name]. *)
Definition missing (name : jsstring) : exn :=
  newError (lit "Missing " ++ name ++ lit " URL in .env").

(** The outcome [r] of an operation started on [m]: it returned, it
    logged nothing but the configuration error for [name], and it shows
    that error with an empty status. *)
Definition reports_missing (name : jsstring) (m : Machine) (r : Machine * (exn + unit)) : Prop :=
  snd r = inr tt
  /\ trace (fst r) = trace m ++ [EvCaught (missing name)]
  /\ error (ui (fst r)) = emessage (missing name)
  /\ status (ui (fst r)) = [].

(** The outcome [r] of an update or a delete started on [m], one of
    whose own steps failed with [e] after the events [pre]: it returned,
    [e] is the one failure caught, the status string is empty, and the
    error string is the failure's message, or the failure's string form
    when the message is empty. *)
Definition shows_own_failure (m : Machine) (pre : list event) (e : exn)
    (r : Machine * (exn + unit)) : Prop :=
  snd r = inr tt
  /\ trace (fst r) = trace m ++ pre ++ [EvCaught e]
  /\ status (ui (fst r)) = []
  /\ error (ui (fst r)) = (if is_empty (emessage e) then exn_to_string e else emessage e).

(** An update or a delete [op] that contains its failures. It always
    returns. Its own steps are the check of the entry id, the endpoint
    named [name] and one request carrying [payload]; a failure of one of
    them is shown as [shows_own_failure] says. Once the request has
    succeeded nothing of its own can fail: the operation goes on as
    [reload], the list operation, which settles its own failures. *)
Definition write_contained (entryId : value) (endpoint : option jsstring) (name : jsstring)
    (payload : value) (reload op : M unit) : Prop :=
  forall m,
    snd (op m) = inr tt
    /\ if negb (truthy entryId)
       then shows_own_failure m [] (newError (lit "Missing entryId")) (op m)
       else match endpoint with
            | Some (c :: u) =>
                let request := EvFetch (c :: u) (lit "POST") payload in
                match net w (trace m ++ [request]) with
                | NetFailed e => shows_own_failure m [request] e (op m)
                | NetResponse res =>
                    if ok res
                    then exists m1, trace m1 = trace m ++ [request] /\ op m = reload m1
                    else shows_own_failure m [request] (raised res) (op m)
                end
            | _ => shows_own_failure m [] (missing name) (op m)
            end.

(** The outcome [r] of an upload of [f] started on [m] without an upload
    endpoint: it returned and sent no request; when the file could be
    read, the configuration error is what it shows. *)
Definition upload_reports_missing (f : File) (m : Machine) (r : Machine * (exn + unit)) : Prop :=
  snd r = inr tt
  /\ (exists evs, extends m (fst r) evs /\ requests_in evs = [])
  /\ status (ui (fst r)) = []
  /\ (forall result, reader w (trace m ++ [EvReadFile f]) = ReadLoaded result ->
      caught_in (skipn (List.length (trace m)) (trace (fst r)))
      = [missing (lit "REACT_APP_UPLOAD_URL")]
      /\ error (ui (fst r)) = emessage (missing (lit "REACT_APP_UPLOAD_URL"))).

Definition is_save_mood (a : action) : bool :=
  match a with ClickSaveMood => true | _ => false end.

(** The records saved by the clicks on "save mood" during a session,
    oldest first. *)
Fixpoint saved_moods (actions : list action) (m : Machine) : list MoodRecord :=
  match actions with
  | [] => []
  | a :: rest =>
      match a with
      | ClickSaveMood =>
          [ {| date := clock w (trace m); score := mood (ui m);
               notes := trim (moodNotes (ui m)) |} ]
      | _ => []
      end ++ saved_moods rest (fst (perform cfg w a m))
  end.

End Vocabulary.

(* ================================================================== *)
(** ** Concrete inputs *)

Definition not_found : Response :=
  {| ok := false; status_code := 404; body_text := json "{'message':'No such entry'}" |}.

Definition empty_message : Response :=
  {| ok := false; status_code := 500; body_text := json "{'message':''}" |}.

Definition html_page : Response :=
  {| ok := true; status_code := 200; body_text := lit "<html>ok</html>" |}.

Definition no_content : Response :=
  {| ok := true; status_code := 200; body_text := [] |}.

Definition answering (res : Response) : World :=
  steady_world (NetResponse res) ReadFailed (lit "2024-01-01T00:00:00.000Z").

Definition array_message : Response :=
  {| ok := false; status_code := 500; body_text := json "{'message':[]}" |}.

Definition entries_not_array : Response :=
  {| ok := true; status_code := 200; body_text := json "{'entries':'none'}" |}.

Definition entries_wrapped : Response :=
  {| ok := true; status_code := 200;
     body_text := json "{'entries':[{'id':'e1','text':'Felt okay today'}]}" |}.

Definition uploaded : Response :=
  {| ok := true; status_code := 200;
     body_text := json "{'blobName':'b1','fileUrl':'https://blob.host/b1'}" |}.

Definition configured : ENDPOINTS.t :=
  {| ENDPOINTS.upload := Some (lit "https://host/upload");
     ENDPOINTS.create := Some (lit "https://host/create");
     ENDPOINTS.get := Some (lit "https://host/get");
     ENDPOINTS.update := Some (lit "https://host/update");
     ENDPOINTS.del := Some (lit "https://host/delete") |}.

Definition no_endpoints : ENDPOINTS.t :=
  {| ENDPOINTS.upload := None; ENDPOINTS.create := None; ENDPOINTS.get := None;
     ENDPOINTS.update := None; ENDPOINTS.del := None |}.

Definition picture : File := {| name := lit "a.png"; type := lit "image/png" |}.

(** A world in which the picture reads as a data URL. *)
Definition readable (res : Response) : World :=
  steady_world (NetResponse res)
    (ReadLoaded (Some (lit "data:image/png;base64,iVBORw0KGgo=")))
    (lit "2024-01-01T00:00:00.000Z").

Definition with_picture : State := set_file (Some picture) initialState.

Definition with_text : State := set_text (lit "Felt okay today") initialState.

(* ================================================================== *)
(** ** Vocabulary of further properties *)

Section Frames.
Context {NUM : JSNumber}.

(** The cell [f] of the state is the same in [m'] as in [m]. *)
Definition keeps {A} (f : State -> A) (m m' : Machine) : Prop :=
  f (ui m') = f (ui m).

(** The outcome [r] of an operation started on [m]: it returned, and the
    one thing that happened is that it caught [e], which it shows with
    an empty status. *)
Definition rejects_with (e : exn) (m : Machine) (r : Machine * (exn + unit)) : Prop :=
  snd r = inr tt
  /\ trace (fst r) = trace m ++ [EvCaught e]
  /\ error (ui (fst r)) = emessage e
  /\ status (ui (fst r)) = [].

(** The events logged between [m] and [m']. *)
Definition since (m m' : Machine) : list event :=
  skipn (List.length (trace m)) (trace m').

(** If [c] completes, the machine it leaves satisfies [P]. *)
Definition ends {A} (P : Machine -> Prop) (c : M A) : Prop :=
  forall m, match snd (c m) with
            | inr _ => P (fst (c m))
            | inl _ => True
            end.

(** Groups of cells: who the user is and the mood panel; the create
    form; the edit form; the list. *)
Definition profile (st : State) :=
  (userId st, visibility st, mood st, moodNotes st, moodHistory st).

Definition draft (st : State) :=
  (text st, file st, uploadedFileUrl st, uploadedBlobName st).

Definition editing (st : State) :=
  (editingId st, editText st, editVisibility st).

Definition listing (st : State) :=
  (entries st, loadingEntries st).

(** How an operation that ends with a reload of the list can end: with
    the list loaded and no error, or with an empty status. *)
Definition loaded_or_failed (m' : Machine) : Prop :=
  (status (ui m') = lit "Entries loaded ✅" /\ error (ui m') = [])
  \/ status (ui m') = [].

(** [Array.isArray(data) ? data : data?.entries || data?.value || []] *)
Definition normalized (data : value) : value :=
  if isArray data then data
  else js_or (js_or (prop data (lit "entries")) (prop data (lit "value"))) (VArr []).

(** The loading flag is off, or it is what it was. *)
Definition loading_off_or_kept (m m' : Machine) : Prop :=
  loadingEntries (ui m') = false \/ loadingEntries (ui m') = loadingEntries (ui m).

End Frames.

(* ================================================================== *)
(** ** Assistant panel *)

(** The parts of a reply, by name. *)
Definition preamble (mood : Z) : jsstring :=
  lit "Thanks for sharing. Based on your mood (" ++ Z_to_string mood
  ++ lit "/5), here are a few gentle reflections:".

Definition contextLine (shown : jsstring) : jsstring :=
  lit "I also noticed your recent entry mentions: “" ++ shown ++ lit "”".

Definition closingLine (userText : jsstring) : jsstring :=
  lit "If you want, tell me more about: “" ++ excerpt userText ++ lit "”".

(** An item of [assistantMessages]: [{ role, text }]. *)
Module Chat.
Record message : Type := { role : jsstring; text : jsstring }.
End Chat.

(** A callback waiting in [setTimeout], with what it closes over. *)
Record Timer {NUM : JSNumber} : Type := {
  timer_mood : Z;
  timer_userText : jsstring;
  timer_lastEntryText : value
}.

(** The [useState] cells of the assistant panel, and the callbacks
    scheduled and not yet run, oldest first. *)
Record Panel {NUM : JSNumber} : Type := {
  assistantInput : jsstring;
  assistantMessages : list Chat.message;
  timers : list Timer
}.

Definition greeting : Chat.message :=
  {| Chat.role := lit "assistant";
     Chat.text := lit "Hi — I’m your journaling assistant. Tell me how you’re feeling, or paste a journal entry and I’ll help you reflect." |}.

Section Assistant.
Context {NUM : JSNumber}.

Definition initialPanel : Panel :=
  {| assistantInput := []; assistantMessages := [greeting]; timers := [] |}.

(** [v?.[0]] *)
Definition first_of (v : value) : value :=
  match v with
  | VArr (x :: _) => x
  | VObj o => lookup (lit "0") o
  | VStr (c :: _) => VStr [c]
  | _ => VUndefined
  end.

(** [buildMockReply({ mood, userText, lastEntryText })] when
    [lastEntryText] is any value: a string goes through [buildMockReply]
    above, and so does a falsy value, which gives no context line; an
    array is sliced and measured as an array and printed by the template
    literal; any other truthy value has no [slice] to call. [None] when
    the call throws. *)
Definition buildMockReplyOf (mood : Z) (userText : jsstring) (lastEntryText : value) :
    option jsstring :=
  match lastEntryText with
  | VStr s => Some (buildMockReply mood userText s)
  | VArr l =>
      match to_string (VArr (slice_to 120 l)) with
      | Some shown =>
          Some (join (lit (String (ascii_of_nat 10) EmptyString))
                  (filter (fun line => negb (is_empty line))
                     ([ preamble mood ]
                      ++ numbered 0 (promptsByMood (moodLabel mood))
                      ++ [ contextLine
                             (shown ++ (if (120 <? List.length l)%nat then lit "…" else []));
                           if negb (is_empty userText) then closingLine userText else [] ])))
      | None => None
      end
  | v => if truthy v then None else Some (buildMockReply mood userText [])
  end.

(** [function handleAssistantSend()], clicked in state [s]. *)
Definition handleAssistantSend (s : State) (p : Panel) : Panel :=
  let t := trim (assistantInput p) in
  if is_empty t then p
  else
    let lastEntryText := js_or (prop (first_of (entries s)) (lit "text")) (VStr []) in
    {| assistantInput := [];
       assistantMessages := assistantMessages p ++ [ {| Chat.role := lit "user"; Chat.text := t |} ];
       timers := timers p
                 ++ [ {| timer_mood := mood s; timer_userText := t;
                         timer_lastEntryText := lastEntryText |} ] |}.

(** The oldest callback runs, 400 ms after it was scheduled. A callback
    that throws adds nothing. *)
Definition fireTimer (p : Panel) : Panel :=
  match timers p with
  | [] => p
  | tm :: rest =>
      match buildMockReplyOf (timer_mood tm) (timer_userText tm) (timer_lastEntryText tm) with
      | Some reply =>
          {| assistantInput := assistantInput p;
             assistantMessages :=
               assistantMessages p ++ [ {| Chat.role := lit "assistant"; Chat.text := reply |} ];
             timers := rest |}
      | None =>
          {| assistantInput := assistantInput p;
             assistantMessages := assistantMessages p;
             timers := rest |}
      end
  end.

(** The [onClick] of "Clear". *)
Definition clearChat (p : Panel) : Panel :=
  {| assistantInput := assistantInput p;
     assistantMessages := [greeting];
     timers := timers p |}.

(** The [onChange] of the message box. *)
Definition setAssistantInput (v : jsstring) (p : Panel) : Panel :=
  {| assistantInput := v; assistantMessages := assistantMessages p; timers := timers p |}.

(** What happens in the panel: typing, "Send" clicked while the
    component is in state [s], a timer running out, "Clear". *)
Inductive chat_action : Type :=
| ChatType (v : jsstring)
| ChatSend (s : State)
| ChatFire
| ChatClear.

Definition chat_step (a : chat_action) (p : Panel) : Panel :=
  match a with
  | ChatType v => setAssistantInput v p
  | ChatSend s => handleAssistantSend s p
  | ChatFire => fireTimer p
  | ChatClear => clearChat p
  end.

Fixpoint chat_session (actions : list chat_action) (p : Panel) : Panel :=
  match actions with
  | [] => p
  | a :: rest => chat_session rest (chat_step a p)
  end.

Definition is_chat_clear (a : chat_action) : bool :=
  match a with ChatClear => true | _ => false end.

Definition userMessage (t : jsstring) : Chat.message :=
  {| Chat.role := lit "user"; Chat.text := t |}.

Definition assistantMessage (t : jsstring) : Chat.message :=
  {| Chat.role := lit "assistant"; Chat.text := t |}.

End Assistant.

Definition loaded_entry : State :=
  set_entries (VArr [ VObj [ (lit "id", VStr (lit "e1"));
                            (lit "text", VStr (lit "Felt okay today")) ] ])
    (set_mood 2 initialState).

(** A world in which every exchange is rejected. *)
Definition unreachable : World :=
  steady_world (NetFailed {| ename := lit "TypeError"; emessage := lit "Failed to fetch" |})
    ReadFailed (lit "2024-01-01T00:00:00.000Z").

(** A state whose first loaded entry has a number as its text. *)
Definition numeric_entry : State :=
  set_entries (VArr [ VObj [ (lit "id", VStr (lit "e1")); (lit "text", VNum (lit "5")) ] ])
    initialState.

(* ================================================================== *)
(** ** Strings and the reference parser *)

Lemma jsstring_eqb_eq (a b : jsstring) : jsstring_eqb a b = true <-> a = b.
Proof.
  unfold jsstring_eqb. destruct (list_eq_dec N.eq_dec a b); split; congruence.
Qed.

Example parse_json_object :
  parse_json (fun l => l) (json "{'a': [1, true, null], 'b': 'x\n', 'a': {}}")
  = Some (VObj [(lit "a", VObj []); (lit "b", VStr (lit "x" ++ [10]))]).
Proof. vm_compute. reflexivity. Qed.

(* ================================================================== *)
(** ** Remote call adapter *)

Section AdapterFacts.
Context {NUM : JSNumber} {PLAT : Platform}.
Variable w : World.

Lemma lookup_absent (k : jsstring) (o : list (jsstring * value)) :
  has_key k o = false -> lookup k o = VUndefined.
Proof.
  induction o as [|[k' v] o IH]; simpl; [reflexivity|].
  destruct (jsstring_eqb k' k); simpl; [discriminate|exact IH].
Qed.

(** What the adapter does once the exchange has produced a response. *)
Lemma apiFetchAbsolute_response url method payload m res :
  net w (trace m ++ [EvFetch url method payload]) = NetResponse res ->
  apiFetchAbsolute w url method payload m =
    (logged m (EvFetch url method payload),
     let data := body_data (body_text res) in
     if ok res then inr data
     else match to_string
                  (js_or (js_or (js_and data (prop data (lit "message")))
                                (VStr (body_text res)))
                         (VStr (lit "Request failed: " ++ N_to_string (status_code res))))
          with
          | Some message => inl (newError message)
          | None => inl noPrimitive
          end).
Proof.
  intros Hnet. unfold apiFetchAbsolute, exchange, bind, log, logged. simpl.
  rewrite Hnet. unfold ret, throwNewError, throw. destruct (ok res); [reflexivity|].
  cbn [negb]. destruct (to_string _); reflexivity.
Qed.

Lemma apiFetchAbsolute_rejected url method payload m e :
  net w (trace m ++ [EvFetch url method payload]) = NetFailed e ->
  apiFetchAbsolute w url method payload m = (logged m (EvFetch url method payload), inl e).
Proof.
  intros Hnet. unfold apiFetchAbsolute, exchange, bind, log, logged. simpl.
  rewrite Hnet. reflexivity.
Qed.

(** The error built from [(data && data.message) || text || generic]
    is [raised]. *)
Lemma chosen_message res :
  let text := body_text res in
  let data := body_data text in
  match to_string (js_or (js_or (js_and data (prop data (lit "message"))) (VStr text))
                     (VStr (lit "Request failed: " ++ N_to_string (status_code res))))
  with
  | Some message => newError message
  | None => noPrimitive
  end
  = raised res.
Proof.
  cbv zeta. unfold raised, message_field, text_or_generic, body_data.
  destruct (body_text res) as [|c text'] eqn:Htext; [reflexivity|].
  cbn [is_empty].
  assert (Hfallback : forall v, truthy v = false ->
            match to_string (js_or (js_or v (VStr (c :: text')))
                       (VStr (lit "Request failed: " ++ N_to_string (status_code res))))
            with
            | Some message => newError message
            | None => noPrimitive
            end
            = newError (c :: text')).
  { intros v Hv. unfold js_or. rewrite Hv. reflexivity. }
  destruct (JSON_parse (c :: text')) as [[| |b|n|s|l|o]|];
    unfold js_and; cbn [truthy prop];
    try (apply Hfallback; reflexivity).
  - destruct b; apply Hfallback; reflexivity.
  - destruct (num_truthy n) eqn:Hn; apply Hfallback; [reflexivity|exact Hn].
  - destruct s; apply Hfallback; reflexivity.
  - destruct (has_key (lit "message") o) eqn:Hkey.
    + destruct (truthy (lookup (lit "message") o)) eqn:Hv.
      * unfold js_or. rewrite Hv. cbn [truthy]. rewrite Hv. reflexivity.
      * apply Hfallback. exact Hv.
    + rewrite (lookup_absent _ _ Hkey). apply Hfallback. reflexivity.
Qed.

End AdapterFacts.

Section AdapterClaims.
Context {NUM : JSNumber} {PLAT : Platform}.
Variable w : World.

(** C1 (amended). When the exchange yields a response whose status is
    not a success, the adapter throws, whatever the body. If the parsed
    body has a [message] field that is truthy, the error's message is
    that field converted to a string. If the field is absent or falsy,
    the message is the raw response text when that is non-empty, and
    ["Request failed: <status>"] otherwise. When the status is a
    success, the adapter does not throw. *)
Theorem apiFetchAbsolute_error_policy url method payload m res :
  net w (trace m ++ [EvFetch url method payload]) = NetResponse res ->
  (ok res = false ->
   snd (apiFetchAbsolute w url method payload m) = inl (raised res)
   /\ (forall v message,
         message_field (body_text res) = Some v -> truthy v = true ->
         to_string v = Some message ->
         raised res = newError message)
   /\ (message_field (body_text res) = None
       \/ (exists v, message_field (body_text res) = Some v /\ truthy v = false) ->
       (body_text res <> [] -> raised res = newError (body_text res))
       /\ (body_text res = [] ->
           raised res
           = newError (lit "Request failed: " ++ N_to_string (status_code res)))))
  /\ (ok res = true ->
      exists data, snd (apiFetchAbsolute w url method payload m) = inr data).
Proof.
  intros Hnet. rewrite (apiFetchAbsolute_response w _ _ _ _ _ Hnet). cbn [snd].
  split; intros Hok; rewrite Hok.
  - split; [|split].
    + rewrite <- (chosen_message res). cbv zeta.
      destruct (to_string _); reflexivity.
    + intros v message Hf Hv Hs. unfold raised. rewrite Hf, Hv, Hs. reflexivity.
    + intros Hno.
      assert (Hr : raised res = newError (text_or_generic res)).
      { unfold raised. destruct Hno as [Hf|[v [Hf Hv]]]; rewrite Hf; [|rewrite Hv]; reflexivity. }
      rewrite Hr. unfold text_or_generic.
      split; [intros Hb | intros Hb].
      * destruct (body_text res); [contradiction|reflexivity].
      * rewrite Hb. reflexivity.
  - eexists. reflexivity.
Qed.

(** C2. When the exchange yields a response with a success status and a
    non-empty body, the adapter returns without throwing: the raw body
    text if [JSON.parse] rejects the body, the parsed value if it
    accepts it. *)
Theorem apiFetchAbsolute_success_body url method payload m res :
  net w (trace m ++ [EvFetch url method payload]) = NetResponse res ->
  ok res = true ->
  body_text res <> [] ->
  (JSON_parse (body_text res) = None ->
   snd (apiFetchAbsolute w url method payload m) = inr (VStr (body_text res)))
  /\ (forall parsed, JSON_parse (body_text res) = Some parsed ->
      snd (apiFetchAbsolute w url method payload m) = inr parsed).
Proof.
  intros Hnet Hok Hbody. rewrite (apiFetchAbsolute_response w _ _ _ _ _ Hnet).
  cbn [snd]. rewrite Hok. unfold body_data.
  destruct (body_text res) as [|c t]; [contradiction|]. cbn [is_empty].
  split; [intros Hp | intros parsed Hp]; rewrite Hp; reflexivity.
Qed.

End AdapterClaims.

(** C10. When the exchange yields a response with a success status and
    an empty body, the adapter returns [null], which is neither the empty
    string nor the raw text; and [JSON.parse] is not consulted on the
    empty body: the adapter does the same on this exchange whatever
    parser the platform has. *)
Theorem apiFetchAbsolute_empty_body {NUM : JSNumber} {PLAT : Platform} (w : World)
    url method payload m res :
  net w (trace m ++ [EvFetch url method payload]) = NetResponse res ->
  ok res = true ->
  body_text res = [] ->
  snd (apiFetchAbsolute w url method payload m) = inr VNull
  /\ VNull <> VStr (body_text res)
  /\ (forall parse : jsstring -> option value,
        @apiFetchAbsolute NUM (with_parser PLAT parse) w url method payload m
        = apiFetchAbsolute w url method payload m).
Proof.
  intros Hnet Hok Hbody. split; [|split].
  - rewrite (apiFetchAbsolute_response w _ _ _ _ _ Hnet). cbn [snd].
    rewrite Hok, Hbody. reflexivity.
  - discriminate.
  - intros parse.
    rewrite (@apiFetchAbsolute_response NUM (with_parser PLAT parse) w _ _ _ _ _ Hnet).
    rewrite (apiFetchAbsolute_response w _ _ _ _ _ Hnet).
    cbv zeta. rewrite Hok. unfold body_data. rewrite Hbody. reflexivity.
Qed.

(* ------------------------------------------------------------------ *)
(** Concrete runs of the adapter on the reference platform. *)

Lemma apiFetchAbsolute_error_policy_witness :
  snd (apiFetchAbsolute (answering not_found) (lit "https://host/get") (lit "POST") VNull
         (start initialState))
  = inl (raised not_found).
Proof.
  refine (proj1 (proj1 (apiFetchAbsolute_error_policy (answering not_found)
                          (lit "https://host/get") (lit "POST") VNull (start initialState)
                          not_found _) _)).
  - reflexivity.
  - reflexivity.
Defined.

Example raised_not_found : raised not_found = newError (lit "No such entry").
Proof. vm_compute. reflexivity. Qed.

(** C1 as stated fails on a body whose [message] field is present and
    empty: the field is there, yet the message raised is the raw text. *)
Lemma stated_error_policy_fails :
  message_field (body_text empty_message) = Some (VStr [])
  /\ stated_error_message empty_message = Some []
  /\ snd (apiFetchAbsolute (answering empty_message) (lit "https://host/get") (lit "POST")
            VNull (start initialState))
     = inl (newError (body_text empty_message))
  /\ body_text empty_message <> [].
Proof.
  split; [|split; [|split]].
  - vm_compute. reflexivity.
  - vm_compute. reflexivity.
  - vm_compute. reflexivity.
  - vm_compute. discriminate.
Qed.

Lemma apiFetchAbsolute_success_body_witness :
  snd (apiFetchAbsolute (answering html_page) (lit "https://host/get") (lit "POST") VNull
         (start initialState))
  = inr (VStr (body_text html_page)).
Proof.
  refine (proj1 (apiFetchAbsolute_success_body (answering html_page) (lit "https://host/get")
                   (lit "POST") VNull (start initialState) html_page _ _ _) _).
  - reflexivity.
  - reflexivity.
  - vm_compute. discriminate.
  - vm_compute. reflexivity.
Defined.

Lemma apiFetchAbsolute_empty_body_witness :
  snd (apiFetchAbsolute (answering no_content) (lit "https://host/get") (lit "POST") VNull
         (start initialState))
  = inr VNull.
Proof.
  refine (proj1 (apiFetchAbsolute_empty_body (answering no_content) (lit "https://host/get")
                   (lit "POST") VNull (start initialState) no_content _ _ _)).
  - reflexivity.
  - reflexivity.
  - reflexivity.
Defined.

(* ================================================================== *)
(** ** File encoder *)

Section EncoderFacts.
Context {NUM : JSNumber}.
Variable w : World.

Lemma indexOf_absent (c : N) (s : jsstring) : ~ In c s -> indexOf c s = (-1)%Z.
Proof.
  induction s as [|x r IH]; simpl; intros Hnot; [reflexivity|].
  destruct (N.eqb_spec x c) as [->|_]; [exfalso; apply Hnot; now left|].
  rewrite IH by (intros Hin; apply Hnot; now right). reflexivity.
Qed.

Lemma indexOf_first (c : N) (pre post : jsstring) :
  ~ In c pre -> indexOf c (pre ++ c :: post) = Z.of_nat (List.length pre).
Proof.
  induction pre as [|x r IH]; intros Hnot.
  - simpl. rewrite N.eqb_refl. reflexivity.
  - cbn [app indexOf List.length].
    destruct (N.eqb_spec x c) as [->|_]; [exfalso; apply Hnot; now left|].
    rewrite IH by (intros Hin; apply Hnot; now right).
    destruct (Z.ltb_spec (Z.of_nat (List.length r)) 0); lia.
Qed.

Lemma slice_from_after (pre post : jsstring) (c : N) :
  slice_from (Z.of_nat (List.length pre) + 1) (pre ++ c :: post) = post.
Proof.
  unfold slice_from. rewrite length_app. cbn [List.length].
  destruct (Z.ltb_spec (Z.of_nat (List.length pre) + 1) 0); [lia|].
  replace (Z.to_nat _) with (List.length pre + 1)%nat by lia.
  replace (pre ++ c :: post) with ((pre ++ [c]) ++ post) by (rewrite <- app_assoc; reflexivity).
  rewrite skipn_app, skipn_all2 by (rewrite length_app; simpl; lia).
  rewrite length_app. cbn [List.length].
  replace (_ - _)%nat with 0%nat by lia. reflexivity.
Qed.

Lemma onload_string (s : jsstring) :
  onload (Some s)
  = if (indexOf 44 s >=? 0)%Z then slice_from (indexOf 44 s + 1) s else s.
Proof.
  unfold onload. destruct s; reflexivity.
Qed.

Lemma readFileAsBase64_loaded f m result :
  reader w (trace m ++ [EvReadFile f]) = ReadLoaded result ->
  readFileAsBase64 w f m = (logged m (EvReadFile f), inr (onload result)).
Proof.
  intros Hread. unfold readFileAsBase64, bind, log, logged. simpl.
  rewrite Hread. reflexivity.
Qed.

Lemma readFileAsBase64_failed f m :
  reader w (trace m ++ [EvReadFile f]) = ReadFailed ->
  readFileAsBase64 w f m
  = (logged m (EvReadFile f), inl (newError (lit "Failed to read file"))).
Proof.
  intros Hread. unfold readFileAsBase64, bind, log, logged. simpl.
  rewrite Hread. reflexivity.
Qed.

(** C9. When the file read yields the string [s], the encoder resolves
    to what follows the first comma of [s] if [s] has a comma, and to
    the whole of [s] otherwise; a read yielding
    ["data:text/plain;base64,AAAA"] encodes to ["AAAA"]. *)
Theorem readFileAsBase64_payload f m s :
  reader w (trace m ++ [EvReadFile f]) = ReadLoaded (Some s) ->
  (forall pre post, s = pre ++ 44 :: post -> ~ In 44 pre ->
     snd (readFileAsBase64 w f m) = inr post)
  /\ (~ In 44 s -> snd (readFileAsBase64 w f m) = inr s)
  /\ (s = lit "data:text/plain;base64,AAAA" ->
      snd (readFileAsBase64 w f m) = inr (lit "AAAA")).
Proof.
  intros Hread. rewrite (readFileAsBase64_loaded _ _ _ Hread). cbn [snd].
  rewrite onload_string. split; [|split].
  - intros pre post -> Hpre. rewrite (indexOf_first _ _ _ Hpre).
    destruct (Z.geb_spec (Z.of_nat (List.length pre)) 0); [|lia].
    rewrite slice_from_after. reflexivity.
  - intros Hnone. rewrite (indexOf_absent _ _ Hnone). reflexivity.
  - intros ->. vm_compute. reflexivity.
Qed.

End EncoderFacts.

Lemma readFileAsBase64_payload_witness :
  snd (readFileAsBase64
         (readable no_content) picture (start initialState))
  = inr (lit "iVBORw0KGgo=").
Proof.
  refine (proj1 (readFileAsBase64_payload _ _ _ (lit "data:image/png;base64,iVBORw0KGgo=") _)
            (lit "data:image/png;base64") (lit "iVBORw0KGgo=") _ _).
  - reflexivity.
  - vm_compute. reflexivity.
  - vm_compute. intuition discriminate.
Defined.

(* ================================================================== *)
(** ** Mock assistant *)

Lemma moodLabel_low (mood : Z) : moodLabel mood = low <-> (mood <= 2)%Z.
Proof.
  unfold moodLabel. destruct (Z.leb_spec mood 2); [tauto|].
  destruct (Z.eqb_spec mood 3); split; (discriminate || lia).
Qed.

Lemma moodLabel_neutral (mood : Z) : moodLabel mood = neutral <-> mood = 3%Z.
Proof.
  unfold moodLabel. destruct (Z.leb_spec mood 2); [split; (discriminate || lia)|].
  destruct (Z.eqb_spec mood 3); split; (discriminate || tauto).
Qed.

Lemma moodLabel_good (mood : Z) : moodLabel mood = good <-> (4 <= mood)%Z.
Proof.
  unfold moodLabel. destruct (Z.leb_spec mood 2); [split; (discriminate || lia)|].
  destruct (Z.eqb_spec mood 3); split; (discriminate || lia || tauto).
Qed.

(** The reply starts with the preamble and the first numbered prompt. *)
Lemma compose_start (a b c : jsstring) (mood : Z) (userText lastEntryText : jsstring) :
  exists rest,
    compose [a; b; c] mood userText lastEntryText
    = (lit "Thanks for sharing. Based on your mood (" ++ Z_to_string mood
         ++ lit "/5), here are a few gentle reflections:")
        ++ 10 :: lit "1. " ++ a ++ 10 :: rest.
Proof.
  unfold compose.
  set (pre := lit "Thanks for sharing. Based on your mood (" ++ Z_to_string mood
                ++ lit "/5), here are a few gentle reflections:").
  set (tail := [_; _]).
  assert (Hpre : is_empty pre = false) by reflexivity.
  cbn [app numbered filter]. rewrite Hpre. cbn [negb].
  change (N_to_string (0 + 1)) with (lit "1").
  change (N_to_string (0 + 1 + 1)) with (lit "2").
  change (N_to_string (0 + 1 + 1 + 1)) with (lit "3").
  change (is_empty (lit "1" ++ lit ". " ++ a)) with false.
  change (is_empty (lit "2" ++ lit ". " ++ b)) with false.
  change (is_empty (lit "3" ++ lit ". " ++ c)) with false.
  cbn [negb join].
  change (lit (String (ascii_of_nat 10) EmptyString)) with [10].
  eexists. cbn [app]. 
  change (lit "1" ++ lit ". " ++ a) with (lit "1. " ++ a).
  rewrite <- !app_assoc. cbn [app]. reflexivity.
Qed.

(** Replies built from the prompt lists of two different buckets differ. *)
Lemma compose_bucket_inj (a b : MoodLabel) (mood : Z) (userText lastEntryText : jsstring) :
  compose (promptsByMood a) mood userText lastEntryText
  = compose (promptsByMood b) mood userText lastEntryText ->
  a = b.
Proof.
  intros Heq.
  destruct a, b; try reflexivity; exfalso; cbn [promptsByMood] in Heq;
    match type of Heq with
    | compose [?a1; ?b1; ?c1] _ _ _ = compose [?a2; ?b2; ?c2] _ _ _ =>
        destruct (compose_start a1 b1 c1 mood userText lastEntryText) as [r1 H1];
        destruct (compose_start a2 b2 c2 mood userText lastEntryText) as [r2 H2]
    end;
    rewrite H1, H2 in Heq; apply app_inv_head in Heq;
    apply (f_equal (firstn 12)) in Heq; vm_compute in Heq; discriminate Heq.
Qed.

(** C6. For an integer score from 1 to 5, the reply is the one composed
    from the prompt list of the "low" bucket exactly when the score is at
    most 2, of the "neutral" bucket exactly when it is 3, and of the
    "good" bucket exactly when it is at least 4; and equal
    (score, userText, lastEntryText) triples give equal replies. *)
Theorem buildMockReply_buckets (score : Z) (userText lastEntryText : jsstring) :
  (1 <= score <= 5)%Z ->
  (buildMockReply score userText lastEntryText
   = compose (promptsByMood low) score userText lastEntryText <-> (score <= 2)%Z)
  /\ (buildMockReply score userText lastEntryText
      = compose (promptsByMood neutral) score userText lastEntryText <-> score = 3%Z)
  /\ (buildMockReply score userText lastEntryText
      = compose (promptsByMood good) score userText lastEntryText <-> (4 <= score)%Z)
  /\ (forall score' userText' lastEntryText',
        (score', userText', lastEntryText') = (score, userText, lastEntryText) ->
        buildMockReply score' userText' lastEntryText'
        = buildMockReply score userText lastEntryText).
Proof.
  intros _. unfold buildMockReply. cbv zeta.
  repeat split.
  - intros H. apply compose_bucket_inj in H. now apply moodLabel_low.
  - intros H. apply moodLabel_low in H. now rewrite H.
  - intros H. apply compose_bucket_inj in H. now apply moodLabel_neutral.
  - intros H. apply moodLabel_neutral in H. now rewrite H.
  - intros H. apply compose_bucket_inj in H. now apply moodLabel_good.
  - intros H. apply moodLabel_good in H. now rewrite H.
  - intros score' userText' lastEntryText' H. injection H as -> -> ->. reflexivity.
Qed.

Lemma buildMockReply_buckets_witness :
  buildMockReply 2 (lit "rough day") []
  = compose (promptsByMood low) 2 (lit "rough day") [].
Proof.
  refine (proj2 (proj1 (buildMockReply_buckets 2 (lit "rough day") [] _)) _).
  - lia.
  - lia.
Defined.

(* ================================================================== *)
(** ** Relations kept by every step of a handler *)

Section Stability.
Context {NUM : JSNumber} {PLAT : Platform}.
Variable cfg : ENDPOINTS.t.
Variable w : World.
Variable I : Machine -> Machine -> Prop.
Hypothesis I_refl : forall m, I m m.
Hypothesis I_trans : forall a b c, I a b -> I b c -> I a c.

Lemma stable_ret {A} (a : A) : stable I (ret a).
Proof. intros m. apply I_refl. Qed.

Lemma stable_throw {A} (e : exn) : stable I (@throw _ A e).
Proof. intros m. apply I_refl. Qed.

Lemma stable_bind {A B} (c : M A) (k : A -> M B) :
  stable I c -> (forall a, stable I (k a)) -> stable I (bind c k).
Proof.
  intros Hc Hk m. unfold bind. specialize (Hc m).
  destruct (c m) as [m1 [e|a]]; cbn [fst] in *; [exact Hc|].
  eapply I_trans; [exact Hc|apply Hk].
Qed.

Lemma stable_try_catch (body : M unit) (handler : exn -> M unit) :
  stable I body ->
  (forall e, stable I (log (EvCaught e))) ->
  (forall e, stable I (handler e)) ->
  stable I (try_catch body handler).
Proof.
  intros Hb Hl Hh m. unfold try_catch. specialize (Hb m).
  destruct (body m) as [m1 [e|a]]; cbn [fst] in *; [|exact Hb].
  eapply I_trans; [exact Hb|]. apply stable_bind; [apply Hl|intros _; apply Hh].
Qed.

Lemma stable_finally {A} (c : M A) (fin : M unit) :
  stable I c -> stable I fin -> stable I (finally c fin).
Proof.
  intros Hc Hf m. unfold finally. specialize (Hc m).
  destruct (c m) as [m1 r]; cbn [fst] in *. specialize (Hf m1).
  destruct (fin m1) as [m2 [e|u]]; cbn [fst] in *; eapply I_trans; eauto.
Qed.

Lemma stable_click (h : State -> M unit) :
  (forall s, stable I (h s)) -> stable I (click h).
Proof. intros Hh m. apply Hh. Qed.

Lemma stable_toIsoNow : stable I (toIsoNow w).
Proof. intros m. apply I_refl. Qed.

Lemma stable_requireEndpoint url name : stable I (requireEndpoint url name).
Proof.
  unfold requireEndpoint. destruct url as [u|]; [destruct (is_empty u)|];
    (apply stable_throw || apply stable_ret).
Qed.

Lemma stable_member v p : stable I (member v p).
Proof. unfold member. destruct v; (apply stable_throw || apply stable_ret). Qed.

Lemma stable_readFileAsBase64 f :
  stable I (log (EvReadFile f)) -> stable I (readFileAsBase64 w f).
Proof.
  intros Hl. unfold readFileAsBase64. apply stable_bind; [exact Hl|].
  intros _ m. destruct (reader w (trace m)); apply I_refl.
Qed.

Lemma stable_apiFetchAbsolute url method payload :
  stable I (log (EvFetch url method payload)) ->
  stable I (apiFetchAbsolute w url method payload).
Proof.
  intros Hl. unfold apiFetchAbsolute, exchange.
  apply stable_bind.
  - apply stable_bind; [exact Hl|].
    intros _ m. destruct (net w (trace m)); apply I_refl.
  - intros res. destruct (negb (ok res)); [|apply stable_ret].
    unfold throwNewError. destruct (to_string _); apply stable_throw.
Qed.

End Stability.

(** Breaks a [stable] goal about a handler down to its setters and its
    log entries; [Hr] and [Ht] are reflexivity and transitivity of the
    relation. *)
Ltac unfold_handlers :=
  unfold handleUpload, handleUpload_try, handleCreateEntry, handleCreateEntry_try,
    handleLoadEntries, handleLoadEntries_try, handleUpdate, handleUpdate_try,
    handleDelete, handleDelete_try, addMoodEntry, startEdit, cancelEdit, clearMessages.

Ltac stable_steps Hr Ht :=
  repeat first
    [ apply stable_click; intro
    | apply (stable_ret _ Hr)
    | apply (stable_throw _ Hr)
    | apply (stable_toIsoNow _ _ Hr)
    | apply (stable_requireEndpoint _ Hr)
    | apply (stable_member _ Hr)
    | apply (stable_readFileAsBase64 _ _ Hr Ht)
    | apply (stable_apiFetchAbsolute _ _ Hr Ht)
    | apply (stable_bind _ Ht); [|intro]
    | apply (stable_try_catch _ Ht); [|intro|intro]
    | apply (stable_finally _ Ht)
    | match goal with
      | |- stable _ (if ?b then _ else _) => destruct b
      | |- stable _ (match ?x with _ => _ end) => destruct x
      end
    | progress unfold_handlers ].

(* ================================================================== *)
(** ** Mood log *)

Section MoodLog.
Context {NUM : JSNumber} {PLAT : Platform}.
Variable cfg : ENDPOINTS.t.
Variable w : World.

Lemma same_moodHistory_refl (m : Machine) : same_moodHistory m m.
Proof. reflexivity. Qed.

Lemma same_moodHistory_trans (a b c : Machine) :
  same_moodHistory a b -> same_moodHistory b c -> same_moodHistory a c.
Proof. unfold same_moodHistory. congruence. Qed.

(** Only "save mood" touches the mood log. *)
Lemma perform_same_moodHistory (a : action) :
  a <> ClickSaveMood -> stable same_moodHistory (perform cfg w a).
Proof.
  intros Ha. destruct a; try contradiction; unfold perform;
    stable_steps same_moodHistory_refl same_moodHistory_trans;
    intros m; reflexivity.
Qed.

Lemma addMoodEntry_moodHistory (m : Machine) :
  moodHistory (ui (fst (click (addMoodEntry w) m)))
  = slice_to 14 ({| date := clock w (trace m); score := mood (ui m);
                    notes := trim (moodNotes (ui m)) |} :: moodHistory (ui m)).
Proof. reflexivity. Qed.

Lemma firstn_app_firstn {A} (n : nat) (a b : list A) :
  firstn n (a ++ firstn n b) = firstn n (a ++ b).
Proof.
  rewrite !firstn_app, firstn_firstn.
  replace (Nat.min (n - List.length a) n) with (n - List.length a)%nat by lia.
  reflexivity.
Qed.

Lemma session_moodHistory (actions : list action) (m : Machine) :
  (List.length (moodHistory (ui m)) <= 14)%nat ->
  moodHistory (ui (session cfg w actions m))
  = slice_to 14 (rev (saved_moods cfg w actions m) ++ moodHistory (ui m)).
Proof.
  unfold slice_to. revert m.
  induction actions as [|a rest IH]; intros m Hlen; cbn [session saved_moods].
  - cbn [rev app]. symmetry. apply firstn_all2. exact Hlen.
  - destruct (is_save_mood a) eqn:Ha.
    + destruct a; try discriminate Ha. cbn [perform].
      rewrite IH; rewrite addMoodEntry_moodHistory; unfold slice_to.
      * rewrite firstn_app_firstn, rev_app_distr. cbn [rev app].
        rewrite <- app_assoc. reflexivity.
      * apply firstn_le_length.
    + assert (Hother : a <> ClickSaveMood) by (intros ->; discriminate Ha).
      pose proof (perform_same_moodHistory a Hother m) as Hsame.
      unfold same_moodHistory in Hsame.
      rewrite IH by (rewrite Hsame; exact Hlen). rewrite Hsame.
      destruct a; try contradiction; reflexivity.
Qed.

Lemma saved_moods_length (actions : list action) (m : Machine) :
  List.length (saved_moods cfg w actions m) = List.length (filter is_save_mood actions).
Proof.
  revert m. induction actions as [|a rest IH]; intros m; [reflexivity|].
  cbn [saved_moods filter]. rewrite length_app, IH.
  destruct a; reflexivity.
Qed.

(** C5. After any session in which "save mood" was clicked n times, the
    mood log holds min(n, 14) records: the most recently saved ones,
    newest first. It never holds more than 14, and a 15th record leaves
    14. *)
Theorem moodHistory_capped (actions : list action) :
  let saved := saved_moods cfg w actions (start initialState) in
  let history := moodHistory (ui (session cfg w actions (start initialState))) in
  let n := List.length (filter is_save_mood actions) in
  List.length saved = n
  /\ history = firstn 14 (rev saved)
  /\ history = rev (skipn (n - 14) saved)
  /\ List.length history = Nat.min n 14
  /\ (List.length history <= 14)%nat.
Proof.
  cbv zeta.
  pose proof (saved_moods_length actions (start initialState)) as Hn.
  pose proof (session_moodHistory actions (start initialState)) as Hh.
  cbn [start ui initialState moodHistory List.length] in Hh.
  specialize (Hh ltac:(lia)). rewrite app_nil_r in Hh. unfold slice_to in Hh.
  rewrite Hh. repeat split.
  - exact Hn.
  - rewrite firstn_rev, Hn. reflexivity.
  - rewrite length_firstn, length_rev, Hn. lia.
  - apply firstn_le_length.
Qed.

End MoodLog.

(** Fifteen saved moods, with the slider moved before each: the log
    holds the last fourteen, newest first. *)
Example fifteen_moods :
  map score
    (moodHistory
       (ui (session {| ENDPOINTS.upload := None; ENDPOINTS.create := None;
                       ENDPOINTS.get := None; ENDPOINTS.update := None;
                       ENDPOINTS.del := None |}
              (answering no_content)
              (flat_map (fun z => [SlideMood z; ClickSaveMood])
                 [1; 2; 3; 4; 5; 1; 2; 3; 4; 5; 1; 2; 3; 4; 5]%Z)
              (start initialState))))
  = [5; 4; 3; 2; 1; 5; 4; 3; 2; 1; 5; 4; 3; 2]%Z.
Proof. vm_compute. reflexivity. Qed.

(* ================================================================== *)
(** ** Create payload *)

Section CreatePayload.
Context {NUM : JSNumber} {PLAT : Platform}.
Variable cfg : ENDPOINTS.t.
Variable w : World.









End CreatePayload.

(* ================================================================== *)
(** ** What each step leaves behind *)

Section Steps.
Context {NUM : JSNumber} {PLAT : Platform}.
Variable w : World.

Lemma readFileAsBase64_eq f m :
  readFileAsBase64 w f m
  = (logged m (EvReadFile f),
     match reader w (trace m ++ [EvReadFile f]) with
     | ReadFailed => inl (newError (lit "Failed to read file"))
     | ReadLoaded result => inr (onload result)
     end).
Proof.
  destruct (reader w (trace m ++ [EvReadFile f])) eqn:Hread.
  - apply readFileAsBase64_failed. exact Hread.
  - apply readFileAsBase64_loaded. exact Hread.
Qed.

Lemma apiFetchAbsolute_eq url method payload m :
  apiFetchAbsolute w url method payload m
  = (logged m (EvFetch url method payload),
     match net w (trace m ++ [EvFetch url method payload]) with
     | NetFailed e => inl e
     | NetResponse res =>
         let data := body_data (body_text res) in
         if ok res then inr data
         else match to_string
                      (js_or (js_or (js_and data (prop data (lit "message")))
                                    (VStr (body_text res)))
                             (VStr (lit "Request failed: "
                                    ++ N_to_string (status_code res))))
              with
              | Some message => inl (newError message)
              | None => inl noPrimitive
              end
     end).
Proof.
  destruct (net w (trace m ++ [EvFetch url method payload])) eqn:Hnet.
  - apply apiFetchAbsolute_rejected. exact Hnet.
  - apply apiFetchAbsolute_response. exact Hnet.
Qed.

Lemma requireEndpoint_eq (url : option jsstring) (name : jsstring) (m : Machine) :
  requireEndpoint url name m
  = (m, match url with
        | Some u => if is_empty u then inl (missing name) else inr u
        | None => inl (missing name)
        end).
Proof. destruct url as [[|c u]|]; reflexivity. Qed.

Lemma member_eq (v : value) (p : jsstring) (m : Machine) :
  member v p m
  = (m, match v with
        | VUndefined | VNull =>
            inl {| ename := lit "TypeError"; emessage := null_read_message v p |}
        | _ => inr (prop v p)
        end).
Proof. destruct v; reflexivity. Qed.

End Steps.

(* ================================================================== *)
(** ** Failures stay inside the operations *)

Section Containment.
Context {NUM : JSNumber} {PLAT : Platform}.

Lemma caught_in_app (a b : list event) : caught_in (a ++ b) = caught_in a ++ caught_in b.
Proof. unfold caught_in. apply flat_map_app. Qed.

Lemma quiet_refl (m : Machine) : quiet m m.
Proof. exists []. split; [unfold extends; now rewrite app_nil_r|reflexivity]. Qed.

Lemma quiet_trans (a b c : Machine) : quiet a b -> quiet b c -> quiet a c.
Proof.
  intros [e1 [H1 Q1]] [e2 [H2 Q2]]. exists (e1 ++ e2). unfold extends in *. split.
  - rewrite H2, H1, app_assoc. reflexivity.
  - rewrite caught_in_app, Q1, Q2. reflexivity.
Qed.

Lemma quiet_modify (f : State -> State) : stable quiet (modify f).
Proof. intros m. exists []. split; [unfold extends; cbn; now rewrite app_nil_r|reflexivity]. Qed.

Lemma quiet_log (ev : event) : caught_in [ev] = [] -> stable quiet (log ev).
Proof. intros H m. exists [ev]. split; [reflexivity|exact H]. Qed.

Variable R : exn -> jsstring -> Prop.

Lemma guarded_quiet (body : M unit) : stable quiet body -> guarded R body.
Proof.
  intros Hq m. destruct (Hq m) as [evs [Hext Hc]]. exists evs. split; [exact Hext|].
  destruct (snd (body m)); [exact Hc|left; exact Hc].
Qed.

Lemma guarded_bind {A} (c : M A) (k : A -> M unit) :
  stable quiet c -> (forall a, guarded R (k a)) -> guarded R (bind c k).
Proof.
  intros Hc Hk m. unfold bind. destruct (Hc m) as [evs1 [Hext1 Hq1]].
  destruct (c m) as [m1 [e|a]]; cbn [fst snd] in *.
  - exists evs1. split; assumption.
  - destruct (Hk a m1) as [evs2 [Hext2 Hs2]]. exists (evs1 ++ evs2).
    unfold extends in *. split; [rewrite Hext2, Hext1, app_assoc; reflexivity|].
    unfold settled in *. rewrite caught_in_app, Hq1. exact Hs2.
Qed.

Lemma guarded_contained (op : M unit) : contained R op -> guarded R op.
Proof.
  intros Hop m. destruct (Hop m) as [evs [Hr [Hext Hs]]]. exists evs.
  split; [exact Hext|]. rewrite Hr. exact Hs.
Qed.

Lemma contained_try_catch (body : M unit) (f : exn -> jsstring) :
  guarded R body -> (forall e, R e (f e)) ->
  contained R (try_catch body (fun e => setError (f e);; setStatus [])).
Proof.
  intros Hb HR m. unfold try_catch. destruct (Hb m) as [evs [Hext Hm]].
  destruct (body m) as [m1 [e|[]]]; cbn [fst snd] in *.
  - exists (evs ++ [EvCaught e]). cbn. unfold extends in *. cbn [trace].
    split; [reflexivity|]. split; [rewrite Hext, app_assoc; reflexivity|].
    right. exists e. rewrite caught_in_app, Hm. cbn.
    split; [reflexivity|]. split; [apply HR|reflexivity].
  - exists evs. split; [reflexivity|]. split; assumption.
Qed.

Lemma contained_after_clear (op : M unit) :
  contained R op -> contained R (clearMessages;; op).
Proof.
  intros Hop m. unfold clearMessages, setStatus, setError, modify, bind. cbn.
  destruct (Hop {| ui := set_error [] (set_status [] (ui m)); trace := trace m |})
    as [evs H].
  exists evs. exact H.
Qed.

Lemma contained_finally (op : M unit) :
  contained R op -> contained R (finally op (setLoadingEntries false)).
Proof.
  intros Hop m. unfold finally. destruct (Hop m) as [evs [Hr [Hext Hs]]].
  destruct (op m) as [m1 r]; cbn [fst snd] in *. subst r. cbn.
  exists evs. split; [reflexivity|]. split; [exact Hext|exact Hs].
Qed.

Lemma contained_ret : contained R (ret tt).
Proof.
  intros m. exists []. cbn. split; [reflexivity|].
  split; [unfold extends; now rewrite app_nil_r|left; reflexivity].
Qed.

End Containment.

Ltac quiet_steps :=
  stable_steps (@quiet_refl _) (@quiet_trans _);
  first [ apply quiet_modify | apply quiet_log; reflexivity ].

(** Walks down a [try] block: quiet steps, then either the nested list
    operation, known by [Hlist] to contain its failures, or nothing. *)
Ltac guarded_steps Hlist :=
  repeat match goal with
         | |- guarded _ (bind _ _) => apply guarded_bind; [solve [quiet_steps]|intro]
         end;
  first [ apply guarded_contained; apply Hlist
        | apply guarded_quiet; solve [quiet_steps] ].

(** The [try] block has come to its last step, the list operation,
    which is known by [Hlist] to return: the operation returns, and it
    is that step. *)
Ltac reload_is_last Hlist :=
  match goal with
  | |- context [handleLoadEntries ?cfg ?w ?s ?m1] =>
      let evs := fresh "evs" in
      let Hr := fresh "Hr" in
      destruct (Hlist m1) as [evs [Hr _]];
      let Heq := fresh "Heq" in
      destruct (handleLoadEntries cfg w s m1) as [? ?] eqn:Heq;
      cbn [snd] in Hr; subst;
      split; [reflexivity|exists m1; split; [reflexivity|symmetry; exact Heq]]
  end.

Section Operations.
Context {NUM : JSNumber} {PLAT : Platform}.
Variable cfg : ENDPOINTS.t.
Variable w : World.

Lemma handleLoadEntries_contained (s : State) :
  contained shows_message (handleLoadEntries cfg w s).
Proof.
  unfold handleLoadEntries. apply contained_after_clear, contained_finally.
  apply contained_try_catch; [|reflexivity].
  unfold handleLoadEntries_try. apply guarded_quiet. solve [quiet_steps].
Qed.

Lemma handleUpload_contained (s : State) :
  contained shows_message (handleUpload cfg w s).
Proof.
  unfold handleUpload. apply contained_after_clear.
  destruct (negb (canUpload s)); [apply contained_ret|].
  apply contained_try_catch; [|reflexivity].
  unfold handleUpload_try. apply guarded_quiet. solve [quiet_steps].
Qed.

Lemma handleCreateEntry_contained (s : State) :
  contained shows_message (handleCreateEntry cfg w s).
Proof.
  unfold handleCreateEntry. apply contained_after_clear.
  apply contained_try_catch; [|reflexivity].
  unfold handleCreateEntry_try. guarded_steps (handleLoadEntries_contained s).
Qed.

Lemma handleUpdate_contained (s : State) (entryId : value) :
  write_contained w entryId (ENDPOINTS.update cfg) (lit "REACT_APP_UPDATE_URL")
    (VObj [ (lit "id", entryId); (lit "entryId", entryId);
            (lit "text", editText s); (lit "visibility", editVisibility s) ])
    (handleLoadEntries cfg w s) (handleUpdate cfg w s entryId).
Proof.
  intros m.
  unfold handleUpdate, handleUpdate_try, clearMessages, cancelEdit, try_catch, bind,
    shows_own_failure.
  destruct (truthy entryId); cbn [negb];
    [|cbn -[lit]; repeat split].
  cbn -[lit requireEndpoint apiFetchAbsolute handleLoadEntries missing message_or_string].
  rewrite requireEndpoint_eq.
  destruct (ENDPOINTS.update cfg) as [[|c u]|]; cbn [is_empty];
    try solve [cbn -[lit missing message_or_string]; repeat split].
  rewrite apiFetchAbsolute_eq. cbn [trace]. cbv zeta.
  destruct (net w _) as [e|res].
  - cbn -[lit message_or_string]. rewrite <- app_assoc. repeat split.
  - destruct (ok res).
    + cbn -[lit handleLoadEntries]. reload_is_last (handleLoadEntries_contained s).
    + rewrite <- (chosen_message res). cbv zeta.
      destruct (to_string _); cbn -[lit message_or_string];
        rewrite <- app_assoc; repeat split.
Qed.

Lemma handleDelete_contained (s : State) (entryId : value) :
  write_contained w entryId (ENDPOINTS.del cfg) (lit "REACT_APP_DELETE_URL")
    (VObj [ (lit "id", entryId); (lit "entryId", entryId) ])
    (handleLoadEntries cfg w s) (handleDelete cfg w s entryId).
Proof.
  intros m.
  unfold handleDelete, handleDelete_try, clearMessages, try_catch, bind,
    shows_own_failure.
  destruct (truthy entryId); cbn [negb];
    [|cbn -[lit]; repeat split].
  cbn -[lit requireEndpoint apiFetchAbsolute handleLoadEntries missing message_or_string].
  rewrite requireEndpoint_eq.
  destruct (ENDPOINTS.del cfg) as [[|c u]|]; cbn [is_empty];
    try solve [cbn -[lit missing message_or_string]; repeat split].
  rewrite apiFetchAbsolute_eq. cbn [trace]. cbv zeta.
  destruct (net w _) as [e|res].
  - cbn -[lit message_or_string]. rewrite <- app_assoc. repeat split.
  - destruct (ok res).
    + cbn -[lit handleLoadEntries]. reload_is_last (handleLoadEntries_contained s).
    + rewrite <- (chosen_message res). cbv zeta.
      destruct (to_string _); cbn -[lit message_or_string];
        rewrite <- app_assoc; repeat split.
Qed.

(** C7 (amended). Each of upload, create, list, update and delete, run
    from any state in any world, returns normally: a failure inside it
    is caught there and never leaves it. When a failure was caught, the
    status string is empty. Upload, create and list show the failure's
    message. Update and delete show, for a failure of their own steps
    (the entry id check, the endpoint, the request), the failure's
    message, or its string form when the message is empty; once their
    request has succeeded they go on as the list operation, whose
    failure is shown as the third conjunct says. *)
Theorem operations_contain_failures (s : State) (entryId : value) :
  contained shows_message (handleUpload cfg w s)
  /\ contained shows_message (handleCreateEntry cfg w s)
  /\ contained shows_message (handleLoadEntries cfg w s)
  /\ write_contained w entryId (ENDPOINTS.update cfg) (lit "REACT_APP_UPDATE_URL")
       (VObj [ (lit "id", entryId); (lit "entryId", entryId);
               (lit "text", editText s); (lit "visibility", editVisibility s) ])
       (handleLoadEntries cfg w s) (handleUpdate cfg w s entryId)
  /\ write_contained w entryId (ENDPOINTS.del cfg) (lit "REACT_APP_DELETE_URL")
       (VObj [ (lit "id", entryId); (lit "entryId", entryId) ])
       (handleLoadEntries cfg w s) (handleDelete cfg w s entryId).
Proof.
  split; [|split; [|split; [|split]]].
  - apply handleUpload_contained.
  - apply handleCreateEntry_contained.
  - apply handleLoadEntries_contained.
  - apply handleUpdate_contained.
  - apply handleDelete_contained.
Qed.

End Operations.

(** C7 as stated fails for update: the server answers 500 with a body
    whose [message] is an empty array, so the failure's message is the
    empty string, and the error string shown is ["Error"]. *)
Lemma update_shows_name_for_empty_message :
  caught_in (trace (fst (handleUpdate configured (answering array_message) initialState
                           (VStr (lit "e1")) (start initialState))))
  = [ {| ename := lit "Error"; emessage := [] |} ]
  /\ error (ui (fst (handleUpdate configured (answering array_message) initialState
                       (VStr (lit "e1")) (start initialState))))
     = lit "Error"
  /\ lit "Error" <> emessage {| ename := lit "Error"; emessage := [] |}.
Proof.
  split; [|split].
  - vm_compute. reflexivity.
  - vm_compute. reflexivity.
  - vm_compute. discriminate.
Qed.

(* ================================================================== *)
(** ** Missing endpoints *)

Section MissingEndpoint.
Context {NUM : JSNumber} {PLAT : Platform}.
Variable cfg : ENDPOINTS.t.
Variable w : World.

Lemma requireEndpoint_unset (url : option jsstring) (name : jsstring) (m : Machine) :
  unset url -> requireEndpoint url name m = (m, inl (missing name)).
Proof.
  intros H. destruct url as [u|]; cbn in H; [subst u|]; reflexivity.
Qed.

Lemma requireEndpoint_set (url name : jsstring) (m : Machine) :
  url <> [] -> requireEndpoint (Some url) name m = (m, inr url).
Proof.
  intros H. destruct url; [contradiction|reflexivity].
Qed.

Lemma handleLoadEntries_missing (s : State) (m : Machine) :
  userId s <> [] -> unset (ENDPOINTS.get cfg) ->
  reports_missing (lit "REACT_APP_GET_URL") m (handleLoadEntries cfg w s m).
Proof.
  intros Hu Hg. unfold reports_missing, handleLoadEntries, handleLoadEntries_try,
    clearMessages, finally, try_catch, bind.
  destruct (userId s) as [|c u]; [contradiction|]. cbn [is_empty].
  cbn -[lit requireEndpoint missing].
  rewrite (requireEndpoint_unset _ _ _ Hg). cbn -[lit missing].
  repeat split.
Qed.

Lemma handleCreateEntry_missing (s : State) (m : Machine) :
  userId s <> [] -> trim (text s) <> [] -> unset (ENDPOINTS.create cfg) ->
  reports_missing (lit "REACT_APP_CREATE_URL") m (handleCreateEntry cfg w s m).
Proof.
  intros Hu Ht Hc. unfold reports_missing, handleCreateEntry, handleCreateEntry_try,
    clearMessages, try_catch, bind.
  destruct (userId s) as [|c u]; [contradiction|].
  destruct (trim (text s)) as [|c' t]; [contradiction|]. cbn [is_empty].
  cbn -[lit requireEndpoint missing createPayload].
  rewrite (requireEndpoint_unset _ _ _ Hc). cbn -[lit missing].
  repeat split.
Qed.

Lemma missing_message_shown (name : jsstring) :
  message_or_string (missing name) = emessage (missing name).
Proof. reflexivity. Qed.

Lemma handleUpdate_missing (s : State) (entryId : value) (m : Machine) :
  truthy entryId = true -> unset (ENDPOINTS.update cfg) ->
  reports_missing (lit "REACT_APP_UPDATE_URL") m (handleUpdate cfg w s entryId m).
Proof.
  intros Hid Hc. unfold reports_missing, handleUpdate, handleUpdate_try,
    clearMessages, try_catch, bind.
  rewrite Hid. cbn -[lit requireEndpoint missing].
  rewrite (requireEndpoint_unset _ _ _ Hc). cbn -[lit missing message_or_string].
  rewrite missing_message_shown. repeat split.
Qed.

Lemma handleDelete_missing (s : State) (entryId : value) (m : Machine) :
  truthy entryId = true -> unset (ENDPOINTS.del cfg) ->
  reports_missing (lit "REACT_APP_DELETE_URL") m (handleDelete cfg w s entryId m).
Proof.
  intros Hid Hc. unfold reports_missing, handleDelete, handleDelete_try,
    clearMessages, try_catch, bind.
  rewrite Hid. cbn -[lit requireEndpoint missing].
  rewrite (requireEndpoint_unset _ _ _ Hc). cbn -[lit missing message_or_string].
  rewrite missing_message_shown. repeat split.
Qed.

Lemma handleUpload_missing (s : State) (f : File) (m : Machine) :
  userId s <> [] -> file s = Some f -> unset (ENDPOINTS.upload cfg) ->
  upload_reports_missing w f m (handleUpload cfg w s m).
Proof.
  intros Hu Hf Hc. unfold upload_reports_missing, handleUpload, handleUpload_try,
    clearMessages, canUpload, try_catch, bind.
  destruct (userId s) as [|c u]; [contradiction|]. rewrite Hf. cbn [is_empty negb andb].
  cbn -[lit requireEndpoint missing readFileAsBase64].
  destruct (reader w (trace m ++ [EvReadFile f])) as [|result] eqn:Hread.
  - erewrite readFileAsBase64_failed by exact Hread. cbn -[lit].
    split; [reflexivity|]. split; [|split; [reflexivity|]].
    + eexists. split; [unfold extends; cbn; rewrite <- app_assoc; reflexivity|reflexivity].
    + intros result' Hr. discriminate Hr.
  - erewrite readFileAsBase64_loaded by exact Hread.
    cbn -[lit requireEndpoint missing].
    rewrite (requireEndpoint_unset _ _ _ Hc). cbn -[lit missing].
    split; [reflexivity|]. split; [|split; [reflexivity|]].
    + eexists. split; [unfold extends; cbn; rewrite <- app_assoc; reflexivity|reflexivity].
    + intros _ _. rewrite <- app_assoc, skipn_app, skipn_all, Nat.sub_diag.
      split; reflexivity.
Qed.

(** C8 (amended). When the endpoint URL of an operation is unset and the
    operation's own checks pass (a user id, a journal text, an entry id,
    a chosen file), create, list, update and delete perform no I/O at
    all: the only thing that happens is the configuration error
    ["Missing <VARIABLE> URL in .env"], which names the variable and is
    shown as the error string. Upload sends no request either, and shows
    the same error for its variable once the file has been read. *)
Theorem missing_endpoint_reported (s : State) (entryId : value) (m : Machine) :
  (userId s <> [] -> trim (text s) <> [] -> unset (ENDPOINTS.create cfg) ->
   reports_missing (lit "REACT_APP_CREATE_URL") m (handleCreateEntry cfg w s m))
  /\ (userId s <> [] -> unset (ENDPOINTS.get cfg) ->
      reports_missing (lit "REACT_APP_GET_URL") m (handleLoadEntries cfg w s m))
  /\ (truthy entryId = true -> unset (ENDPOINTS.update cfg) ->
      reports_missing (lit "REACT_APP_UPDATE_URL") m (handleUpdate cfg w s entryId m))
  /\ (truthy entryId = true -> unset (ENDPOINTS.del cfg) ->
      reports_missing (lit "REACT_APP_DELETE_URL") m (handleDelete cfg w s entryId m))
  /\ (forall f, userId s <> [] -> file s = Some f -> unset (ENDPOINTS.upload cfg) ->
      upload_reports_missing w f m (handleUpload cfg w s m))
  /\ (forall name, emessage (missing name) = lit "Missing " ++ name ++ lit " URL in .env").
Proof.
  split; [|split; [|split; [|split; [|split]]]].
  - apply handleCreateEntry_missing.
  - apply handleLoadEntries_missing.
  - apply handleUpdate_missing.
  - apply handleDelete_missing.
  - intros f. apply handleUpload_missing.
  - reflexivity.
Qed.

End MissingEndpoint.

Lemma missing_endpoint_reported_witness :
  reports_missing (lit "REACT_APP_GET_URL") (start initialState)
    (handleLoadEntries no_endpoints (answering no_content) initialState (start initialState)).
Proof.
  refine (proj1 (proj2 (missing_endpoint_reported no_endpoints (answering no_content)
                          initialState VNull (start initialState))) _ _).
  - vm_compute. discriminate.
  - exact I.
Defined.

(** C8 as stated fails in two ways when no endpoint is configured. An
    update of an entry without an id ends with ["Missing entryId"], not
    with the configuration error: the operation's own check comes first.
    And an upload reads the file before it looks at its endpoint: the
    file read is logged ahead of the configuration error. *)
Lemma endpoint_check_is_not_first :
  ENDPOINTS.update no_endpoints = None
  /\ error (ui (fst (handleUpdate no_endpoints (answering no_content) initialState
                       VUndefined (start initialState))))
     = lit "Missing entryId"
  /\ lit "Missing entryId" <> emessage (missing (lit "REACT_APP_UPDATE_URL"))
  /\ ENDPOINTS.upload no_endpoints = None
  /\ canUpload with_picture = true
  /\ trace (fst (handleUpload no_endpoints (readable uploaded) with_picture
                   (start with_picture)))
     = [ EvReadFile picture; EvCaught (missing (lit "REACT_APP_UPLOAD_URL")) ].
Proof.
  split; [|split; [|split; [|split; [|split]]]].
  - reflexivity.
  - vm_compute. reflexivity.
  - vm_compute. discriminate.
  - reflexivity.
  - vm_compute. reflexivity.
  - vm_compute. reflexivity.
Qed.

(* ================================================================== *)
(** ** List normalization *)

Section ListShapes.
Context {NUM : JSNumber} {PLAT : Platform}.
Variable cfg : ENDPOINTS.t.
Variable w : World.

(** What the list operation stores when its request succeeds. *)
Lemma handleLoadEntries_stores (s : State) (m : Machine) (url : jsstring) (res : Response) :
  userId s <> [] ->
  ENDPOINTS.get cfg = Some url -> url <> [] ->
  net w (trace m ++ [EvFetch url (lit "POST") (VObj [(lit "userId", VStr (userId s))])])
  = NetResponse res ->
  ok res = true ->
  let data := body_data (body_text res) in
  entries (ui (fst (handleLoadEntries cfg w s m)))
  = if isArray data then data
    else js_or (js_or (prop data (lit "entries")) (prop data (lit "value"))) (VArr []).
Proof.
  intros Hu Hg Hurl Hnet Hok. cbv zeta.
  unfold handleLoadEntries, handleLoadEntries_try, clearMessages, finally, try_catch, bind.
  destruct (userId s) as [|c u] eqn:Huser; [contradiction|]. cbn [is_empty].
  rewrite Hg.
  cbn -[lit requireEndpoint apiFetchAbsolute body_data].
  rewrite requireEndpoint_set by exact Hurl.
  erewrite apiFetchAbsolute_response by exact Hnet.
  cbv zeta. rewrite Hok.
  cbn -[lit body_data js_or prop isArray]. reflexivity.
Qed.

(** C4 (amended). When the list request succeeds, a bare array [a], an
    object [{entries: a}] and an object [{value: a}] are all stored as
    the sequence [a]; a response that is not an array and whose
    [entries] and [value] are both absent or falsy is stored as the
    empty sequence. *)
Theorem handleLoadEntries_normalizes (s : State) (m : Machine) (url : jsstring)
    (res : Response) :
  userId s <> [] ->
  ENDPOINTS.get cfg = Some url -> url <> [] ->
  net w (trace m ++ [EvFetch url (lit "POST") (VObj [(lit "userId", VStr (userId s))])])
  = NetResponse res ->
  ok res = true ->
  let data := body_data (body_text res) in
  let stored := entries (ui (fst (handleLoadEntries cfg w s m))) in
  (forall a, data = VArr a -> stored = VArr a)
  /\ (forall a, data = VObj [(lit "entries", VArr a)] -> stored = VArr a)
  /\ (forall a, data = VObj [(lit "value", VArr a)] -> stored = VArr a)
  /\ (isArray data = false ->
      truthy (prop data (lit "entries")) = false ->
      truthy (prop data (lit "value")) = false ->
      stored = VArr []).
Proof.
  intros Hu Hg Hurl Hnet Hok. cbv zeta.
  rewrite (handleLoadEntries_stores s m url res Hu Hg Hurl Hnet Hok). cbv zeta.
  split; [|split; [|split]].
  - intros a ->. reflexivity.
  - intros a ->. reflexivity.
  - intros a ->. reflexivity.
  - intros Harr He Hv. rewrite Harr. unfold js_or. rewrite He, Hv. reflexivity.
Qed.

End ListShapes.

Lemma handleLoadEntries_normalizes_witness :
  entries (ui (fst (handleLoadEntries configured (answering entries_wrapped) initialState
                      (start initialState))))
  = VArr [ VObj [ (lit "id", VStr (lit "e1")); (lit "text", VStr (lit "Felt okay today")) ] ].
Proof.
  refine (proj1 (proj2 (handleLoadEntries_normalizes configured (answering entries_wrapped)
                          initialState (start initialState) (lit "https://host/get")
                          entries_wrapped _ _ _ _ _)) _ _).
  - vm_compute. discriminate.
  - reflexivity.
  - vm_compute. discriminate.
  - reflexivity.
  - reflexivity.
  - vm_compute. reflexivity.
Defined.

(** C4 as stated fails on an object whose [entries] is not an array: it
    has none of the three shapes, and what is stored is its [entries]
    field, not the empty sequence. *)
Lemma entries_field_stored_as_is :
  body_data (body_text entries_not_array) = VObj [ (lit "entries", VStr (lit "none")) ]
  /\ entries (ui (fst (handleLoadEntries configured (answering entries_not_array)
                         initialState (start initialState))))
     = VStr (lit "none")
  /\ VStr (lit "none") <> VArr [].
Proof.
  split; [|split].
  - vm_compute. reflexivity.
  - vm_compute. reflexivity.
  - discriminate.
Qed.

(* ================================================================== *)
(** ** The create request *)

Section CreateRequest.
Context {NUM : JSNumber} {PLAT : Platform}.
Variable cfg : ENDPOINTS.t.
Variable w : World.

(** The first thing the create operation does, once its checks pass, is
    to send [createPayload] of the state it was clicked in. *)
Lemma handleCreateEntry_sends_payload (s : State) (m : Machine) (url : jsstring) :
  userId s <> [] -> trim (text s) <> [] ->
  ENDPOINTS.create cfg = Some url -> url <> [] ->
  exists rest,
    trace (fst (handleCreateEntry cfg w s m))
    = trace m ++ EvFetch url (lit "POST") (createPayload s (clock w (trace m))) :: rest.
Proof.
  intros Hu Ht Hc Hurl.
  unfold handleCreateEntry, handleCreateEntry_try, clearMessages, try_catch, bind.
  destruct (userId s) as [|c u] eqn:Huser; [contradiction|].
  destruct (trim (text s)) as [|c' t] eqn:Htext; [contradiction|]. cbn [is_empty].
  rewrite Hc.
  cbn -[lit requireEndpoint apiFetchAbsolute createPayload handleLoadEntries].
  rewrite requireEndpoint_set by exact Hurl.
  destruct (net w (trace m ++ [EvFetch url (lit "POST")
                                 (createPayload s (clock w (trace m)))])) as [e|res] eqn:Hnet.
  - erewrite apiFetchAbsolute_rejected by exact Hnet.
    cbn. rewrite <- app_assoc. eexists. reflexivity.
  - erewrite apiFetchAbsolute_response by exact Hnet. cbv zeta.
    destruct (ok res).
    + destruct (truthy (uploadedFileUrl s));
        cbn -[lit handleLoadEntries body_data];
        match goal with
        | |- context [handleLoadEntries cfg w s ?m1] =>
            destruct (handleLoadEntries_contained cfg w s m1) as [evs [Hr [Hext _]]];
            unfold extends in Hext; cbn [trace] in Hext;
            destruct (handleLoadEntries cfg w s m1) as [m2 r]; cbn [fst snd] in *;
            subst r; cbn [fst]; rewrite Hext, <- app_assoc; eexists; reflexivity
        end.
    + destruct (to_string _); cbn; rewrite <- app_assoc; eexists; reflexivity.
Qed.

End CreateRequest.


(** User "u1" submits "Felt okay today" with no file: the payload has
    the four basic fields and no media field. *)
Example createPayload_without_upload :
  createPayload (set_userId (lit "u1") with_text) (lit "2024-01-01T00:00:00.000Z")
  = VObj [ (lit "userId", VStr (lit "u1"));
           (lit "text", VStr (lit "Felt okay today"));
           (lit "visibility", VStr (lit "private"));
           (lit "uploadDate", VStr (lit "2024-01-01T00:00:00.000Z")) ].
Proof. vm_compute. reflexivity. Qed.

(** After a picture has been chosen and uploaded, the payload carries
    the three media fields. *)
Example createPayload_after_upload :
  createPayload
    (ui (session configured (readable uploaded) [ChooseFile (Some picture); ClickUpload]
           (start with_text)))
    (lit "2024-01-01T00:00:00.000Z")
  = VObj [ (lit "userId", VStr (lit "u12345"));
           (lit "text", VStr (lit "Felt okay today"));
           (lit "visibility", VStr (lit "private"));
           (lit "uploadDate", VStr (lit "2024-01-01T00:00:00.000Z"));
           (lit "filename", VStr (lit "a.png"));
           (lit "filetype", VStr (lit "image/png"));
           (lit "fileUrl", VStr (lit "https://blob.host/b1")) ].
Proof. vm_compute. reflexivity. Qed.

(** A whole create: the request carries the payload, the text field is
    emptied and the list is loaded again. *)
Example create_then_list :
  let m := fst (handleCreateEntry configured (answering entries_wrapped) with_text
                  (start with_text)) in
  requests_in (trace m)
  = [ EvFetch (lit "https://host/create") (lit "POST")
        (createPayload with_text (lit "2024-01-01T00:00:00.000Z"));
      EvFetch (lit "https://host/get") (lit "POST")
        (VObj [ (lit "userId", VStr (lit "u12345")) ]) ]
  /\ text (ui m) = []
  /\ status (ui m) = lit "Entries loaded ✅"
  /\ error (ui m) = [].
Proof. vm_compute. repeat split; reflexivity. Qed.

(* ================================================================== *)
(** ** One round trip per call *)

Section RoundTrip.
Context {NUM : JSNumber} {PLAT : Platform}.
Variable w : World.

(** X1. Every call of the adapter sends exactly one request, the one it was
    asked for, and leaves the state cells alone, whatever comes back; a
    rejected exchange leaves the adapter as the same failure. *)
Theorem apiFetchAbsolute_one_round_trip url method payload m :
  fst (apiFetchAbsolute w url method payload m) = logged m (EvFetch url method payload)
  /\ (forall e, net w (trace m ++ [EvFetch url method payload]) = NetFailed e ->
      snd (apiFetchAbsolute w url method payload m) = inl e).
Proof.
  destruct (net w (trace m ++ [EvFetch url method payload])) as [e|res] eqn:Hnet.
  - rewrite (apiFetchAbsolute_rejected w _ _ _ _ _ Hnet). split; [reflexivity|].
    intros e' He. injection He as ->. reflexivity.
  - rewrite (apiFetchAbsolute_response w _ _ _ _ _ Hnet). split; [reflexivity|].
    intros e' He. discriminate He.
Qed.

End RoundTrip.

Lemma apiFetchAbsolute_one_round_trip_witness :
  snd (apiFetchAbsolute unreachable (lit "https://host/get") (lit "POST") VNull
         (start initialState))
  = inl {| ename := lit "TypeError"; emessage := lit "Failed to fetch" |}.
Proof.
  refine (proj2 (apiFetchAbsolute_one_round_trip unreachable (lit "https://host/get")
                   (lit "POST") VNull (start initialState))
            {| ename := lit "TypeError"; emessage := lit "Failed to fetch" |} _).
  reflexivity.
Defined.

(* ================================================================== *)
(** ** Upload *)

(** Closes the second case of an all-or-nothing statement. *)
Ltac nothing_done := solve [right; repeat split; reflexivity].

Section Upload.
Context {NUM : JSNumber} {PLAT : Platform}.
Variable cfg : ENDPOINTS.t.
Variable w : World.

Lemma handleUpload_outcome (s : State) (m : Machine) :
  let m' := fst (handleUpload cfg w s m) in
  (status (ui m') = lit "Upload complete ✅"
   /\ error (ui m') = []
   /\ exists res,
        net w (trace m') = NetResponse res /\ ok res = true
        /\ uploadedBlobName (ui m')
           = js_or (prop (body_data (body_text res)) (lit "blobName")) (VStr [])
        /\ uploadedFileUrl (ui m')
           = js_or (prop (body_data (body_text res)) (lit "fileUrl")) (VStr []))
  \/ (status (ui m') = []
      /\ uploadedBlobName (ui m') = uploadedBlobName (ui m)
      /\ uploadedFileUrl (ui m') = uploadedFileUrl (ui m)).
Proof.
  cbv zeta. unfold handleUpload, clearMessages, bind.
  cbn -[lit handleUpload_try try_catch canUpload].
  destruct (canUpload s); cbn [negb]; [|nothing_done].
  unfold try_catch, handleUpload_try, bind.
  cbn -[lit readFileAsBase64 requireEndpoint apiFetchAbsolute member js_or prop].
  destruct (file s) as [f|]; [|nothing_done].
  rewrite readFileAsBase64_eq.
  destruct (reader w _) as [|r]; [nothing_done|].
  rewrite requireEndpoint_eq.
  destruct (ENDPOINTS.upload cfg) as [[|c u]|]; cbn [is_empty]; try nothing_done.
  rewrite apiFetchAbsolute_eq. cbv zeta.
  destruct (net w _) as [e|res] eqn:Hnet; [nothing_done|].
  destruct (ok res) eqn:Hok; [|destruct (to_string _); nothing_done].
  rewrite member_eq.
  destruct (body_data (body_text res)) as [| |b|n|t|l|o] eqn:Hdata;
    try nothing_done;
    cbn -[lit js_or prop member]; rewrite member_eq; cbn -[lit js_or prop];
    left; (split; [reflexivity|split; [reflexivity|]]);
    exists res; rewrite Hdata; (split; [exact Hnet|]); (split; [exact Hok|]);
    split; reflexivity.
Qed.

(** X2. An upload is all or nothing: either it ends with the status
    ["Upload complete ✅"], no error, and the [blobName] and [fileUrl] of
    a success answer to the last request stored (each replaced by the
    empty string when falsy), or it ends with an empty status and the
    stored blob name and URL untouched. *)
Theorem handleUpload_all_or_nothing (s : State) (m : Machine) :
  let m' := fst (handleUpload cfg w s m) in
  (status (ui m') = lit "Upload complete ✅"
   /\ error (ui m') = []
   /\ exists res,
        net w (trace m') = NetResponse res /\ ok res = true
        /\ uploadedBlobName (ui m')
           = js_or (prop (body_data (body_text res)) (lit "blobName")) (VStr [])
        /\ uploadedFileUrl (ui m')
           = js_or (prop (body_data (body_text res)) (lit "fileUrl")) (VStr []))
  \/ (status (ui m') = []
      /\ uploadedBlobName (ui m') = uploadedBlobName (ui m)
      /\ uploadedFileUrl (ui m') = uploadedFileUrl (ui m)).
Proof. exact (handleUpload_outcome s m). Qed.

(** The object literal [payload] of [handleUpload]. *)
Lemma upload_filetype (f : File) :
  js_or (VStr (type f)) (VStr (lit "application/octet-stream"))
  = VStr (if is_empty (type f) then lit "application/octet-stream" else type f).
Proof.
  unfold js_or. cbn [truthy]. destruct (type f); cbn [is_empty negb]; reflexivity.
Qed.

(** X3. A successful upload: with a user id, a chosen file that can be read,
    and an upload endpoint that answers with a success status and a
    body that is not [null], the operation reads the file, sends one
    POST carrying the user id, the file's name, its type (or
    ["application/octet-stream"] when the type is empty) and the encoded
    content, stores the [blobName] and [fileUrl] of the answer, and
    ends with ["Upload complete ✅"] and no error. *)
Theorem handleUpload_success (s : State) (m : Machine) (f : File) (url : jsstring)
    (content : option jsstring) (res : Response) :
  let payload :=
    VObj [ (lit "userId", VStr (userId s));
           (lit "filename", VStr (name f));
           (lit "filetype",
             VStr (if is_empty (type f) then lit "application/octet-stream" else type f));
           (lit "fileBase64", VStr (onload content)) ] in
  let result := body_data (body_text res) in
  userId s <> [] -> file s = Some f ->
  ENDPOINTS.upload cfg = Some url -> url <> [] ->
  reader w (trace m ++ [EvReadFile f]) = ReadLoaded content ->
  net w (trace m ++ [EvReadFile f; EvFetch url (lit "POST") payload]) = NetResponse res ->
  ok res = true ->
  result <> VNull -> result <> VUndefined ->
  let m' := fst (handleUpload cfg w s m) in
  trace m' = trace m ++ [EvReadFile f; EvFetch url (lit "POST") payload]
  /\ uploadedBlobName (ui m') = js_or (prop result (lit "blobName")) (VStr [])
  /\ uploadedFileUrl (ui m') = js_or (prop result (lit "fileUrl")) (VStr [])
  /\ status (ui m') = lit "Upload complete ✅"
  /\ error (ui m') = [].
Proof.
  cbv zeta. intros Hu Hf Hc Hurl Hread Hnet Hok Hnull Hundef.
  unfold handleUpload, clearMessages, canUpload, bind.
  destruct (userId s) as [|c u] eqn:Huser; [contradiction|]. rewrite Hf.
  cbn -[lit handleUpload_try try_catch].
  unfold try_catch, handleUpload_try, bind. rewrite Hf.
  cbn -[lit readFileAsBase64 requireEndpoint apiFetchAbsolute member js_or prop].
  rewrite readFileAsBase64_eq. cbn [trace logged]. rewrite Hread.
  rewrite requireEndpoint_eq, Hc.
  destruct url as [|c' u']; [contradiction|]. cbn [is_empty].
  rewrite apiFetchAbsolute_eq. cbn [trace logged]. rewrite upload_filetype, Huser.
  rewrite <- app_assoc. cbn [app]. rewrite Hnet. cbv zeta. rewrite Hok.
  rewrite member_eq.
  destruct (body_data (body_text res)) as [| |b|n|t|l|o] eqn:Hdata;
    try contradiction;
    cbn -[lit js_or prop member]; rewrite member_eq; cbn -[lit js_or prop];
    rewrite <- app_assoc; repeat split.
Qed.

(** X4. A file that cannot be read: the upload sends no request and ends
    with the error ["Failed to read file"]. *)
Theorem handleUpload_read_failure (s : State) (m : Machine) (f : File) :
  userId s <> [] -> file s = Some f ->
  reader w (trace m ++ [EvReadFile f]) = ReadFailed ->
  let m' := fst (handleUpload cfg w s m) in
  trace m' = trace m ++ [EvReadFile f; EvCaught (newError (lit "Failed to read file"))]
  /\ error (ui m') = lit "Failed to read file"
  /\ status (ui m') = [].
Proof.
  cbv zeta. intros Hu Hf Hread.
  unfold handleUpload, clearMessages, canUpload, bind.
  destruct (userId s) as [|c u] eqn:Huser; [contradiction|]. rewrite Hf.
  cbn -[lit handleUpload_try try_catch].
  unfold try_catch, handleUpload_try, bind. rewrite Hf.
  cbn -[lit readFileAsBase64 requireEndpoint apiFetchAbsolute member js_or prop].
  rewrite readFileAsBase64_eq. cbn [trace logged]. rewrite Hread.
  cbn -[lit]. rewrite <- app_assoc. repeat split.
Qed.

(** X5. An upload answered with a success status and nothing in the body (or
    the JSON text [null]) fails: reading [blobName] from [null] throws,
    the error shown is that [TypeError]'s message, and nothing is
    stored. *)
Theorem handleUpload_null_result (s : State) (m : Machine) (f : File) (url : jsstring)
    (content : option jsstring) (res : Response) :
  let payload :=
    VObj [ (lit "userId", VStr (userId s));
           (lit "filename", VStr (name f));
           (lit "filetype",
             VStr (if is_empty (type f) then lit "application/octet-stream" else type f));
           (lit "fileBase64", VStr (onload content)) ] in
  userId s <> [] -> file s = Some f ->
  ENDPOINTS.upload cfg = Some url -> url <> [] ->
  reader w (trace m ++ [EvReadFile f]) = ReadLoaded content ->
  net w (trace m ++ [EvReadFile f; EvFetch url (lit "POST") payload]) = NetResponse res ->
  ok res = true ->
  body_data (body_text res) = VNull ->
  let m' := fst (handleUpload cfg w s m) in
  error (ui m') = null_read_message VNull (lit "blobName")
  /\ status (ui m') = []
  /\ uploadedBlobName (ui m') = uploadedBlobName (ui m)
  /\ uploadedFileUrl (ui m') = uploadedFileUrl (ui m).
Proof.
  cbv zeta. intros Hu Hf Hc Hurl Hread Hnet Hok Hnull.
  unfold handleUpload, clearMessages, canUpload, bind.
  destruct (userId s) as [|c u] eqn:Huser; [contradiction|]. rewrite Hf.
  cbn -[lit handleUpload_try try_catch].
  unfold try_catch, handleUpload_try, bind. rewrite Hf.
  cbn -[lit readFileAsBase64 requireEndpoint apiFetchAbsolute member js_or prop].
  rewrite readFileAsBase64_eq. cbn [trace logged]. rewrite Hread.
  rewrite requireEndpoint_eq, Hc.
  destruct url as [|c' u']; [contradiction|]. cbn [is_empty].
  rewrite apiFetchAbsolute_eq. cbn [trace logged]. rewrite upload_filetype, Huser.
  rewrite <- app_assoc. cbn [app]. rewrite Hnet. cbv zeta. rewrite Hok.
  rewrite member_eq, Hnull. cbn -[lit]. repeat split.
Qed.

(** X6. Upload is the one operation that gives up in silence: without a
    user id or without a chosen file it reads nothing, sends nothing and
    shows no error; it only clears the messages. *)
Theorem handleUpload_without_input (s : State) (m : Machine) :
  userId s = [] \/ file s = None ->
  let r := handleUpload cfg w s m in
  snd r = inr tt
  /\ trace (fst r) = trace m
  /\ status (ui (fst r)) = [] /\ error (ui (fst r)) = []
  /\ draft (ui (fst r)) = draft (ui m).
Proof.
  cbv zeta. intros Hin.
  assert (Hcan : canUpload s = false).
  { unfold canUpload. destruct Hin as [-> | ->]; [reflexivity|].
    destruct (userId s); reflexivity. }
  unfold handleUpload, clearMessages, bind. rewrite Hcan.
  cbn -[lit]. repeat split.
Qed.

End Upload.

Lemma handleUpload_without_input_witness :
  trace (fst (handleUpload configured (readable uploaded) initialState (start initialState)))
  = trace (start initialState).
Proof.
  refine (proj1 (proj2 (handleUpload_without_input configured (readable uploaded)
                          initialState (start initialState) _))).
  right. reflexivity.
Defined.

Lemma handleUpload_success_witness :
  uploadedFileUrl
    (ui (fst (handleUpload configured (readable uploaded) with_picture (start with_picture))))
  = js_or (prop (body_data (body_text uploaded)) (lit "fileUrl")) (VStr []).
Proof.
  refine (proj1 (proj2 (proj2 (handleUpload_success configured (readable uploaded)
                                 with_picture (start with_picture) picture
                                 (lit "https://host/upload")
                                 (Some (lit "data:image/png;base64,iVBORw0KGgo="))
                                 uploaded _ _ _ _ _ _ _ _ _)))).
  all: try reflexivity; vm_compute; discriminate.
Defined.

Lemma handleUpload_read_failure_witness :
  error (ui (fst (handleUpload configured (answering uploaded) with_picture
                    (start with_picture))))
  = lit "Failed to read file".
Proof.
  refine (proj1 (proj2 (handleUpload_read_failure configured (answering uploaded)
                          with_picture (start with_picture) picture _ _ _))).
  all: try reflexivity; vm_compute; discriminate.
Defined.

Lemma handleUpload_null_result_witness :
  error (ui (fst (handleUpload configured (readable no_content) with_picture
                    (start with_picture))))
  = null_read_message VNull (lit "blobName").
Proof.
  refine (proj1 (handleUpload_null_result configured (readable no_content)
                   with_picture (start with_picture) picture (lit "https://host/upload")
                   (Some (lit "data:image/png;base64,iVBORw0KGgo="))
                   no_content _ _ _ _ _ _ _ _)).
  all: try reflexivity; vm_compute; discriminate.
Defined.

(* ================================================================== *)
(** ** Cells an operation leaves alone *)

Section Frame.
Context {NUM : JSNumber} {PLAT : Platform}.
Variable cfg : ENDPOINTS.t.
Variable w : World.

Lemma keeps_refl {A} (f : State -> A) (m : Machine) : keeps f m m.
Proof. reflexivity. Qed.

Lemma keeps_trans {A} (f : State -> A) (a b c : Machine) :
  keeps f a b -> keeps f b c -> keeps f a c.
Proof. unfold keeps. congruence. Qed.

End Frame.

(** Proves that a handler keeps a group of cells: every setter it calls
    is for another cell. *)
Ltac keeps_steps :=
  match goal with
  | |- stable (keeps ?f) _ => stable_steps (keeps_refl f) (keeps_trans f)
  end;
  intros ?; reflexivity.

Section FrameOfOperations.
Context {NUM : JSNumber} {PLAT : Platform}.
Variable cfg : ENDPOINTS.t.
Variable w : World.

Lemma handleLoadEntries_keeps_draft (s : State) :
  stable (keeps draft) (handleLoadEntries cfg w s).
Proof. keeps_steps. Qed.

Lemma handleLoadEntries_keeps_editing (s : State) :
  stable (keeps editing) (handleLoadEntries cfg w s).
Proof. keeps_steps. Qed.

(** X7. No entry operation changes the user id, the visibility chosen for
    new entries or the mood panel. Beyond that: upload leaves the text,
    the chosen file, the edit form and the list alone; create leaves the
    edit form alone; list and delete leave the create form and the edit
    form alone; update leaves the create form alone. *)
Theorem operations_frame (s : State) (entryId : value) :
  (stable (keeps profile) (handleUpload cfg w s)
   /\ stable (keeps (fun st => (text st, file st))) (handleUpload cfg w s)
   /\ stable (keeps editing) (handleUpload cfg w s)
   /\ stable (keeps listing) (handleUpload cfg w s))
  /\ (stable (keeps profile) (handleCreateEntry cfg w s)
      /\ stable (keeps editing) (handleCreateEntry cfg w s))
  /\ (stable (keeps profile) (handleLoadEntries cfg w s)
      /\ stable (keeps draft) (handleLoadEntries cfg w s)
      /\ stable (keeps editing) (handleLoadEntries cfg w s))
  /\ (stable (keeps profile) (handleUpdate cfg w s entryId)
      /\ stable (keeps draft) (handleUpdate cfg w s entryId))
  /\ (stable (keeps profile) (handleDelete cfg w s entryId)
      /\ stable (keeps draft) (handleDelete cfg w s entryId)
      /\ stable (keeps editing) (handleDelete cfg w s entryId)).
Proof.
  repeat split; keeps_steps.
Qed.

End FrameOfOperations.

(* ================================================================== *)
(** ** Checks made before anything is sent *)

Section Validation.
Context {NUM : JSNumber} {PLAT : Platform}.
Variable cfg : ENDPOINTS.t.
Variable w : World.

(** X8. Each operation checks its input before anything else and sends
    nothing when the check fails. Create and list without a user id end
    with ["userId is required"]; create with a user id but a text that
    is empty or only white space ends with ["Journal text is
    required"]; update and delete with a falsy entry id end with
    ["Missing entryId"]. In each case the failure is the only thing
    logged, it is shown as the error string and the status is empty. *)
Theorem validation_errors (s : State) (entryId : value) (m : Machine) :
  (userId s = [] ->
   rejects_with (newError (lit "userId is required")) m (handleCreateEntry cfg w s m))
  /\ (userId s <> [] -> trim (text s) = [] ->
      rejects_with (newError (lit "Journal text is required")) m
        (handleCreateEntry cfg w s m))
  /\ (userId s = [] ->
      rejects_with (newError (lit "userId is required")) m (handleLoadEntries cfg w s m))
  /\ (truthy entryId = false ->
      rejects_with (newError (lit "Missing entryId")) m (handleUpdate cfg w s entryId m))
  /\ (truthy entryId = false ->
      rejects_with (newError (lit "Missing entryId")) m (handleDelete cfg w s entryId m)).
Proof.
  split; [|split; [|split; [|split]]].
  - intros Hu. unfold rejects_with, handleCreateEntry, handleCreateEntry_try,
      clearMessages, try_catch, bind.
    rewrite Hu. cbn -[lit]. repeat split.
  - intros Hu Ht. unfold rejects_with, handleCreateEntry, handleCreateEntry_try,
      clearMessages, try_catch, bind.
    destruct (userId s); [contradiction|]. rewrite Ht. cbn -[lit]. repeat split.
  - intros Hu. unfold rejects_with, handleLoadEntries, handleLoadEntries_try,
      clearMessages, finally, try_catch, bind.
    rewrite Hu. cbn -[lit]. repeat split.
  - intros Hid. unfold rejects_with, handleUpdate, handleUpdate_try,
      clearMessages, try_catch, bind.
    rewrite Hid. cbn -[lit]. repeat split.
  - intros Hid. unfold rejects_with, handleDelete, handleDelete_try,
      clearMessages, try_catch, bind.
    rewrite Hid. cbn -[lit]. repeat split.
Qed.

End Validation.

Lemma validation_errors_witness :
  rejects_with (newError (lit "Journal text is required")) (start initialState)
    (handleCreateEntry configured (answering no_content)
       (set_text (lit "  ") initialState) (start initialState)).
Proof.
  refine (proj1 (proj2 (validation_errors configured (answering no_content)
                          (set_text (lit "  ") initialState) VNull (start initialState)))
            _ _).
  - vm_compute. discriminate.
  - vm_compute. reflexivity.
Defined.

(* ================================================================== *)
(** ** How a list operation ends *)

Section ListOutcome.
Context {NUM : JSNumber} {PLAT : Platform}.
Variable cfg : ENDPOINTS.t.
Variable w : World.

Lemma handleLoadEntries_returns (s : State) (m : Machine) :
  snd (handleLoadEntries cfg w s m) = inr tt.
Proof.
  destruct (handleLoadEntries_contained cfg w s m) as [evs [Hr _]]. exact Hr.
Qed.

(** The [finally] clause: the loading flag is off when the operation
    ends. *)
Lemma handleLoadEntries_loading_off (s : State) (m : Machine) :
  loadingEntries (ui (fst (handleLoadEntries cfg w s m))) = false.
Proof.
  unfold handleLoadEntries, clearMessages, finally, bind.
  cbn -[lit try_catch handleLoadEntries_try].
  destruct (try_catch _ _ _) as [m1 r]. reflexivity.
Qed.

Lemma handleLoadEntries_outcome (s : State) (m : Machine) :
  let m' := fst (handleLoadEntries cfg w s m) in
  (status (ui m') = lit "Entries loaded ✅" /\ error (ui m') = []
   /\ exists res,
        net w (trace m') = NetResponse res /\ ok res = true
        /\ entries (ui m') = normalized (body_data (body_text res)))
  \/ (status (ui m') = [] /\ entries (ui m') = entries (ui m)).
Proof.
  cbv zeta. unfold handleLoadEntries, handleLoadEntries_try, clearMessages, finally,
    try_catch, bind.
  destruct (userId s) as [|c u]; cbn [is_empty]; [nothing_done|].
  cbn -[lit requireEndpoint apiFetchAbsolute js_or prop isArray].
  rewrite requireEndpoint_eq.
  destruct (ENDPOINTS.get cfg) as [[|c' u']|]; cbn [is_empty]; try nothing_done.
  rewrite apiFetchAbsolute_eq. cbv zeta.
  destruct (net w _) as [e|res] eqn:Hnet; [nothing_done|].
  destruct (ok res) eqn:Hok; [|destruct (to_string _); nothing_done].
  cbn -[lit js_or prop isArray body_data].
  left. split; [reflexivity|]. split; [reflexivity|].
  exists res. split; [exact Hnet|]. split; [exact Hok|]. reflexivity.
Qed.

Lemma handleLoadEntries_loaded_or_failed (s : State) (m : Machine) :
  loaded_or_failed (fst (handleLoadEntries cfg w s m)).
Proof.
  unfold loaded_or_failed.
  destruct (handleLoadEntries_outcome s m) as [[Hs [He _]]|[Hs _]]; auto.
Qed.

(** X9. A reload is all or nothing: either it ends with ["Entries loaded
    ✅"], no error, and the entries replaced by the normalized body of a
    success answer to the last request, or it ends with an empty status
    and the entries it had. Either way the loading flag is off at the
    end. *)
Theorem handleLoadEntries_all_or_nothing (s : State) (m : Machine) :
  let m' := fst (handleLoadEntries cfg w s m) in
  loadingEntries (ui m') = false
  /\ ((status (ui m') = lit "Entries loaded ✅" /\ error (ui m') = []
       /\ exists res,
            net w (trace m') = NetResponse res /\ ok res = true
            /\ entries (ui m') = normalized (body_data (body_text res)))
      \/ (status (ui m') = [] /\ entries (ui m') = entries (ui m))).
Proof.
  cbv zeta. split; [apply handleLoadEntries_loading_off|apply handleLoadEntries_outcome].
Qed.

End ListOutcome.

(* ================================================================== *)
(** ** Writes: create, update, delete *)

(** The [try] block has reached its last step, the list operation,
    which returns: the whole operation is that step. *)
Ltac then_list :=
  match goal with
  | |- context [handleLoadEntries ?cfg ?w ?s ?m1] =>
      exists m1; split;
      [ pose proof (handleLoadEntries_returns cfg w s m1) as Hr;
        destruct (handleLoadEntries cfg w s m1) as [m2 r];
        cbn [snd] in Hr; subst r; reflexivity
      | repeat split ]
  end.

Section Writes.
Context {NUM : JSNumber} {PLAT : Platform}.
Variable cfg : ENDPOINTS.t.
Variable w : World.

(** Once the create request has succeeded, what remains is the list
    operation, started with the text emptied and the upload, if one was
    used, forgotten. *)
Lemma handleCreateEntry_then_list (s : State) (m : Machine) (url : jsstring)
    (res : Response) :
  userId s <> [] -> trim (text s) <> [] ->
  ENDPOINTS.create cfg = Some url -> url <> [] ->
  net w (trace m ++ [EvFetch url (lit "POST") (createPayload s (clock w (trace m)))])
  = NetResponse res ->
  ok res = true ->
  exists m1,
    handleCreateEntry cfg w s m = handleLoadEntries cfg w s m1
    /\ trace m1 = trace m ++ [EvFetch url (lit "POST") (createPayload s (clock w (trace m)))]
    /\ text (ui m1) = []
    /\ profile (ui m1) = profile (ui m)
    /\ (if truthy (uploadedFileUrl s)
        then file (ui m1) = None /\ uploadedFileUrl (ui m1) = VStr []
             /\ uploadedBlobName (ui m1) = VStr []
        else file (ui m1) = file (ui m) /\ uploadedFileUrl (ui m1) = uploadedFileUrl (ui m)
             /\ uploadedBlobName (ui m1) = uploadedBlobName (ui m)).
Proof.
  intros Hu Ht Hc Hurl Hnet Hok.
  unfold handleCreateEntry, handleCreateEntry_try, clearMessages, try_catch, bind.
  destruct (userId s) as [|c u] eqn:Huser; [contradiction|].
  destruct (trim (text s)) as [|c' t] eqn:Htext; [contradiction|]. cbn [is_empty].
  cbn -[lit requireEndpoint apiFetchAbsolute createPayload handleLoadEntries].
  rewrite requireEndpoint_eq, Hc.
  destruct url as [|c'' u'']; [contradiction|]. cbn [is_empty].
  rewrite apiFetchAbsolute_eq. cbn [trace]. rewrite Hnet. cbv zeta. rewrite Hok.
  destruct (truthy (uploadedFileUrl s));
    cbn -[lit createPayload handleLoadEntries];
    then_list.
Qed.

Lemma handleUpdate_then_list (s : State) (entryId : value) (m : Machine) (url : jsstring)
    (res : Response) :
  let payload :=
    VObj [ (lit "id", entryId); (lit "entryId", entryId);
           (lit "text", editText s); (lit "visibility", editVisibility s) ] in
  truthy entryId = true ->
  ENDPOINTS.update cfg = Some url -> url <> [] ->
  net w (trace m ++ [EvFetch url (lit "POST") payload]) = NetResponse res ->
  ok res = true ->
  exists m1,
    handleUpdate cfg w s entryId m = handleLoadEntries cfg w s m1
    /\ trace m1 = trace m ++ [EvFetch url (lit "POST") payload]
    /\ editing (ui m1) = (VNull, VStr [], VStr (lit "private"))
    /\ profile (ui m1) = profile (ui m).
Proof.
  cbv zeta. intros Hid Hc Hurl Hnet Hok.
  unfold handleUpdate, handleUpdate_try, clearMessages, cancelEdit, try_catch, bind.
  rewrite Hid.
  cbn -[lit requireEndpoint apiFetchAbsolute handleLoadEntries].
  rewrite requireEndpoint_eq, Hc.
  destruct url as [|c'' u'']; [contradiction|]. cbn [is_empty].
  rewrite apiFetchAbsolute_eq. cbn [trace]. rewrite Hnet. cbv zeta. rewrite Hok.
  cbn -[lit handleLoadEntries].
  then_list.
Qed.

Lemma handleDelete_then_list (s : State) (entryId : value) (m : Machine) (url : jsstring)
    (res : Response) :
  let payload := VObj [ (lit "id", entryId); (lit "entryId", entryId) ] in
  truthy entryId = true ->
  ENDPOINTS.del cfg = Some url -> url <> [] ->
  net w (trace m ++ [EvFetch url (lit "POST") payload]) = NetResponse res ->
  ok res = true ->
  exists m1,
    handleDelete cfg w s entryId m = handleLoadEntries cfg w s m1
    /\ trace m1 = trace m ++ [EvFetch url (lit "POST") payload]
    /\ profile (ui m1) = profile (ui m).
Proof.
  cbv zeta. intros Hid Hc Hurl Hnet Hok.
  unfold handleDelete, handleDelete_try, clearMessages, try_catch, bind.
  rewrite Hid.
  cbn -[lit requireEndpoint apiFetchAbsolute handleLoadEntries].
  rewrite requireEndpoint_eq, Hc.
  destruct url as [|c'' u'']; [contradiction|]. cbn [is_empty].
  rewrite apiFetchAbsolute_eq. cbn [trace]. rewrite Hnet. cbv zeta. rewrite Hok.
  cbn -[lit handleLoadEntries].
  then_list.
Qed.

(** X10. A create whose request succeeds empties the text, whatever the
    reload that follows does. If an upload was pending (the stored URL is
    truthy) the chosen file, the stored URL and the blob name are
    forgotten; if not, they are left as they were. *)
Theorem handleCreateEntry_success (s : State) (m : Machine) (url : jsstring)
    (res : Response) :
  userId s <> [] -> trim (text s) <> [] ->
  ENDPOINTS.create cfg = Some url -> url <> [] ->
  net w (trace m ++ [EvFetch url (lit "POST") (createPayload s (clock w (trace m)))])
  = NetResponse res ->
  ok res = true ->
  let m' := fst (handleCreateEntry cfg w s m) in
  text (ui m') = []
  /\ (truthy (uploadedFileUrl s) = true ->
      file (ui m') = None /\ uploadedFileUrl (ui m') = VStr []
      /\ uploadedBlobName (ui m') = VStr [])
  /\ (truthy (uploadedFileUrl s) = false ->
      file (ui m') = file (ui m) /\ uploadedFileUrl (ui m') = uploadedFileUrl (ui m)
      /\ uploadedBlobName (ui m') = uploadedBlobName (ui m)).
Proof.
  intros Hu Ht Hc Hurl Hnet Hok. cbv zeta.
  destruct (handleCreateEntry_then_list s m url res Hu Ht Hc Hurl Hnet Hok)
    as [m1 [Heq [_ [Htext [_ Hdraft]]]]].
  rewrite Heq.
  pose proof (handleLoadEntries_keeps_draft cfg w s m1) as Hk.
  unfold keeps, draft in Hk. injection Hk as H1 H2 H3 H4.
  rewrite H1, H2, H3, H4. split; [exact Htext|].
  split; intros Htruthy; rewrite Htruthy in Hdraft; exact Hdraft.
Qed.

(** X11. A create whose request fails keeps the draft: when the exchange is
    rejected or the answer has a failure status, the text, the chosen
    file and the stored upload are as before, the failure's message is
    shown, and nothing else is sent. *)
Theorem handleCreateEntry_failure_keeps_draft (s : State) (m : Machine) (url : jsstring) :
  let request := EvFetch url (lit "POST") (createPayload s (clock w (trace m))) in
  userId s <> [] -> trim (text s) <> [] ->
  ENDPOINTS.create cfg = Some url -> url <> [] ->
  let m' := fst (handleCreateEntry cfg w s m) in
  (forall e, net w (trace m ++ [request]) = NetFailed e ->
     draft (ui m') = draft (ui m)
     /\ trace m' = trace m ++ [request; EvCaught e]
     /\ error (ui m') = emessage e /\ status (ui m') = [])
  /\ (forall res, net w (trace m ++ [request]) = NetResponse res -> ok res = false ->
      draft (ui m') = draft (ui m)
      /\ trace m' = trace m ++ [request; EvCaught (raised res)]
      /\ error (ui m') = emessage (raised res) /\ status (ui m') = []).
Proof.
  cbv zeta. intros Hu Ht Hc Hurl.
  unfold handleCreateEntry, handleCreateEntry_try, clearMessages, try_catch, bind.
  destruct (userId s) as [|c u] eqn:Huser; [contradiction|].
  destruct (trim (text s)) as [|c' t] eqn:Htext; [contradiction|]. cbn [is_empty].
  cbn -[lit requireEndpoint apiFetchAbsolute createPayload handleLoadEntries].
  rewrite requireEndpoint_eq, Hc.
  destruct url as [|c'' u'']; [contradiction|]. cbn [is_empty].
  rewrite apiFetchAbsolute_eq. cbn [trace].
  split.
  - intros e Hnet. rewrite Hnet. cbn -[lit createPayload].
    rewrite <- app_assoc. repeat split.
  - intros res Hnet Hok. rewrite Hnet. cbv zeta. rewrite Hok.
    rewrite <- (chosen_message res). cbv zeta.
    destruct (to_string _); cbn -[lit createPayload];
      rewrite <- app_assoc; repeat split.
Qed.

End Writes.

Lemma handleCreateEntry_success_witness :
  text (ui (fst (handleCreateEntry configured (answering entries_wrapped) with_text
                   (start with_text))))
  = [].
Proof.
  refine (proj1 (handleCreateEntry_success configured (answering entries_wrapped)
                   with_text (start with_text) (lit "https://host/create")
                   entries_wrapped _ _ _ _ _ _)).
  all: try reflexivity; vm_compute; discriminate.
Defined.

Lemma handleCreateEntry_failure_keeps_draft_witness :
  draft (ui (fst (handleCreateEntry configured (answering not_found) with_text
                    (start with_text))))
  = draft with_text.
Proof.
  refine (proj1 (proj2 (handleCreateEntry_failure_keeps_draft configured
                          (answering not_found) with_text (start with_text)
                          (lit "https://host/create") _ _ _ _)
                   not_found _ _)).
  all: try reflexivity; vm_compute; discriminate.
Defined.

(* ================================================================== *)
(** ** The reload after a write *)

Section Reload.
Context {NUM : JSNumber} {PLAT : Platform}.
Variable cfg : ENDPOINTS.t.
Variable w : World.

Lemma since_app (m m' : Machine) (evs : list event) :
  trace m' = trace m ++ evs -> since m m' = evs.
Proof.
  intros H. unfold since. rewrite H, skipn_app, skipn_all, Nat.sub_diag. reflexivity.
Qed.

(** With a user id and a list endpoint, the list operation sends one
    request: the user id, posted to that endpoint. *)
Lemma handleLoadEntries_request (s : State) (m1 : Machine) (url : jsstring) :
  userId s <> [] -> ENDPOINTS.get cfg = Some url -> url <> [] ->
  exists rest,
    trace (fst (handleLoadEntries cfg w s m1))
    = trace m1 ++ EvFetch url (lit "POST") (VObj [ (lit "userId", VStr (userId s)) ]) :: rest
    /\ requests_in rest = [].
Proof.
  intros Hu Hg Hurl.
  unfold handleLoadEntries, handleLoadEntries_try, clearMessages, finally, try_catch, bind.
  destruct (userId s) as [|c u] eqn:Huser; [contradiction|]. cbn [is_empty].
  cbn -[lit requireEndpoint apiFetchAbsolute js_or prop isArray].
  rewrite requireEndpoint_eq, Hg.
  destruct url as [|c' u']; [contradiction|]. cbn [is_empty].
  rewrite apiFetchAbsolute_eq. cbv zeta. cbn [trace].
  destruct (net w _) as [e|res].
  - cbn -[lit]. rewrite <- app_assoc. eexists. split; reflexivity.
  - destruct (ok res).
    + cbn -[lit js_or prop isArray body_data]. eexists. split; reflexivity.
    + destruct (to_string _); cbn -[lit]; rewrite <- app_assoc; eexists; split; reflexivity.
Qed.

(** X13. Every write that succeeds is followed by one reload: when a create,
    an update or a delete gets a success answer, and there is a user id
    and a list endpoint, the operation sends two requests in all, the
    write and then the user id posted to the list endpoint. *)
Theorem writes_are_followed_by_reload (s : State) (entryId : value) (m : Machine)
    (listUrl : jsstring) :
  let reload :=
    EvFetch listUrl (lit "POST") (VObj [ (lit "userId", VStr (userId s)) ]) in
  userId s <> [] -> ENDPOINTS.get cfg = Some listUrl -> listUrl <> [] ->
  (forall url res,
     let write := EvFetch url (lit "POST") (createPayload s (clock w (trace m))) in
     trim (text s) <> [] -> ENDPOINTS.create cfg = Some url -> url <> [] ->
     net w (trace m ++ [write]) = NetResponse res -> ok res = true ->
     requests_in (since m (fst (handleCreateEntry cfg w s m))) = [write; reload])
  /\ (forall url res,
        let write :=
          EvFetch url (lit "POST")
            (VObj [ (lit "id", entryId); (lit "entryId", entryId);
                    (lit "text", editText s); (lit "visibility", editVisibility s) ]) in
        truthy entryId = true -> ENDPOINTS.update cfg = Some url -> url <> [] ->
        net w (trace m ++ [write]) = NetResponse res -> ok res = true ->
        requests_in (since m (fst (handleUpdate cfg w s entryId m))) = [write; reload])
  /\ (forall url res,
        let write :=
          EvFetch url (lit "POST")
            (VObj [ (lit "id", entryId); (lit "entryId", entryId) ]) in
        truthy entryId = true -> ENDPOINTS.del cfg = Some url -> url <> [] ->
        net w (trace m ++ [write]) = NetResponse res -> ok res = true ->
        requests_in (since m (fst (handleDelete cfg w s entryId m))) = [write; reload]).
Proof.
  cbv zeta. intros Hu Hg Hlist.
  split; [|split].
  - intros url res Ht Hc Hurl Hnet Hok.
    destruct (handleCreateEntry_then_list cfg w s m url res Hu Ht Hc Hurl Hnet Hok)
      as [m1 [Heq [Htrace _]]].
    destruct (handleLoadEntries_request s m1 listUrl Hu Hg Hlist) as [rest [Hrest Hnone]].
    rewrite Heq. erewrite since_app by (rewrite Hrest, Htrace, <- app_assoc; reflexivity).
    cbn [app requests_in filter]. fold (requests_in rest). rewrite Hnone. reflexivity.
  - intros url res Hid Hc Hurl Hnet Hok.
    destruct (handleUpdate_then_list cfg w s entryId m url res Hid Hc Hurl Hnet Hok)
      as [m1 [Heq [Htrace _]]].
    destruct (handleLoadEntries_request s m1 listUrl Hu Hg Hlist) as [rest [Hrest Hnone]].
    rewrite Heq. erewrite since_app by (rewrite Hrest, Htrace, <- app_assoc; reflexivity).
    cbn [app requests_in filter]. fold (requests_in rest). rewrite Hnone. reflexivity.
  - intros url res Hid Hc Hurl Hnet Hok.
    destruct (handleDelete_then_list cfg w s entryId m url res Hid Hc Hurl Hnet Hok)
      as [m1 [Heq [Htrace _]]].
    destruct (handleLoadEntries_request s m1 listUrl Hu Hg Hlist) as [rest [Hrest Hnone]].
    rewrite Heq. erewrite since_app by (rewrite Hrest, Htrace, <- app_assoc; reflexivity).
    cbn [app requests_in filter]. fold (requests_in rest). rewrite Hnone. reflexivity.
Qed.

Lemma ends_bind {A B} (P : Machine -> Prop) (c : M A) (k : A -> M B) :
  (forall a, ends P (k a)) -> ends P (bind c k).
Proof.
  intros Hk m. unfold bind. destruct (c m) as [m1 [e|a]]; [exact I|]. apply Hk.
Qed.

Lemma ends_list (s : State) : ends loaded_or_failed (handleLoadEntries cfg w s).
Proof.
  intros m. destruct (snd _); [exact I|]. apply handleLoadEntries_loaded_or_failed.
Qed.

(** A [try] block that can only complete through a reload, with a
    [catch] that empties the status. *)
Lemma try_catch_loaded_or_failed (body : M unit) (f : exn -> jsstring) (m : Machine) :
  ends loaded_or_failed body ->
  loaded_or_failed (fst (try_catch body (fun e => setError (f e);; setStatus []) m)).
Proof.
  intros Hb. unfold try_catch. specialize (Hb m).
  destruct (body m) as [m1 [e|a]]; cbn [fst snd] in *; [|exact Hb].
  right. reflexivity.
Qed.

Lemma handleCreateEntry_loaded_or_failed (s : State) (m : Machine) :
  loaded_or_failed (fst (handleCreateEntry cfg w s m)).
Proof.
  unfold handleCreateEntry, clearMessages, bind at 1.
  cbn -[lit try_catch handleCreateEntry_try].
  apply try_catch_loaded_or_failed. unfold handleCreateEntry_try.
  repeat match goal with
         | |- ends _ (bind _ _) => apply ends_bind; intro
         end.
  apply ends_list.
Qed.

Lemma handleUpdate_loaded_or_failed (s : State) (entryId : value) (m : Machine) :
  loaded_or_failed (fst (handleUpdate cfg w s entryId m)).
Proof.
  unfold handleUpdate, clearMessages, bind at 1.
  cbn -[lit try_catch handleUpdate_try].
  apply try_catch_loaded_or_failed. unfold handleUpdate_try.
  repeat match goal with
         | |- ends _ (bind _ _) => apply ends_bind; intro
         end.
  apply ends_list.
Qed.

Lemma handleDelete_loaded_or_failed (s : State) (entryId : value) (m : Machine) :
  loaded_or_failed (fst (handleDelete cfg w s entryId m)).
Proof.
  unfold handleDelete, clearMessages, bind at 1.
  cbn -[lit try_catch handleDelete_try].
  apply try_catch_loaded_or_failed. unfold handleDelete_try.
  repeat match goal with
         | |- ends _ (bind _ _) => apply ends_bind; intro
         end.
  apply ends_list.
Qed.

(** X14. The message of a write never stays: a create, an update or a delete
    ends either with ["Entries loaded ✅"] and no error, or with an
    empty status; ["Entry created ✅"], ["Entry updated ✅"] and
    ["Entry deleted ✅"] are replaced by the reload before the operation
    ends. *)
Theorem writes_end_like_a_reload (s : State) (entryId : value) (m : Machine) :
  loaded_or_failed (fst (handleCreateEntry cfg w s m))
  /\ loaded_or_failed (fst (handleUpdate cfg w s entryId m))
  /\ loaded_or_failed (fst (handleDelete cfg w s entryId m)).
Proof.
  split; [|split].
  - apply handleCreateEntry_loaded_or_failed.
  - apply handleUpdate_loaded_or_failed.
  - apply handleDelete_loaded_or_failed.
Qed.

End Reload.

Lemma writes_are_followed_by_reload_witness :
  requests_in (since (start with_text)
                 (fst (handleCreateEntry configured (answering entries_wrapped) with_text
                         (start with_text))))
  = [ EvFetch (lit "https://host/create") (lit "POST")
        (createPayload with_text
           (clock (answering entries_wrapped) (trace (start with_text))));
      EvFetch (lit "https://host/get") (lit "POST")
        (VObj [ (lit "userId", VStr (userId with_text)) ]) ].
Proof.
  refine (proj1 (writes_are_followed_by_reload configured (answering entries_wrapped)
                   with_text VNull (start with_text) (lit "https://host/get") _ _ _)
            (lit "https://host/create") entries_wrapped _ _ _ _ _).
  all: try reflexivity; vm_compute; discriminate.
Defined.

(* ================================================================== *)
(** ** Update and delete *)

Section UpdateDelete.
Context {NUM : JSNumber} {PLAT : Platform}.
Variable cfg : ENDPOINTS.t.
Variable w : World.

Lemma handleLoadEntries_extends (s : State) (m1 : Machine) :
  exists evs, trace (fst (handleLoadEntries cfg w s m1)) = trace m1 ++ evs.
Proof.
  destruct (handleLoadEntries_contained cfg w s m1) as [evs [_ [Hext _]]].
  exists evs. exact Hext.
Qed.

Lemma handleUpdate_sends (s : State) (entryId : value) (m : Machine) (url : jsstring) :
  truthy entryId = true -> ENDPOINTS.update cfg = Some url -> url <> [] ->
  exists rest,
    trace (fst (handleUpdate cfg w s entryId m))
    = trace m
      ++ EvFetch url (lit "POST")
           (VObj [ (lit "id", entryId); (lit "entryId", entryId);
                   (lit "text", editText s); (lit "visibility", editVisibility s) ])
         :: rest.
Proof.
  intros Hid Hc Hurl.
  destruct (net w (trace m ++ [EvFetch url (lit "POST")
              (VObj [ (lit "id", entryId); (lit "entryId", entryId);
                      (lit "text", editText s); (lit "visibility", editVisibility s) ])]))
    as [e|res] eqn:Hnet; [|destruct (ok res) eqn:Hok].
  - unfold handleUpdate, handleUpdate_try, clearMessages, try_catch, bind. rewrite Hid.
    cbn -[lit requireEndpoint apiFetchAbsolute handleLoadEntries].
    rewrite requireEndpoint_eq, Hc.
    destruct url as [|c u]; [contradiction|]. cbn [is_empty].
    rewrite apiFetchAbsolute_eq. cbn [trace]. rewrite Hnet.
    cbn -[lit]. rewrite <- app_assoc. eexists. reflexivity.
  - destruct (handleUpdate_then_list cfg w s entryId m url res Hid Hc Hurl Hnet Hok)
      as [m1 [Heq [Htrace _]]].
    destruct (handleLoadEntries_extends s m1) as [evs Hevs].
    rewrite Heq, Hevs, Htrace, <- app_assoc. eexists. reflexivity.
  - unfold handleUpdate, handleUpdate_try, clearMessages, try_catch, bind. rewrite Hid.
    cbn -[lit requireEndpoint apiFetchAbsolute handleLoadEntries].
    rewrite requireEndpoint_eq, Hc.
    destruct url as [|c u]; [contradiction|]. cbn [is_empty].
    rewrite apiFetchAbsolute_eq. cbn [trace]. rewrite Hnet. cbv zeta. rewrite Hok.
    destruct (to_string _); cbn -[lit]; rewrite <- app_assoc; eexists; reflexivity.
Qed.

Lemma handleDelete_sends (s : State) (entryId : value) (m : Machine) (url : jsstring) :
  truthy entryId = true -> ENDPOINTS.del cfg = Some url -> url <> [] ->
  exists rest,
    trace (fst (handleDelete cfg w s entryId m))
    = trace m
      ++ EvFetch url (lit "POST") (VObj [ (lit "id", entryId); (lit "entryId", entryId) ])
         :: rest.
Proof.
  intros Hid Hc Hurl.
  destruct (net w (trace m ++ [EvFetch url (lit "POST")
              (VObj [ (lit "id", entryId); (lit "entryId", entryId) ])]))
    as [e|res] eqn:Hnet; [|destruct (ok res) eqn:Hok].
  - unfold handleDelete, handleDelete_try, clearMessages, try_catch, bind. rewrite Hid.
    cbn -[lit requireEndpoint apiFetchAbsolute handleLoadEntries].
    rewrite requireEndpoint_eq, Hc.
    destruct url as [|c u]; [contradiction|]. cbn [is_empty].
    rewrite apiFetchAbsolute_eq. cbn [trace]. rewrite Hnet.
    cbn -[lit]. rewrite <- app_assoc. eexists. reflexivity.
  - destruct (handleDelete_then_list cfg w s entryId m url res Hid Hc Hurl Hnet Hok)
      as [m1 [Heq [Htrace _]]].
    destruct (handleLoadEntries_extends s m1) as [evs Hevs].
    rewrite Heq, Hevs, Htrace, <- app_assoc. eexists. reflexivity.
  - unfold handleDelete, handleDelete_try, clearMessages, try_catch, bind. rewrite Hid.
    cbn -[lit requireEndpoint apiFetchAbsolute handleLoadEntries].
    rewrite requireEndpoint_eq, Hc.
    destruct url as [|c u]; [contradiction|]. cbn [is_empty].
    rewrite apiFetchAbsolute_eq. cbn [trace]. rewrite Hnet. cbv zeta. rewrite Hok.
    destruct (to_string _); cbn -[lit]; rewrite <- app_assoc; eexists; reflexivity.
Qed.

(** X15. The entry id travels under two keys. With a truthy entry id and an
    endpoint, the first thing an update does is to post the id as both
    [id] and [entryId], with the text and visibility of the edit form;
    the first thing a delete does is to post the id as both [id] and
    [entryId], and nothing else. *)
Theorem update_and_delete_requests (s : State) (entryId : value) (m : Machine) :
  truthy entryId = true ->
  (forall url, ENDPOINTS.update cfg = Some url -> url <> [] ->
     exists rest,
       trace (fst (handleUpdate cfg w s entryId m))
       = trace m
         ++ EvFetch url (lit "POST")
              (VObj [ (lit "id", entryId); (lit "entryId", entryId);
                      (lit "text", editText s); (lit "visibility", editVisibility s) ])
            :: rest)
  /\ (forall url, ENDPOINTS.del cfg = Some url -> url <> [] ->
        exists rest,
          trace (fst (handleDelete cfg w s entryId m))
          = trace m
            ++ EvFetch url (lit "POST")
                 (VObj [ (lit "id", entryId); (lit "entryId", entryId) ])
               :: rest).
Proof.
  intros Hid. split; intros url Hc Hurl.
  - apply handleUpdate_sends; assumption.
  - apply handleDelete_sends; assumption.
Qed.

(** X16. An update whose request succeeds leaves the edit form (no entry
    being edited, empty text, visibility "private"), whatever the reload
    that follows does; an update whose request fails keeps the edit form
    as it was, so that the edit can be sent again. *)
Theorem handleUpdate_edit_form (s : State) (entryId : value) (m : Machine) (url : jsstring) :
  let request :=
    EvFetch url (lit "POST")
      (VObj [ (lit "id", entryId); (lit "entryId", entryId);
              (lit "text", editText s); (lit "visibility", editVisibility s) ]) in
  truthy entryId = true -> ENDPOINTS.update cfg = Some url -> url <> [] ->
  let m' := fst (handleUpdate cfg w s entryId m) in
  (forall res, net w (trace m ++ [request]) = NetResponse res -> ok res = true ->
     editing (ui m') = (VNull, VStr [], VStr (lit "private")))
  /\ (forall res, net w (trace m ++ [request]) = NetResponse res -> ok res = false ->
      editing (ui m') = editing (ui m))
  /\ (forall e, net w (trace m ++ [request]) = NetFailed e ->
      editing (ui m') = editing (ui m)).
Proof.
  cbv zeta. intros Hid Hc Hurl. split; [|split].
  - intros res Hnet Hok.
    destruct (handleUpdate_then_list cfg w s entryId m url res Hid Hc Hurl Hnet Hok)
      as [m1 [Heq [_ [Hedit _]]]].
    rewrite Heq. rewrite (handleLoadEntries_keeps_editing cfg w s m1). exact Hedit.
  - intros res Hnet Hok.
    unfold handleUpdate, handleUpdate_try, clearMessages, try_catch, bind. rewrite Hid.
    cbn -[lit requireEndpoint apiFetchAbsolute handleLoadEntries].
    rewrite requireEndpoint_eq, Hc.
    destruct url as [|c u]; [contradiction|]. cbn [is_empty].
    rewrite apiFetchAbsolute_eq. cbn [trace]. rewrite Hnet. cbv zeta. rewrite Hok.
    destruct (to_string _); reflexivity.
  - intros e Hnet.
    unfold handleUpdate, handleUpdate_try, clearMessages, try_catch, bind. rewrite Hid.
    cbn -[lit requireEndpoint apiFetchAbsolute handleLoadEntries].
    rewrite requireEndpoint_eq, Hc.
    destruct url as [|c u]; [contradiction|]. cbn [is_empty].
    rewrite apiFetchAbsolute_eq. cbn [trace]. rewrite Hnet. reflexivity.
Qed.

(** X17. Editing an entry and saving it at once sends the entry back as it
    was: for an entry object with a truthy [id], "Edit" followed by
    "Save" posts the entry's id under both keys, its text (or the empty
    string when falsy) and its visibility (or "private" when falsy). *)
Theorem edit_then_save (o : list (jsstring * value)) (m : Machine) (url : jsstring) :
  let entry := VObj o in
  truthy (prop entry (lit "id")) = true ->
  ENDPOINTS.update cfg = Some url -> url <> [] ->
  exists rest,
    trace (session cfg w [ClickEdit entry; ClickSave (prop entry (lit "id"))] m)
    = trace m
      ++ EvFetch url (lit "POST")
           (VObj [ (lit "id", prop entry (lit "id"));
                   (lit "entryId", prop entry (lit "id"));
                   (lit "text", js_or (prop entry (lit "text")) (VStr []));
                   (lit "visibility",
                     js_or (prop entry (lit "visibility")) (VStr (lit "private"))) ])
         :: rest.
Proof.
  cbv zeta. intros Hid Hc Hurl. cbn [session perform]. unfold click.
  set (m1 := fst (startEdit (VObj o) m)).
  assert (Htrace : trace m1 = trace m) by reflexivity.
  assert (Htext : editText (ui m1) = js_or (prop (VObj o) (lit "text")) (VStr []))
    by reflexivity.
  assert (Hvis : editVisibility (ui m1)
                 = js_or (prop (VObj o) (lit "visibility")) (VStr (lit "private")))
    by reflexivity.
  destruct (handleUpdate_sends (ui m1) (prop (VObj o) (lit "id")) m1 url Hid Hc Hurl)
    as [rest Hrest].
  exists rest. rewrite Hrest, Htrace, Htext, Hvis. reflexivity.
Qed.

End UpdateDelete.

Lemma update_and_delete_requests_witness :
  exists rest,
    trace (fst (handleDelete configured (answering no_content) initialState
                  (VStr (lit "e1")) (start initialState)))
    = trace (start initialState)
      ++ EvFetch (lit "https://host/delete") (lit "POST")
           (VObj [ (lit "id", VStr (lit "e1")); (lit "entryId", VStr (lit "e1")) ])
         :: rest.
Proof.
  refine (proj2 (update_and_delete_requests configured (answering no_content)
                   initialState (VStr (lit "e1")) (start initialState) _)
            (lit "https://host/delete") _ _).
  all: try reflexivity; vm_compute; discriminate.
Defined.

Lemma handleUpdate_edit_form_witness :
  editing (ui (fst (handleUpdate configured (answering no_content) initialState
                      (VStr (lit "e1")) (start initialState))))
  = (VNull, VStr [], VStr (lit "private")).
Proof.
  refine (proj1 (handleUpdate_edit_form configured (answering no_content) initialState
                   (VStr (lit "e1")) (start initialState) (lit "https://host/update")
                   _ _ _)
            no_content _ _).
  all: try reflexivity; vm_compute; discriminate.
Defined.

Lemma edit_then_save_witness :
  exists rest,
    trace (session configured (answering no_content)
             [ ClickEdit (VObj [ (lit "id", VStr (lit "e1")) ]);
               ClickSave (prop (VObj [ (lit "id", VStr (lit "e1")) ]) (lit "id")) ]
             (start initialState))
    = trace (start initialState)
      ++ EvFetch (lit "https://host/update") (lit "POST")
           (VObj [ (lit "id", prop (VObj [ (lit "id", VStr (lit "e1")) ]) (lit "id"));
                   (lit "entryId", prop (VObj [ (lit "id", VStr (lit "e1")) ]) (lit "id"));
                   (lit "text",
                     js_or (prop (VObj [ (lit "id", VStr (lit "e1")) ]) (lit "text"))
                       (VStr []));
                   (lit "visibility",
                     js_or (prop (VObj [ (lit "id", VStr (lit "e1")) ]) (lit "visibility"))
                       (VStr (lit "private"))) ])
         :: rest.
Proof.
  refine (edit_then_save configured (answering no_content)
            [ (lit "id", VStr (lit "e1")) ] (start initialState)
            (lit "https://host/update") _ _ _).
  all: try reflexivity; vm_compute; discriminate.
Defined.

(* ================================================================== *)
(** ** The loading flag *)

(** As [stable_steps], with the list operation taken as one step, known
    by [Hlist]. *)
Ltac stable_steps_around_list Hr Ht Hlist :=
  repeat first
    [ apply Hlist
    | apply stable_click; intro
    | apply (stable_ret _ Hr)
    | apply (stable_throw _ Hr)
    | apply (stable_toIsoNow _ _ Hr)
    | apply (stable_requireEndpoint _ Hr)
    | apply (stable_member _ Hr)
    | apply (stable_readFileAsBase64 _ _ Hr Ht)
    | apply (stable_apiFetchAbsolute _ _ Hr Ht)
    | apply (stable_bind _ Ht); [|intro]
    | apply (stable_try_catch _ Ht); [|intro|intro]
    | match goal with
      | |- stable _ (if ?b then _ else _) => destruct b
      | |- stable _ (match ?x with _ => _ end) => destruct x
      end
    | progress unfold handleUpload, handleUpload_try, handleCreateEntry,
        handleCreateEntry_try, handleUpdate, handleUpdate_try, handleDelete,
        handleDelete_try, addMoodEntry, startEdit, cancelEdit, clearMessages ].

Section LoadingFlag.
Context {NUM : JSNumber} {PLAT : Platform}.
Variable cfg : ENDPOINTS.t.
Variable w : World.

Lemma loading_off_or_kept_refl (m : Machine) : loading_off_or_kept m m.
Proof. right. reflexivity. Qed.

Lemma loading_off_or_kept_trans (a b c : Machine) :
  loading_off_or_kept a b -> loading_off_or_kept b c -> loading_off_or_kept a c.
Proof.
  unfold loading_off_or_kept. intros [H1|H1] [H2|H2]; rewrite ?H2, ?H1; auto.
Qed.

Lemma handleLoadEntries_loading (s : State) :
  stable loading_off_or_kept (handleLoadEntries cfg w s).
Proof. intros m. left. apply handleLoadEntries_loading_off. Qed.

Lemma perform_loading (a : action) : stable loading_off_or_kept (perform cfg w a).
Proof.
  destruct a; unfold perform;
    stable_steps_around_list loading_off_or_kept_refl loading_off_or_kept_trans
      handleLoadEntries_loading;
    intros m; right; reflexivity.
Qed.

(** X18. The loading flag is never left on: whatever the user does and
    whatever the network answers, after each action has run to its end
    [loadingEntries] is false, so the "Load entries" button is not stuck
    on "Loading...". *)
Theorem loadingEntries_never_stuck (actions : list action) :
  loadingEntries (ui (session cfg w actions (start initialState))) = false.
Proof.
  assert (H : forall m, loadingEntries (ui m) = false ->
                        loadingEntries (ui (session cfg w actions m)) = false).
  { induction actions as [|a rest IH]; intros m Hm; cbn [session]; [exact Hm|].
    apply IH. destruct (perform_loading a m) as [Hoff|Hkept]; congruence. }
  apply H. reflexivity.
Qed.

End LoadingFlag.

(* ================================================================== *)
(** ** The parts of a reply *)

Lemma numbered_not_blank (i : N) (suggestions : list jsstring) :
  filter (fun line => negb (is_empty line)) (numbered i suggestions)
  = numbered i suggestions.
Proof.
  revert i. induction suggestions as [|s r IH]; intros i; [reflexivity|].
  cbn [numbered filter]. rewrite IH.
  change (lit ". ") with [46; 32].
  destruct (N_to_string (i + 1)); reflexivity.
Qed.

Lemma contextLine_not_blank (shown : jsstring) : is_empty (contextLine shown) = false.
Proof. vm_compute. reflexivity. Qed.

Lemma closingLine_not_blank (userText : jsstring) : is_empty (closingLine userText) = false.
Proof.
  unfold closingLine. generalize (excerpt userText). intros shown.
  vm_compute. reflexivity.
Qed.

Lemma preamble_not_blank (mood : Z) : is_empty (preamble mood) = false.
Proof.
  unfold preamble. generalize (Z_to_string mood). intros shown.
  vm_compute. reflexivity.
Qed.

Lemma optional_lines_of (no_entry no_message : bool) (context closing : jsstring) :
  is_empty context = false -> is_empty closing = false ->
  filter (fun line => negb (is_empty line))
    [ if negb no_entry then context else []; if negb no_message then closing else [] ]
  = (if no_entry then [] else [context]) ++ (if no_message then [] else [closing]).
Proof.
  intros Hc Hl. destruct no_entry, no_message; cbn [negb filter is_empty app];
    rewrite ?Hc, ?Hl; reflexivity.
Qed.

Lemma optional_lines (userText lastEntryText : jsstring) :
  filter (fun line => negb (is_empty line))
    [ if negb (is_empty lastEntryText) then contextLine (excerpt lastEntryText) else [];
      if negb (is_empty userText) then closingLine userText else [] ]
  = (if is_empty lastEntryText then [] else [contextLine (excerpt lastEntryText)])
    ++ (if is_empty userText then [] else [closingLine userText]).
Proof.
  apply optional_lines_of; [apply contextLine_not_blank|apply closingLine_not_blank].
Qed.

Lemma compose_eq (suggestions : list jsstring) (mood : Z)
    (userText lastEntryText : jsstring) :
  compose suggestions mood userText lastEntryText
  = join [10]
      (filter (fun line => negb (is_empty line))
         ([preamble mood] ++ numbered 0 suggestions
          ++ [ if negb (is_empty lastEntryText) then contextLine (excerpt lastEntryText) else [];
               if negb (is_empty userText) then closingLine userText else [] ])).
Proof.
  unfold compose, preamble, contextLine, closingLine. cbv zeta.
  replace (lit (String (ascii_of_nat 10) EmptyString)) with [10] by (vm_compute; reflexivity).
  reflexivity.
Qed.

Lemma compose_lines (suggestions : list jsstring) (mood : Z)
    (userText lastEntryText : jsstring) :
  compose suggestions mood userText lastEntryText
  = join [10]
      (preamble mood :: numbered 0 suggestions
       ++ (if is_empty lastEntryText then [] else [contextLine (excerpt lastEntryText)])
       ++ (if is_empty userText then [] else [closingLine userText])).
Proof.
  rewrite compose_eq, !filter_app, numbered_not_blank, optional_lines.
  change (filter (fun line => negb (is_empty line)) [preamble mood])
    with (if negb (is_empty (preamble mood)) then [preamble mood] else []).
  rewrite preamble_not_blank. reflexivity.
Qed.

Lemma numbered_three (a b c : jsstring) :
  numbered 0 [a; b; c] = [lit "1. " ++ a; lit "2. " ++ b; lit "3. " ++ c].
Proof. vm_compute. reflexivity. Qed.

Lemma join_last (sep : jsstring) (x : jsstring) (xs : list jsstring) (y : jsstring) :
  join sep ((x :: xs) ++ [y]) = join sep (x :: xs) ++ sep ++ y.
Proof.
  revert x. induction xs as [|x' xs IH]; intros x; [reflexivity|].
  change (join sep ((x :: x' :: xs) ++ [y])) with (x ++ sep ++ join sep ((x' :: xs) ++ [y])).
  rewrite IH. change (join sep (x :: x' :: xs)) with (x ++ sep ++ join sep (x' :: xs)).
  rewrite <- !app_assoc. reflexivity.
Qed.

(** X19. A reply is four to six parts joined by single line feeds, none
    of them empty: the preamble naming the score, the three prompts of
    the score's bucket numbered 1 to 3, then a part quoting the last
    entry if its text is not empty, then a part quoting the user's
    message if it is not empty. The quoted texts are put in as they
    are, so a part holds the line feeds of the text it quotes. *)
Theorem buildMockReply_parts (mood : Z) (userText lastEntryText : jsstring) :
  exists a b c,
    promptsByMood (moodLabel mood) = [a; b; c]
    /\ buildMockReply mood userText lastEntryText
       = join [10]
           ([ preamble mood; lit "1. " ++ a; lit "2. " ++ b; lit "3. " ++ c ]
            ++ (if is_empty lastEntryText then []
                else [contextLine (excerpt lastEntryText)])
            ++ (if is_empty userText then [] else [closingLine userText])).
Proof.
  unfold buildMockReply. cbv zeta. rewrite compose_lines.
  destruct (moodLabel mood); cbn [promptsByMood]; do 3 eexists; (split; [reflexivity|]);
    rewrite numbered_three; reflexivity.
Qed.

(** X20. The user's message is quoted on the last line of the reply, cut to
    its first 120 code units followed by an ellipsis when it is longer
    than that, and whole otherwise. *)
Theorem buildMockReply_quotes_message (mood : Z) (userText lastEntryText : jsstring) :
  userText <> [] ->
  exists head,
    buildMockReply mood userText lastEntryText
    = head ++ [10]
      ++ lit "If you want, tell me more about: “"
      ++ (if (120 <? List.length userText)%nat
          then firstn 120 userText ++ lit "…"
          else userText)
      ++ lit "”".
Proof.
  intros Hu. unfold buildMockReply. cbv zeta. rewrite compose_lines.
  destruct userText as [|c u] eqn:Htext; [contradiction|]. cbn [is_empty].
  rewrite <- Htext.
  assert (Hclosing : closingLine userText
                     = lit "If you want, tell me more about: “"
                       ++ (if (120 <? List.length userText)%nat
                           then firstn 120 userText ++ lit "…"
                           else userText)
                       ++ lit "”").
  { unfold closingLine, excerpt, slice_to.
    destruct (Nat.ltb_spec 120 (List.length userText)) as [Hlong|Hshort].
    - reflexivity.
    - rewrite firstn_all2 by lia. rewrite app_nil_r. reflexivity. }
  rewrite <- Hclosing.
  rewrite app_assoc, app_comm_cons, join_last. eexists. reflexivity.
Qed.

Lemma buildMockReply_quotes_message_witness :
  exists head,
    buildMockReply 4 (repeat 97 130) []
    = head ++ [10]
      ++ lit "If you want, tell me more about: “"
      ++ (if (120 <? List.length (repeat 97 130))%nat
          then firstn 120 (repeat 97 130) ++ lit "…"
          else repeat 97 130)
      ++ lit "”".
Proof.
  refine (buildMockReply_quotes_message 4 (repeat 97 130) [] _).
  vm_compute. discriminate.
Defined.

(* ================================================================== *)
(** ** The assistant panel *)

Section AssistantPanel.
Context {NUM : JSNumber}.

Lemma chat_step_appends (a : chat_action) (p : Panel) :
  is_chat_clear a = false ->
  exists added, assistantMessages (chat_step a p) = assistantMessages p ++ added.
Proof.
  intros Ha. destruct a; try discriminate Ha; cbn [chat_step].
  - exists []. cbn. now rewrite app_nil_r.
  - unfold handleAssistantSend. cbv zeta.
    destruct (is_empty (trim (assistantInput p))).
    + exists []. now rewrite app_nil_r.
    + eexists. reflexivity.
  - unfold fireTimer. destruct (timers p) as [|tm rest].
    + exists []. now rewrite app_nil_r.
    + destruct (buildMockReplyOf _ _ _).
      * eexists. reflexivity.
      * exists []. cbn. now rewrite app_nil_r.
Qed.

Lemma chat_step_greeting (a : chat_action) (p : Panel) :
  (exists rest, assistantMessages p = greeting :: rest) ->
  exists rest, assistantMessages (chat_step a p) = greeting :: rest.
Proof.
  intros [rest Hp]. destruct (is_chat_clear a) eqn:Ha.
  - destruct a; try discriminate Ha. exists []. reflexivity.
  - destruct (chat_step_appends a p Ha) as [added Hadd].
    exists (rest ++ added). rewrite Hadd, Hp. reflexivity.
Qed.

(** X21. The transcript only grows, and it always opens with the greeting:
    typing, sending and replies add messages at the end and change none
    of those before; "Clear" is the one action that removes messages, and
    it leaves the greeting. *)
Theorem transcript_grows (actions : list chat_action) :
  (exists rest,
     assistantMessages (chat_session actions initialPanel) = greeting :: rest)
  /\ (forall p, forallb (fun a => negb (is_chat_clear a)) actions = true ->
      exists added,
        assistantMessages (chat_session actions p) = assistantMessages p ++ added).
Proof.
  split.
  - assert (H : forall p, (exists rest, assistantMessages p = greeting :: rest) ->
                exists rest, assistantMessages (chat_session actions p) = greeting :: rest).
    { induction actions as [|a r IH]; intros p Hp; cbn [chat_session]; [exact Hp|].
      apply IH, chat_step_greeting, Hp. }
    apply H. exists []. reflexivity.
  - induction actions as [|a r IH]; intros p Hall; cbn [chat_session].
    + exists []. now rewrite app_nil_r.
    + cbn [forallb] in Hall. apply andb_prop in Hall. destruct Hall as [Ha Hr].
      apply negb_true_iff in Ha.
      destruct (chat_step_appends a p Ha) as [added1 H1].
      destruct (IH (chat_step a p) Hr) as [added2 H2].
      exists (added1 ++ added2). rewrite H2, H1, app_assoc. reflexivity.
Qed.

(** What the panel sends to [buildMockReply] about the last entry. *)
Lemma last_entry_text (s : State) (o : list (jsstring * value)) (more : list value)
    (last : jsstring) :
  entries s = VArr (VObj o :: more) -> lookup (lit "text") o = VStr last ->
  js_or (prop (first_of (entries s)) (lit "text")) (VStr []) = VStr last.
Proof.
  intros He Ht. rewrite He. cbn [first_of prop]. rewrite Ht.
  unfold js_or. cbn [truthy]. destruct last; reflexivity.
Qed.

(** X22. A message and its reply. With no reply pending, sending a message
    that is not blank puts the trimmed message in the transcript and
    empties the box; when the timer runs out the reply is added after
    it. The reply is the one built from the mood at the time of sending
    and the text of the first loaded entry at that time, or no entry
    text when no entry is loaded. *)
Theorem message_then_reply (s : State) (p : Panel) :
  let t := trim (assistantInput p) in
  timers p = [] -> t <> [] ->
  (forall o more last,
     entries s = VArr (VObj o :: more) -> lookup (lit "text") o = VStr last ->
     chat_session [ChatSend s; ChatFire] p
     = {| assistantInput := [];
          assistantMessages :=
            assistantMessages p
            ++ [ userMessage t; assistantMessage (buildMockReply (mood s) t last) ];
          timers := [] |})
  /\ (entries s = VArr [] ->
      chat_session [ChatSend s; ChatFire] p
      = {| assistantInput := [];
           assistantMessages :=
             assistantMessages p
             ++ [ userMessage t; assistantMessage (buildMockReply (mood s) t []) ];
           timers := [] |}).
Proof.
  cbv zeta. intros Htimers Ht. split.
  - intros o more last He Hl. cbn [chat_session chat_step].
    unfold handleAssistantSend. cbv zeta.
    destruct (trim (assistantInput p)) as [|c t] eqn:Htrim; [contradiction|].
    cbn [is_empty]. rewrite (last_entry_text s o more last He Hl), Htimers.
    unfold fireTimer. cbn -[buildMockReply lit]. rewrite <- app_assoc. reflexivity.
  - intros He. cbn [chat_session chat_step].
    unfold handleAssistantSend. cbv zeta.
    destruct (trim (assistantInput p)) as [|c t] eqn:Htrim; [contradiction|].
    cbn [is_empty]. rewrite He, Htimers.
    unfold fireTimer. cbn -[buildMockReply lit]. rewrite <- app_assoc. reflexivity.
Qed.

(** X23. "Clear" does not cancel a pending reply: when it is clicked between
    a message and its reply, the reply still arrives, and the transcript
    is then the greeting followed by that reply. *)
Theorem clear_keeps_pending_reply (s : State) (p : Panel) (o : list (jsstring * value))
    (more : list value) (last : jsstring) :
  let t := trim (assistantInput p) in
  timers p = [] -> t <> [] ->
  entries s = VArr (VObj o :: more) -> lookup (lit "text") o = VStr last ->
  assistantMessages (chat_session [ChatSend s; ChatClear; ChatFire] p)
  = [ greeting; assistantMessage (buildMockReply (mood s) t last) ].
Proof.
  cbv zeta. intros Htimers Ht He Hl. cbn [chat_session chat_step].
  unfold handleAssistantSend. cbv zeta.
  destruct (trim (assistantInput p)) as [|c t] eqn:Htrim; [contradiction|].
  cbn [is_empty]. rewrite (last_entry_text s o more last He Hl), Htimers.
  unfold fireTimer, clearChat. cbn -[buildMockReply lit greeting]. reflexivity.
Qed.

(** X24. A message can stay unanswered: when the text of the first loaded
    entry is truthy and neither a string nor an array (a number, [true],
    an object), the callback fails on [slice] and adds nothing; the
    transcript ends with the user's message and no reply is pending. *)
Theorem reply_lost_for_other_text (s : State) (p : Panel) (o : list (jsstring * value))
    (more : list value) :
  let t := trim (assistantInput p) in
  let lastEntryText := lookup (lit "text") o in
  timers p = [] -> t <> [] ->
  entries s = VArr (VObj o :: more) ->
  truthy lastEntryText = true ->
  (forall str, lastEntryText <> VStr str) -> (forall l, lastEntryText <> VArr l) ->
  chat_session [ChatSend s; ChatFire] p
  = {| assistantInput := [];
       assistantMessages := assistantMessages p ++ [ userMessage t ];
       timers := [] |}.
Proof.
  cbv zeta. intros Htimers Ht He Htruthy Hstr Harr. cbn [chat_session chat_step].
  unfold handleAssistantSend. cbv zeta.
  destruct (trim (assistantInput p)) as [|c t] eqn:Htrim; [contradiction|].
  cbn [is_empty]. rewrite He, Htimers. cbn [first_of prop].
  unfold js_or. rewrite Htruthy.
  unfold fireTimer. cbn [timers app timer_mood timer_userText timer_lastEntryText].
  destruct (lookup (lit "text") o) as [| |b|n|str|l|o'] eqn:Hl;
    try discriminate Htruthy.
  - cbn [buildMockReplyOf]. rewrite Htruthy. reflexivity.
  - cbn [buildMockReplyOf]. rewrite Htruthy. reflexivity.
  - exfalso. exact (Hstr str eq_refl).
  - exfalso. exact (Harr l eq_refl).
  - reflexivity.
Qed.

End AssistantPanel.

Lemma transcript_grows_witness :
  exists added,
    assistantMessages
      (chat_session [ChatType (lit " rough day "); ChatSend loaded_entry; ChatFire] initialPanel)
    = assistantMessages initialPanel ++ added.
Proof.
  refine (proj2 (transcript_grows
                   [ChatType (lit " rough day "); ChatSend loaded_entry; ChatFire])
            initialPanel _).
  reflexivity.
Defined.

Lemma reply_lost_for_other_text_witness :
  chat_session [ChatSend numeric_entry; ChatFire]
    (setAssistantInput (lit " rough day ") initialPanel)
  = {| assistantInput := [];
       assistantMessages :=
         assistantMessages (setAssistantInput (lit " rough day ") initialPanel)
         ++ [ userMessage
                (trim (assistantInput (setAssistantInput (lit " rough day ") initialPanel))) ];
       timers := [] |}.
Proof.
  refine (reply_lost_for_other_text numeric_entry
            (setAssistantInput (lit " rough day ") initialPanel)
            [ (lit "id", VStr (lit "e1")); (lit "text", VNum (lit "5")) ] [] _ _ _ _ _ _).
  all: try reflexivity; try (vm_compute; discriminate);
    intros x; vm_compute; discriminate.
Defined.

Lemma message_then_reply_witness :
  chat_session [ChatSend loaded_entry; ChatFire] (setAssistantInput (lit " rough day ") initialPanel)
  = {| assistantInput := [];
       assistantMessages :=
         assistantMessages (setAssistantInput (lit " rough day ") initialPanel)
         ++ [ userMessage (trim (assistantInput (setAssistantInput (lit " rough day ") initialPanel)));
              assistantMessage
                (buildMockReply (mood loaded_entry)
                   (trim (assistantInput (setAssistantInput (lit " rough day ") initialPanel)))
                   (lit "Felt okay today")) ];
       timers := [] |}.
Proof.
  refine (proj1 (message_then_reply loaded_entry
                   (setAssistantInput (lit " rough day ") initialPanel) _ _)
            [ (lit "id", VStr (lit "e1")); (lit "text", VStr (lit "Felt okay today")) ]
            [] (lit "Felt okay today") _ _).
  all: try reflexivity; vm_compute; discriminate.
Defined.

Lemma clear_keeps_pending_reply_witness :
  assistantMessages
    (chat_session [ChatSend loaded_entry; ChatClear; ChatFire]
       (setAssistantInput (lit " rough day ") initialPanel))
  = [ greeting;
      assistantMessage
        (buildMockReply (mood loaded_entry)
           (trim (assistantInput (setAssistantInput (lit " rough day ") initialPanel)))
           (lit "Felt okay today")) ].
Proof.
  refine (clear_keeps_pending_reply loaded_entry
            (setAssistantInput (lit " rough day ") initialPanel)
            [ (lit "id", VStr (lit "e1")); (lit "text", VStr (lit "Felt okay today")) ]
            [] (lit "Felt okay today") _ _ _ _).
  all: try reflexivity; vm_compute; discriminate.
Defined.
